(** * TNG trajectory I/O: the public interface of [tng_io.h] and the file
    engine behind it.

    The repository ships the interface header [src/lib/tng_io.h]: its
    enumerations, its macro constants and the prototypes of the API.  The
    first part of this development embeds that header.  The engine itself
    ([tng_io.c], [md5.c]) is not part of these sources; the second
    part models the behaviour its documentation describes, and every
    definition of that part says so. *)

From Stdlib Require Import ZArith Lia String Ascii Bool.
From stdpp Require Import base list.

Local Open Scope Z_scope.
Local Open Scope string_scope.

(** ** The header [tng_io.h] *)

Module Header.

(** *** Macro constants *)

(** The version of this TNG build *)
Definition TNG_VERSION : Z := 1.
(** Flag to indicate particle dependent data. *)
Definition TNG_PARTICLE_DEPENDENT : Z := 1.
(** Flag to indicate frame dependent data. *)
Definition TNG_FRAME_DEPENDENT : Z := 2.
(** The maximum length of a date string *)
Definition TNG_MAX_DATE_STR_LEN : Z := 24.
(** The length of an MD5 hash *)
Definition TNG_HASH_LEN : Z := 16.
(** The maximum allowed length of a string *)
Definition TNG_MAX_STR_LEN : Z := 1024.

(** *** Enumerations

    An enumeration is kept as it is written: a tag and the list of its
    enumerators, each with its initialiser when the header gives one. *)

Record c_enum := CEnum {
  enum_tag : string;
  enum_items : list (string * option Z)
}.

(** The value of an enumerator is its initialiser; without one it is the
    value of the previous enumerator plus one, and 0 for the first. *)
Fixpoint enum_number (next : Z) (items : list (string * option Z))
  : list (string * Z) :=
  match items with
  | [] => []
  | (x, init) :: rest =>
      let v := match init with Some k => k | None => next end in
      (x, v) :: enum_number (v + 1) rest
  end.

Definition enum_constants (e : c_enum) : list (string * Z) :=
  enum_number 0 (enum_items e).

Fixpoint assoc_string {A : Type} (x : string) (l : list (string * A))
  : option A :=
  match l with
  | [] => None
  | (y, a) :: rest => if String.eqb x y then Some a else assoc_string x rest
  end.

Definition enum_value (e : c_enum) (x : string) : option Z :=
  assoc_string x (enum_constants e).

Definition tng_endianness_32 : c_enum :=
  CEnum "tng_endianness_32"
    [("TNG_BIG_ENDIAN_32", None);
     ("TNG_LITTLE_ENDIAN_32", None);
     ("TNG_BYTE_PAIR_SWAP_32", None)].

Definition tng_endianness_64 : c_enum :=
  CEnum "tng_endianness_64"
    [("TNG_BIG_ENDIAN_64", None);
     ("TNG_LITTLE_ENDIAN_64", None);
     ("TNG_QUAD_SWAP_64", None);
     ("TNG_BYTE_PAIR_SWAP_64", None);
     ("TNG_BYTE_SWAP_64", None)].

Definition tng_compression : c_enum :=
  CEnum "tng_compression"
    [("TNG_UNCOMPRESSED", None);
     ("TNG_XTC_COMPRESSION", None);
     ("TNG_TNG_COMPRESSION", None)].

Definition tng_block_type : c_enum :=
  CEnum "tng_block_type"
    [("TNG_NON_TRAJECTORY_BLOCK", None); ("TNG_TRAJECTORY_BLOCK", None)].

Definition tng_non_trajectory_block_ids : c_enum :=
  CEnum "tng_non_trajectory_block_ids"
    [("TNG_ENDIANNESS_AND_STRING_LENGTH", None);
     ("TNG_GENERAL_INFO", None);
     ("TNG_MOLECULES", None);
     ("TNG_TRAJECTORY_IDS_AND_NAMES", None);
     ("TNG_TRAJECTORY_FRAME_SET", None);
     ("TNG_BLOCK_TABLE_OF_CONTENTS", None);
     ("TNG_PARTICLE_MAPPING", None)].

Definition tng_trajectory_block_ids : c_enum :=
  CEnum "tng_trajectory_block_ids"
    [("TNG_TRAJ_BOX_SHAPE", Some 10000);
     ("TNG_TRAJ_POSITIONS", None);
     ("TNG_TRAJ_VELOCITIES", None);
     ("TNG_TRAJ_FORCES", None)].

Definition tng_particle_block_data : c_enum :=
  CEnum "tng_particle_block_data"
    [("TNG_NON_PARTICLE_BLOCK_DATA", None);
     ("TNG_PARTICLE_BLOCK_DATA", None)].

Definition tng_bool : c_enum :=
  CEnum "tng_bool" [("FALSE", None); ("TRUE", None)].

Definition tng_variable_n_atoms_flag : c_enum :=
  CEnum "tng_variable_n_atoms_flag"
    [("TNG_CONSTANT_N_ATOMS", None); ("TNG_VARIABLE_N_ATOMS", None)].

Definition tng_function_status : c_enum :=
  CEnum "tng_function_status"
    [("TNG_SUCCESS", None); ("TNG_FAILURE", None); ("TNG_CRITICAL", None)].

Definition tng_hash_mode : c_enum :=
  CEnum "tng_hash_mode" [("TNG_SKIP_HASH", None); ("TNG_USE_HASH", None)].

Definition tng_data_type : c_enum :=
  CEnum "tng_data_type"
    [("TNG_CHAR_DATA", None);
     ("TNG_INT_DATA", None);
     ("TNG_FLOAT_DATA", None);
     ("TNG_DOUBLE_DATA", None)].

(** No element of the list occurs twice. *)
Fixpoint distinctb {A : Type} (eqb : A -> A -> bool) (l : list A) : bool :=
  match l with
  | [] => true
  | x :: rest => negb (existsb (eqb x) rest) && distinctb eqb rest
  end.

(** The enumerations of the header, in the order of their declaration. *)
Definition enums : list c_enum :=
  [tng_endianness_32; tng_endianness_64; tng_compression; tng_block_type;
   tng_non_trajectory_block_ids; tng_trajectory_block_ids;
   tng_particle_block_data; tng_bool; tng_variable_n_atoms_flag;
   tng_function_status; tng_hash_mode; tng_data_type].

(** *** Types of the prototypes *)

Inductive c_base :=
| c_void
| c_char
| c_int
| c_float
| c_double
| c_int64_t
| c_struct (tag : string)
| c_union (tag : string)
| c_enum_type (tag : string).

(** [c_const] qualifies the base type; [c_stars] counts the pointer
    declarators around it. *)
Record c_type := CType {
  c_const : bool;
  c_base_of : c_base;
  c_stars : nat
}.

Definition ty (b : c_base) : c_type := CType false b 0.
Definition const (t : c_type) : c_type := CType true (c_base_of t) (c_stars t).
Definition ptr (t : c_type) : c_type :=
  CType (c_const t) (c_base_of t) (S (c_stars t)).
Definition enum (e : c_enum) : c_type := ty (c_enum_type (enum_tag e)).

Definition void : c_type := ty c_void.
Definition char : c_type := ty c_char.
Definition int64_t : c_type := ty c_int64_t.
Definition union_data_values : c_type := ty (c_union "data_values").

(** The handles are typedefs of pointers to structs the header only
    declares. *)
Definition tng_trajectory_t : c_type := ptr (ty (c_struct "tng_trajectory")).
Definition tng_molecule_t : c_type := ptr (ty (c_struct "tng_molecule")).
Definition tng_chain_t : c_type := ptr (ty (c_struct "tng_chain")).
Definition tng_residue_t : c_type := ptr (ty (c_struct "tng_residue")).
Definition tng_atom_t : c_type := ptr (ty (c_struct "tng_atom")).
Definition tng_bond_t : c_type := ptr (ty (c_struct "tng_bond")).
Definition tng_gen_block_t : c_type := ptr (ty (c_struct "tng_gen_block")).
Definition tng_frame_set_toc_t : c_type :=
  ptr (ty (c_struct "tng_frame_set_toc")).
Definition tng_particle_mapping_t : c_type :=
  ptr (ty (c_struct "tng_particle_mapping")).
Definition tng_trajectory_frame_set_t : c_type :=
  ptr (ty (c_struct "tng_trajectory_frame_set")).
Definition tng_particle_data_t : c_type :=
  ptr (ty (c_struct "tng_particle_data")).
Definition tng_non_particle_data_t : c_type :=
  ptr (ty (c_struct "tng_non_particle_data")).

(** union data_values: data can be either double, float, int or a string *)
Definition data_values : list (c_type * string) :=
  [(ty c_double, "d"); (ty c_float, "f"); (ty c_int, "i"); (ptr char, "c")].

Definition c_base_eqb (a b : c_base) : bool :=
  match a, b with
  | c_void, c_void | c_char, c_char | c_int, c_int | c_float, c_float
  | c_double, c_double | c_int64_t, c_int64_t => true
  | c_struct s, c_struct t | c_union s, c_union t
  | c_enum_type s, c_enum_type t => String.eqb s t
  | _, _ => false
  end.

Definition c_type_eqb (a b : c_type) : bool :=
  Bool.eqb (c_const a) (c_const b)
  && c_base_eqb (c_base_of a) (c_base_of b)
  && Nat.eqb (c_stars a) (c_stars b).

(** Size in bytes of an object of the type, where the language fixes it:
    a char is one byte, an int64_t eight. *)
Definition c_sizeof (t : c_type) : option Z :=
  match c_stars t, c_base_of t with
  | O, c_char => Some 1
  | O, c_int64_t => Some 8
  | _, _ => None
  end.

(** Width in bits of the arithmetic types on the platforms in use (the
    ILP32, LP64 and LLP64 data models, IEEE 754 floating point). *)
Definition c_width (b : c_base) : option Z :=
  match b with
  | c_char => Some 8
  | c_int => Some 32
  | c_float => Some 32
  | c_double => Some 64
  | c_int64_t => Some 64
  | _ => None
  end.

(** *** Prototypes

    What the documentation block of a prototype says under [@details]
    about the state of the implementation. *)
Inductive details_note := Documented | NotImplementedYet.

Record c_decl := CDecl {
  decl_ret : c_type;
  decl_name : string;
  decl_params : list (c_type * string);
  decl_note : details_note
}.

Definition tng_api : list c_decl :=
  [ CDecl (enum tng_function_status) "tng_trajectory_init"
      [(ptr tng_trajectory_t, "tng_data_p")]
      Documented;
    CDecl (enum tng_function_status) "tng_trajectory_destroy"
      [(ptr tng_trajectory_t, "tng_data_p")]
      Documented;
    CDecl (enum tng_function_status) "tng_input_file_set"
      [(tng_trajectory_t, "tng_data"); (ptr (const char), "file_name")]
      Documented;
    CDecl (enum tng_function_status) "tng_output_file_set"
      [(tng_trajectory_t, "tng_data"); (ptr (const char), "file_name")]
      Documented;
    CDecl (enum tng_function_status) "tng_first_program_name_set"
      [(tng_trajectory_t, "tng_data"); (ptr (const char), "new_name")]
      Documented;
    CDecl (enum tng_function_status) "tng_last_program_name_set"
      [(tng_trajectory_t, "tng_data"); (ptr (const char), "new_name")]
      Documented;
    CDecl (enum tng_function_status) "tng_first_user_name_set"
      [(tng_trajectory_t, "tng_data"); (ptr (const char), "new_name")]
      Documented;
    CDecl (enum tng_function_status) "tng_last_user_name_set"
      [(tng_trajectory_t, "tng_data"); (ptr (const char), "new_name")]
      Documented;
    CDecl (enum tng_function_status) "tng_first_computer_name_set"
      [(tng_trajectory_t, "tng_data"); (ptr (const char), "new_name")]
      Documented;
    CDecl (enum tng_function_status) "tng_last_computer_name_set"
      [(tng_trajectory_t, "tng_data"); (ptr (const char), "new_name")]
      Documented;
    CDecl (enum tng_function_status) "tng_first_signature_set"
      [(tng_trajectory_t, "tng_data"); (ptr (const char), "signature")]
      Documented;
    CDecl (enum tng_function_status) "tng_last_signature_set"
      [(tng_trajectory_t, "tng_data"); (ptr (const char), "signature")]
      Documented;
    CDecl (enum tng_function_status) "tng_forcefield_name_set"
      [(tng_trajectory_t, "tng_data"); (ptr (const char), "new_name")]
      Documented;
    CDecl (enum tng_function_status) "tng_medium_stride_length_get"
      [(tng_trajectory_t, "tng_data"); (ptr int64_t, "len")]
      Documented;
    CDecl (enum tng_function_status) "tng_medium_stride_length_set"
      [(tng_trajectory_t, "tng_data"); (int64_t, "len")]
      Documented;
    CDecl (enum tng_function_status) "tng_long_stride_length_get"
      [(tng_trajectory_t, "tng_data"); (ptr int64_t, "len")]
      Documented;
    CDecl (enum tng_function_status) "tng_long_stride_length_set"
      [(tng_trajectory_t, "tng_data"); (int64_t, "len")]
      Documented;
    CDecl (enum tng_function_status) "tng_input_file_pos_get"
      [(tng_trajectory_t, "tng_data"); (ptr int64_t, "pos")]
      Documented;
    CDecl (enum tng_function_status) "tng_output_file_pos_get"
      [(tng_trajectory_t, "tng_data"); (ptr int64_t, "pos")]
      Documented;
    CDecl (enum tng_function_status) "tng_input_file_len_get"
      [(tng_trajectory_t, "tng_data"); (ptr int64_t, "len")]
      Documented;
    CDecl (enum tng_function_status) "tng_num_particles_get"
      [(tng_trajectory_t, "tng_data"); (ptr int64_t, "n")]
      Documented;
    CDecl (enum tng_function_status) "tng_num_molecules_get"
      [(tng_trajectory_t, "tng_data"); (ptr int64_t, "n")]
      Documented;
    CDecl (enum tng_function_status) "tng_num_frames_per_frame_set_get"
      [(tng_trajectory_t, "tng_data"); (ptr int64_t, "n")]
      Documented;
    CDecl (enum tng_function_status) "tng_current_frame_set_get"
      [(tng_trajectory_t, "tng_data");
       (tng_trajectory_frame_set_t, "frame_set")]
      Documented;
    CDecl (enum tng_function_status) "tng_frame_set_next_frame_set_file_pos_get"
      [(tng_trajectory_frame_set_t, "frame_set"); (ptr int64_t, "pos")]
      Documented;
    CDecl (enum tng_function_status) "tng_frame_set_prev_frame_set_file_pos_get"
      [(tng_trajectory_frame_set_t, "frame_set"); (ptr int64_t, "pos")]
      Documented;
    CDecl (enum tng_function_status) "tng_molecule_init"
      [(tng_molecule_t, "molecule")]
      Documented;
    CDecl (enum tng_function_status) "tng_molecule_destroy"
      [(tng_molecule_t, "molecule")]
      Documented;
    CDecl (enum tng_function_status) "tng_molecule_add"
      [(tng_trajectory_t, "tng_data"); (ptr (const char), "name");
       (ptr tng_molecule_t, "molecule")]
      Documented;
    CDecl (enum tng_function_status) "tng_molecule_name_set"
      [(tng_trajectory_t, "tng_data"); (tng_molecule_t, "molecule");
       (ptr (const char), "new_name")]
      Documented;
    CDecl (enum tng_function_status) "tng_molecule_cnt_get"
      [(tng_trajectory_t, "tng_data"); (tng_molecule_t, "molecule");
       (ptr int64_t, "cnt")]
      Documented;
    CDecl (enum tng_function_status) "tng_molecule_cnt_set"
      [(tng_trajectory_t, "tng_data"); (tng_molecule_t, "molecule");
       (int64_t, "cnt")]
      Documented;
    CDecl (enum tng_function_status) "tng_molecule_chain_add"
      [(tng_trajectory_t, "tng_data"); (tng_molecule_t, "molecule");
       (ptr (const char), "name"); (ptr tng_chain_t, "chain")]
      Documented;
    CDecl (enum tng_function_status) "tng_chain_name_set"
      [(tng_trajectory_t, "tng_data"); (tng_chain_t, "chain");
       (ptr (const char), "new_name")]
      Documented;
    CDecl (enum tng_function_status) "tng_chain_residue_add"
      [(tng_trajectory_t, "tng_data"); (tng_chain_t, "chain");
       (ptr (const char), "name"); (ptr tng_residue_t, "residue")]
      Documented;
    CDecl (enum tng_function_status) "tng_residue_name_set"
      [(tng_trajectory_t, "tng_data"); (tng_residue_t, "residue");
       (ptr (const char), "new_name")]
      Documented;
    CDecl (enum tng_function_status) "tng_residue_atom_add"
      [(tng_trajectory_t, "tng_data"); (tng_residue_t, "residue");
       (ptr (const char), "atom_name"); (ptr (const char), "atom_type");
       (ptr tng_atom_t, "atom")]
      Documented;
    CDecl (enum tng_function_status) "tng_atom_name_set"
      [(tng_trajectory_t, "tng_data"); (tng_atom_t, "atom");
       (ptr (const char), "new_name")]
      Documented;
    CDecl (enum tng_function_status) "tng_atom_type_set"
      [(tng_trajectory_t, "tng_data"); (tng_atom_t, "atom");
       (ptr (const char), "new_type")]
      Documented;
    CDecl (enum tng_function_status) "tng_particle_mapping_add"
      [(tng_trajectory_t, "tng_data");
       (const int64_t, "first_particle_number");
       (const int64_t, "n_particles");
       (ptr (const int64_t), "mapping_table")]
      Documented;
    CDecl (enum tng_function_status) "tng_file_headers_read"
      [(tng_trajectory_t, "tng_data");
       (const (enum tng_hash_mode), "hash_mode")]
      Documented;
    CDecl (enum tng_function_status) "tng_file_headers_write"
      [(tng_trajectory_t, "tng_data");
       (const (enum tng_hash_mode), "hash_mode")]
      Documented;
    CDecl (enum tng_function_status) "tng_block_read_next"
      [(tng_trajectory_t, "tng_data"); (tng_gen_block_t, "block_data");
       (const (enum tng_hash_mode), "hash_mode")]
      Documented;
    CDecl (enum tng_function_status) "tng_frame_set_read_next"
      [(tng_trajectory_t, "tng_data");
       (const (enum tng_hash_mode), "hash_mode")]
      Documented;
    CDecl (enum tng_function_status) "tng_frame_set_write"
      [(tng_trajectory_t, "tng_data");
       (const (enum tng_hash_mode), "hash_mode")]
      Documented;
    CDecl (enum tng_function_status) "tng_frame_set_new"
      [(tng_trajectory_t, "tng_data"); (const int64_t, "first_frame");
       (const int64_t, "n_frames")]
      Documented;
    CDecl (enum tng_function_status) "tng_data_block_add"
      [(tng_trajectory_t, "tng_data"); (const int64_t, "id");
       (ptr (const char), "block_name"); (const char, "datatype");
       (const (enum tng_block_type), "block_type_flag");
       (int64_t, "n_frames"); (const int64_t, "n_values_per_frame");
       (const int64_t, "stride_length"); (int64_t, "codec_id");
       (ptr void, "new_data")]
      Documented;
    CDecl (enum tng_function_status) "tng_particle_data_block_add"
      [(tng_trajectory_t, "tng_data"); (const int64_t, "id");
       (ptr (const char), "block_name"); (const char, "datatype");
       (const (enum tng_block_type), "block_type_flag");
       (int64_t, "n_frames"); (const int64_t, "n_values_per_frame");
       (const int64_t, "stride_length");
       (const int64_t, "first_particle_number");
       (const int64_t, "n_particles"); (int64_t, "codec_id");
       (ptr void, "new_data")]
      Documented;
    CDecl (enum tng_function_status) "tng_frame_read_interval"
      [(tng_trajectory_t, "tng_data"); (int64_t, "start_frame_nr");
       (int64_t, "end_frame_nr");
       (const (enum tng_hash_mode), "hash_mode")]
      NotImplementedYet;
    CDecl (enum tng_function_status) "tng_frame_write_interval"
      [(tng_trajectory_t, "tng_data"); (int64_t, "start_frame_nr");
       (int64_t, "end_frame_nr");
       (const (enum tng_hash_mode), "hash_mode")]
      NotImplementedYet;
    CDecl (enum tng_function_status) "tng_data_values_free"
      [(ptr (ptr union_data_values), "values"); (int64_t, "n_frames");
       (int64_t, "n_values_per_frame"); (enum tng_data_type, "type")]
      Documented;
    CDecl (enum tng_function_status) "tng_particle_data_values_free"
      [(ptr (ptr (ptr union_data_values)), "values");
       (int64_t, "n_frames"); (int64_t, "n_particles");
       (int64_t, "n_values_per_frame"); (enum tng_data_type, "type")]
      Documented;
    CDecl (enum tng_function_status) "tng_data_get"
      [(tng_trajectory_t, "tng_data"); (int64_t, "block_id");
       (ptr (ptr (ptr union_data_values)), "values");
       (ptr int64_t, "n_frames"); (ptr int64_t, "n_values_per_frame");
       (ptr (enum tng_data_type), "type")]
      Documented;
    CDecl (enum tng_function_status) "tng_data_interval_get"
      [(tng_trajectory_t, "tng_data"); (int64_t, "block_id");
       (int64_t, "start_frame_nr"); (int64_t, "end_frame_nr");
       (ptr (ptr (ptr union_data_values)), "values");
       (ptr int64_t, "n_values_per_frame");
       (ptr (enum tng_data_type), "type")]
      NotImplementedYet;
    CDecl (enum tng_function_status) "tng_particle_data_get"
      [(tng_trajectory_t, "tng_data"); (int64_t, "block_id");
       (ptr (ptr (ptr (ptr union_data_values))), "values");
       (ptr int64_t, "n_frames"); (ptr int64_t, "n_particles");
       (ptr int64_t, "n_values_per_frame");
       (ptr (enum tng_data_type), "type")]
      Documented;
    CDecl (enum tng_function_status) "tng_particle_data_interval_get"
      [(tng_trajectory_t, "tng_data"); (int64_t, "block_id");
       (int64_t, "start_frame_nr"); (int64_t, "end_frame_nr");
       (int64_t, "first_particle_number");
       (int64_t, "last_particle_number");
       (ptr (ptr (ptr (ptr union_data_values))), "values");
       (ptr int64_t, "n_values_per_frame");
       (ptr (enum tng_data_type), "type")]
      NotImplementedYet;
    CDecl (enum tng_function_status) "tng_time_get_str"
      [(tng_trajectory_t, "tng_data"); (ptr char, "time")]
      Documented ].

Definition param_eqb (p q : c_type * string) : bool :=
  c_type_eqb (fst p) (fst q) && String.eqb (snd p) (snd q).

(** The operation takes parameter [p] first or last. *)
Definition first_param_is (p : c_type * string) (d : c_decl) : bool :=
  match head (decl_params d) with
  | Some q => param_eqb q p
  | None => false
  end.

Definition last_param_is (p : c_type * string) (d : c_decl) : bool :=
  match last (decl_params d) with
  | Some q => param_eqb q p
  | None => false
  end.

(** Look-ups in the table of prototypes. *)

Fixpoint find_decl (x : string) (api : list c_decl) : option c_decl :=
  match api with
  | [] => None
  | d :: rest => if String.eqb x (decl_name d) then Some d else find_decl x rest
  end.

Fixpoint param_type (x : string) (ps : list (c_type * string))
  : option c_type :=
  match ps with
  | [] => None
  | (t, y) :: rest => if String.eqb x y then Some t else param_type x rest
  end.

(** The type of parameter [x] of the operation named [f]. *)
Definition param_of (f x : string) : option c_type :=
  match find_decl f tng_api with
  | Some d => param_type x (decl_params d)
  | None => None
  end.

Definition returns_status (d : c_decl) : bool :=
  c_type_eqb (decl_ret d) (enum tng_function_status).

Definition not_implemented (d : c_decl) : bool :=
  match decl_note d with
  | NotImplementedYet => true
  | Documented => false
  end.

(** An operation over a frame interval takes the first and the last frame
    number of a range, [start_frame_nr] and [end_frame_nr]. *)
Definition takes_frame_interval (d : c_decl) : bool :=
  match param_type "start_frame_nr" (decl_params d),
        param_type "end_frame_nr" (decl_params d) with
  | Some a, Some b => c_type_eqb a int64_t && c_type_eqb b int64_t
  | _, _ => false
  end.

(** An operation that hashes takes the integrity mode. *)
Definition takes_hash_mode (d : c_decl) : bool :=
  match param_type "hash_mode" (decl_params d) with
  | Some t => c_type_eqb t (const (enum tng_hash_mode))
  | None => false
  end.

(** The codec IDs the header names. *)
Definition codec_id_reserved (codec_id : Z) : bool :=
  existsb (fun p => Z.eqb (snd p) codec_id) (enum_constants tng_compression).

(** The block IDs the header names. *)
Definition reserved_block_ids : list (string * Z) :=
  enum_constants tng_non_trajectory_block_ids
  ++ enum_constants tng_trajectory_block_ids.

(** *** The macros [min] and [max]

    [#define min(a,b) ({ __typeof__ (a) _a = (a); __typeof__ (b) _b = (b);
    _a < _b ? _a : _b; })], and [max] with [>] in place of [<].  A macro
    is text: its arguments are expressions of the caller, pasted into the
    statement expression, where they meet the temporaries [_a] and [_b].
    So the macros are kept as functions from expressions to expressions,
    and the expressions are given the meaning C gives them, over values of
    one integer type and without side effects. *)

Inductive c_expr :=
| Num (n : Z)
| Id (x : string)
| Lt (l r : c_expr)
| Gt (l r : c_expr)
| Cond (c t e : c_expr)
| StmtExpr (x : string) (ex : c_expr) (y : string) (ey : c_expr)
    (result : c_expr).

Definition min (a b : c_expr) : c_expr :=
  StmtExpr "_a" a "_b" b (Cond (Lt (Id "_a") (Id "_b")) (Id "_a") (Id "_b")).

Definition max (a b : c_expr) : c_expr :=
  StmtExpr "_a" a "_b" b (Cond (Gt (Id "_a") (Id "_b")) (Id "_a") (Id "_b")).

(** The identifiers in scope and their values; an identifier that is not
    declared, or is declared and not yet initialised, has none. *)
Definition c_env : Type := string -> option Z.

Definition declare (x : string) (v : option Z) (env : c_env) : c_env :=
  fun y => if String.eqb y x then v else env y.

(** The value of an expression.  [StmtExpr x ex y ey result] is
    [({ __typeof__ (ex) x = (ex); __typeof__ (ey) y = (ey); result; })]:
    the scope of a declared identifier begins at its declarator, so its
    own initialiser already sees the new, uninitialised identifier, and
    what follows sees it with its value.  A comparison is 1 or 0; the
    conditional evaluates the operand it chooses.  Reading an identifier
    without a value is undefined: [None]. *)
Fixpoint eval (env : c_env) (e : c_expr) : option Z :=
  match e with
  | Num n => Some n
  | Id x => env x
  | Lt l r =>
      match eval env l, eval env r with
      | Some u, Some v => Some (if (u <? v)%Z then 1 else 0)
      | _, _ => None
      end
  | Gt l r =>
      match eval env l, eval env r with
      | Some u, Some v => Some (if (u >? v)%Z then 1 else 0)
      | _, _ => None
      end
  | Cond c t e =>
      match eval env c with
      | Some v => if (v =? 0)%Z then eval env e else eval env t
      | None => None
      end
  | StmtExpr x ex y ey result =>
      match eval (declare x None env) ex with
      | Some vx =>
          let env1 := declare x (Some vx) env in
          match eval (declare y None env1) ey with
          | Some vy => eval (declare y (Some vy) env1) result
          | None => None
          end
      | None => None
      end
  end.

(** The expression reads the caller's identifier [z]. *)
Fixpoint free (z : string) (e : c_expr) : bool :=
  match e with
  | Num _ => false
  | Id x => String.eqb z x
  | Lt l r | Gt l r => free z l || free z r
  | Cond c t e => free z c || free z t || free z e
  | StmtExpr x ex y ey result =>
      negb (String.eqb z x)
      && (free z ex
          || negb (String.eqb z y) && (free z ey || free z result))
  end.

(** *** Reading the table of prototypes *)

(** The handle typedefs, in the order of their declaration. *)
Definition handles : list c_type :=
  [tng_trajectory_t; tng_molecule_t; tng_chain_t; tng_residue_t; tng_atom_t;
   tng_bond_t; tng_gen_block_t; tng_frame_set_toc_t; tng_particle_mapping_t;
   tng_trajectory_frame_set_t; tng_particle_data_t; tng_non_particle_data_t].

Definition is_handle (t : c_type) : bool := existsb (c_type_eqb t) handles.

(** The type a pointer of type [t] points to. *)
Definition pointee (t : c_type) : c_type :=
  CType (c_const t) (c_base_of t) (pred (c_stars t)).

(** [stem sfx x] is [Some p] when the name [x] is [p ++ sfx]. *)
Fixpoint stem (sfx x : string) : option string :=
  if String.eqb x sfx then Some EmptyString
  else match x with
       | EmptyString => None
       | String c x' => option_map (String c) (stem sfx x')
       end.

(** The operation takes the session [tng_trajectory_t tng_data] first. *)
Definition takes_session_first (d : c_decl) : bool :=
  first_param_is (tng_trajectory_t, "tng_data") d.

(** The last parameter of the operation is a pointer to [h], the place
    for a value of type [h] that the operation sets. *)
Definition hands_out (h : c_type) (d : c_decl) : bool :=
  match last (decl_params d) with
  | Some (t, _) => c_type_eqb t (ptr h)
  | None => false
  end.

(** The operation has a parameter of type [h]. *)
Definition takes (h : c_type) (d : c_decl) : bool :=
  existsb (fun q => c_type_eqb (fst q) h) (decl_params d).

(** An operation named [..._add] whose last parameter is a pointer to a
    handle: it adds a part to the topology and sets the handle of the new
    part. *)
Definition adds_part (d : c_decl) : bool :=
  match stem "_add" (decl_name d) with
  | Some _ => existsb (fun h => hands_out h d) handles
  | None => false
  end.

(** [s] is named [p_set] and [g] is named [p_get], for one [p]. *)
Definition setter_getter (s g : c_decl) : bool :=
  match stem "_set" (decl_name s), stem "_get" (decl_name g) with
  | Some p, Some q => String.eqb p q
  | _, _ => false
  end.

(** [g] is named [p_get] and [f] is named [p_values_free], for one [p]. *)
Definition getter_free (g f : c_decl) : bool :=
  match stem "_get" (decl_name g), stem "_values_free" (decl_name f) with
  | Some p, Some q => String.eqb p q
  | _, _ => false
  end.

(** The name of the particle variant of an operation: [tng_particle_r]
    for [tng_r]. *)
Definition particle_name (x : string) : option string :=
  match x with
  | String "t" (String "n" (String "g" (String "_" r))) =>
      Some ("tng_particle_" ++ r)
  | _ => None
  end.

Definition particle_variant (d dp : c_decl) : bool :=
  match particle_name (decl_name d) with
  | Some x => String.eqb x (decl_name dp)
  | None => false
  end.

(** The parameters that select particles. *)
Definition particle_params : list string :=
  ["first_particle_number"; "last_particle_number"; "n_particles"].

Definition is_particle_param (q : c_type * string) : bool :=
  existsb (String.eqb (snd q)) particle_params.

(** A parameter list without the particle parameters, the array [values]
    with one dimension less. *)
Definition without_particles (ps : list (c_type * string))
  : list (c_type * string) :=
  map (fun q => if String.eqb (snd q) "values" then (pointee (fst q), snd q)
                else q)
      (List.filter (fun q => negb (is_particle_param q)) ps).

(** A [char *] the operation may write through. *)
Definition writable_string (t : c_type) : bool :=
  c_base_eqb (c_base_of t) c_char && Nat.eqb (c_stars t) 1
  && negb (c_const t).

(** Equality of two lists, element by element. *)
Fixpoint list_eqb {A : Type} (eqb : A -> A -> bool) (l k : list A) : bool :=
  match l, k with
  | [], [] => true
  | x :: l', y :: k' => eqb x y && list_eqb eqb l' k'
  | _, _ => false
  end.

(** *** The documentation blocks

    What the block in front of a prototype documents: the parameters
    ([@param]), in order, and under [@return] the outcomes with the
    number it gives for each in parentheses. *)
Record c_doc := CDoc {
  doc_name : string;
  doc_params : list string;
  doc_return : list (string * Z)
}.

Definition tng_api_doc : list c_doc :=
  [ CDoc "tng_trajectory_init"
      ["tng_data_p"]
      [("TNG_SUCCESS", 0); ("TNG_FAILURE", 1); ("TNG_CRITICAL", 2)];
    CDoc "tng_trajectory_destroy"
      ["tng_data_p"]
      [("TNG_SUCCESS", 0); ("TNG_FAILURE", 1); ("TNG_CRITICAL", 2)];
    CDoc "tng_input_file_set"
      ["tng_data"; "file_name"]
      [("TNG_SUCCESS", 0); ("TNG_FAILURE", 1); ("TNG_CRITICAL", 2)];
    CDoc "tng_output_file_set"
      ["tng_data"; "file_name"]
      [("TNG_SUCCESS", 0); ("TNG_FAILURE", 1); ("TNG_CRITICAL", 2)];
    CDoc "tng_first_program_name_set"
      ["tng_data"; "new_name"]
      [("TNG_SUCCESS", 0); ("TNG_FAILURE", 1); ("TNG_CRITICAL", 2)];
    CDoc "tng_last_program_name_set"
      ["tng_data"; "new_name"]
      [("TNG_SUCCESS", 0); ("TNG_FAILURE", 1); ("TNG_CRITICAL", 2)];
    CDoc "tng_first_user_name_set"
      ["tng_data"; "new_name"]
      [("TNG_SUCCESS", 0); ("TNG_FAILURE", 1); ("TNG_CRITICAL", 2)];
    CDoc "tng_last_user_name_set"
      ["tng_data"; "new_name"]
      [("TNG_SUCCESS", 0); ("TNG_FAILURE", 1); ("TNG_CRITICAL", 2)];
    CDoc "tng_first_computer_name_set"
      ["tng_data"; "new_name"]
      [("TNG_SUCCESS", 0); ("TNG_FAILURE", 1); ("TNG_CRITICAL", 2)];
    CDoc "tng_last_computer_name_set"
      ["tng_data"; "new_name"]
      [("TNG_SUCCESS", 0); ("TNG_FAILURE", 1); ("TNG_CRITICAL", 2)];
    CDoc "tng_first_signature_set"
      ["tng_data"; "signature"]
      [("TNG_SUCCESS", 0); ("TNG_FAILURE", 1); ("TNG_CRITICAL", 2)];
    CDoc "tng_last_signature_set"
      ["tng_data"; "signature"]
      [("TNG_SUCCESS", 0); ("TNG_FAILURE", 1); ("TNG_CRITICAL", 2)];
    CDoc "tng_forcefield_name_set"
      ["tng_data"; "new_name"]
      [("TNG_SUCCESS", 0); ("TNG_FAILURE", 1); ("TNG_CRITICAL", 2)];
    CDoc "tng_medium_stride_length_get"
      ["tng_data"; "len"]
      [("TNG_SUCCESS", 0); ("TNG_FAILURE", 1); ("TNG_CRITICAL", 2)];
    CDoc "tng_medium_stride_length_set"
      ["tng_data"; "len"]
      [("TNG_SUCCESS", 0); ("TNG_FAILURE", 1); ("TNG_CRITICAL", 2)];
    CDoc "tng_long_stride_length_get"
      ["tng_data"; "len"]
      [("TNG_SUCCESS", 0); ("TNG_FAILURE", 1); ("TNG_CRITICAL", 2)];
    CDoc "tng_long_stride_length_set"
      ["tng_data"; "len"]
      [("TNG_SUCCESS", 0); ("TNG_FAILURE", 1); ("TNG_CRITICAL", 2)];
    CDoc "tng_input_file_pos_get"
      ["tng_data"; "pos"]
      [("TNG_SUCCESS", 0); ("TNG_FAILURE", 1); ("TNG_CRITICAL", 2)];
    CDoc "tng_output_file_pos_get"
      ["tng_data"; "pos"]
      [("TNG_SUCCESS", 0); ("TNG_FAILURE", 1); ("TNG_CRITICAL", 2)];
    CDoc "tng_input_file_len_get"
      ["tng_data"; "len"]
      [("TNG_SUCCESS", 0); ("TNG_FAILURE", 1); ("TNG_CRITICAL", 2)];
    CDoc "tng_num_particles_get"
      ["tng_data"; "n"]
      [("TNG_SUCCESS", 0); ("TNG_FAILURE", 1); ("TNG_CRITICAL", 2)];
    CDoc "tng_num_molecules_get"
      ["tng_data"; "n"]
      [("TNG_SUCCESS", 0); ("TNG_FAILURE", 1); ("TNG_CRITICAL", 2)];
    CDoc "tng_num_frames_per_frame_set_get"
      ["tng_data"; "n"]
      [("TNG_SUCCESS", 0); ("TNG_FAILURE", 1); ("TNG_CRITICAL", 2)];
    CDoc "tng_current_frame_set_get"
      ["tng_data"; "frame_set"]
      [("TNG_SUCCESS", 0); ("TNG_FAILURE", 1); ("TNG_CRITICAL", 2)];
    CDoc "tng_frame_set_next_frame_set_file_pos_get"
      ["frame_set"; "pos"]
      [("TNG_SUCCESS", 0); ("TNG_FAILURE", 1); ("TNG_CRITICAL", 2)];
    CDoc "tng_frame_set_prev_frame_set_file_pos_get"
      ["frame_set"; "pos"]
      [("TNG_SUCCESS", 0); ("TNG_FAILURE", 1); ("TNG_CRITICAL", 2)];
    CDoc "tng_molecule_init"
      ["molecule"]
      [("TNG_SUCCESS", 0); ("TNG_FAILURE", 1); ("TNG_CRITICAL", 2)];
    CDoc "tng_molecule_destroy"
      ["molecule"]
      [("TNG_SUCCESS", 0); ("TNG_FAILURE", 1); ("TNG_CRITICAL", 2)];
    CDoc "tng_molecule_add"
      ["tng_data"; "name"; "molecule"]
      [("TNG_SUCCESS", 0); ("TNG_FAILURE", 1); ("TNG_CRITICAL", 2)];
    CDoc "tng_molecule_name_set"
      ["tng_data"; "molecule"; "new_name"]
      [("TNG_SUCCESS", 0); ("TNG_FAILURE", 1); ("TNG_CRITICAL", 2)];
    CDoc "tng_molecule_cnt_get"
      ["tng_data"; "molecule"; "cnt"]
      [("TNG_SUCCESS", 0); ("TNG_FAILURE", 1); ("TNG_CRITICAL", 2)];
    CDoc "tng_molecule_cnt_set"
      ["tng_data"; "molecule"; "cnt"]
      [("TNG_SUCCESS", 0); ("TNG_FAILURE", 1); ("TNG_CRITICAL", 2)];
    CDoc "tng_molecule_chain_add"
      ["tng_data"; "molecule"; "name"; "chain"]
      [("TNG_SUCCESS", 0); ("TNG_FAILURE", 1); ("TNG_CRITICAL", 2)];
    CDoc "tng_chain_name_set"
      ["tng_data"; "chain"; "new_name"]
      [("TNG_SUCCESS", 0); ("TNG_FAILURE", 1); ("TNG_CRITICAL", 2)];
    CDoc "tng_chain_residue_add"
      ["tng_data"; "chain"; "name"; "residue"]
      [("TNG_SUCCESS", 0); ("TNG_FAILURE", 1); ("TNG_CRITICAL", 2)];
    CDoc "tng_residue_name_set"
      ["tng_data"; "residue"; "new_name"]
      [("TNG_SUCCESS", 0); ("TNG_FAILURE", 1); ("TNG_CRITICAL", 2)];
    CDoc "tng_residue_atom_add"
      ["tng_data"; "residue"; "atom_name"; "atom_type"; "atom"]
      [("TNG_SUCCESS", 0); ("TNG_FAILURE", 1); ("TNG_CRITICAL", 2)];
    CDoc "tng_atom_name_set"
      ["tng_data"; "atom"; "new_name"]
      [("TNG_SUCCESS", 0); ("TNG_FAILURE", 1); ("TNG_CRITICAL", 2)];
    CDoc "tng_atom_type_set"
      ["tng_data"; "atom"; "new_type"]
      [("TNG_SUCCESS", 0); ("TNG_FAILURE", 1); ("TNG_CRITICAL", 2)];
    CDoc "tng_particle_mapping_add"
      ["tng_data"; "first_particle_number"; "n_particles"; "mapping_table"]
      [("TNG_SUCCESS", 0); ("TNG_FAILURE", 1); ("TNG_CRITICAL", 2)];
    CDoc "tng_file_headers_read"
      ["tng_data"; "hash_mode"]
      [("TNG_SUCCESS", 0); ("TNG_FAILURE", 1); ("TNG_CRITICAL", 2)];
    CDoc "tng_file_headers_write"
      ["tng_data"; "hash_mode"]
      [("TNG_SUCCESS", 0); ("TNG_FAILURE", 1); ("TNG_CRITICAL", 2)];
    CDoc "tng_block_read_next"
      ["tng_data"; "block_data"; "hash_mode"]
      [("TNG_SUCCESS", 0); ("TNG_FAILURE", 1); ("TNG_CRITICAL", 2)];
    CDoc "tng_frame_set_read_next"
      ["tng_data"; "hash_mode"]
      [("TNG_SUCCESS", 0); ("TNG_FAILURE", 1); ("TNG_CRITICAL", 2)];
    CDoc "tng_frame_set_write"
      ["tng_data"; "hash_mode"]
      [("TNG_SUCCESS", 0); ("TNG_FAILURE", 1); ("TNG_CRITICAL", 2)];
    CDoc "tng_frame_set_new"
      ["tng_data"; "first_frame"; "n_frames"]
      [("TNG_SUCCESS", 0); ("TNG_FAILURE", 1); ("TNG_CRITICAL", 2)];
    CDoc "tng_data_block_add"
      ["tng_data"; "id"; "block_name"; "datatype"; "block_type_flag";
       "n_frames"; "n_values_per_frame"; "stride_length"; "codec_id";
       "new_data"]
      [("TNG_SUCCESS", 0); ("TNG_FAILURE", 1); ("TNG_CRITICAL", 2)];
    CDoc "tng_particle_data_block_add"
      ["tng_data"; "id"; "block_name"; "datatype"; "block_type_flag";
       "n_frames"; "n_values_per_frame"; "stride_length";
       "first_particle_number"; "n_particles"; "codec_id"; "new_data"]
      [("TNG_SUCCESS", 0); ("TNG_FAILURE", 1); ("TNG_CRITICAL", 2)];
    CDoc "tng_frame_read_interval"
      ["tng_data"; "start_frame_nr"; "end_frame_nr"; "hash_mode"]
      [("TNG_SUCCESS", 0); ("TNG_FAILURE", 1); ("TNG_CRITICAL", 2)];
    CDoc "tng_frame_write_interval"
      ["tng_data"; "start_frame_nr"; "end_frame_nr"; "hash_mode"]
      [("TNG_SUCCESS", 0); ("TNG_FAILURE", 1); ("TNG_CRITICAL", 2)];
    CDoc "tng_data_values_free"
      ["values"; "n_frames"; "n_values_per_frame"; "type"]
      [("TNG_SUCCESS", 0); ("TNG_FAILURE", 1); ("TNG_CRITICAL", 2)];
    CDoc "tng_particle_data_values_free"
      ["values"; "n_frames"; "n_particles"; "n_values_per_frame"; "type"]
      [("TNG_SUCCESS", 0); ("TNG_FAILURE", 1); ("TNG_CRITICAL", 2)];
    CDoc "tng_data_get"
      ["tng_data"; "block_id"; "values"; "n_frames"; "n_values_per_frame";
       "type"]
      [("TNG_SUCCESS", 0); ("TNG_FAILURE", 1); ("TNG_CRITICAL", 2)];
    CDoc "tng_data_interval_get"
      ["tng_data"; "block_id"; "start_frame_nr"; "end_frame_nr"; "values";
       "n_values_per_frame"; "type"]
      [("TNG_SUCCESS", 0); ("TNG_FAILURE", 1); ("TNG_CRITICAL", 2)];
    CDoc "tng_particle_data_get"
      ["tng_data"; "block_id"; "values"; "n_frames"; "n_particles";
       "n_values_per_frame"; "type"]
      [("TNG_SUCCESS", 0); ("TNG_FAILURE", 1); ("TNG_CRITICAL", 2)];
    CDoc "tng_particle_data_interval_get"
      ["tng_data"; "block_id"; "start_frame_nr"; "end_frame_nr";
       "first_particle_number"; "last_particle_number"; "values";
       "n_values_per_frame"; "type"]
      [("TNG_SUCCESS", 0); ("TNG_FAILURE", 1); ("TNG_CRITICAL", 2)];
    CDoc "tng_time_get_str"
      ["tng_data"; "time"]
      [("TNG_SUCCESS", 0); ("TNG_FAILURE", 1); ("TNG_CRITICAL", 2)] ].

End Header.

(** ** The header [dict.h] of the compression routines *)

Module Dict.

Inductive c_base := c_void | c_int | c_unsigned_int.

Record c_type := CType { c_base_of : c_base; c_stars : nat }.

Record c_decl := CDecl {
  decl_ret : c_type;
  decl_name : string;
  decl_params : list (c_type * string)
}.

Definition void : c_type := CType c_void 0.
Definition int : c_type := CType c_int 0.
Definition unsigned_int : c_type := CType c_unsigned_int 0.
Definition ptr (t : c_type) : c_type := CType (c_base_of t) (S (c_stars t)).

(** void Ptngc_comp_canonical_dict(unsigned int *dict, int *ndict); *)
Definition Ptngc_comp_canonical_dict : c_decl :=
  CDecl void "Ptngc_comp_canonical_dict"
    [(ptr unsigned_int, "dict"); (ptr int, "ndict")].

(** void Ptngc_comp_make_dict_hist(unsigned int *vals, int nvals,
    unsigned int *dict, int *ndict, unsigned int *hist); *)
Definition Ptngc_comp_make_dict_hist : c_decl :=
  CDecl void "Ptngc_comp_make_dict_hist"
    [(ptr unsigned_int, "vals"); (int, "nvals");
     (ptr unsigned_int, "dict"); (ptr int, "ndict");
     (ptr unsigned_int, "hist")].

Definition api : list c_decl :=
  [Ptngc_comp_canonical_dict; Ptngc_comp_make_dict_hist].

Fixpoint param_type (x : string) (ps : list (c_type * string))
  : option c_type :=
  match ps with
  | [] => None
  | (t, y) :: rest => if String.eqb x y then Some t else param_type x rest
  end.

End Dict.

(** ** The configuration [test30.h] of the compression tests

    The macros of the file.  A floating-point literal is kept as its
    decimal digits and the power of ten they are scaled by. *)

Module Test30.

Record c_double_literal := CDouble { digits : Z; scale : Z }.

Definition TESTNAME : string :=
  "Initial coding. Intra frame triple algorithm. Large system. Cubic cell.".
Definition FILENAME : string := "test30.tng".
(** Defined, without a value. *)
Definition ALGOTEST : unit := tt.
Definition NATOMS : Z := 5000000.
Definition CHUNKY : Z := 1.
Definition SCALE : c_double_literal := CDouble 1 0.
Definition PRECISION : c_double_literal := CDouble 1 0.
Definition WRITEVEL : Z := 0.
Definition VELPRECISION : c_double_literal := CDouble 1 (-1).
Definition INITIALCODING : Z := 3.
Definition INITIALCODINGPARAMETER : Z := -1.
Definition CODING : Z := 1.
Definition CODINGPARAMETER : Z := -1.
Definition VELCODING : Z := 4.
Definition VELCODINGPARAMETER : Z := 0.
Definition INTMIN1 : Z := -536870911.
Definition INTMIN2 : Z := -536870911.
Definition INTMIN3 : Z := -536870911.
Definition INTMAX1 : Z := 536870911.
Definition INTMAX2 : Z := 536870911.
Definition INTMAX3 : Z := 536870911.
Definition NFRAMES : Z := 10.
Definition EXPECTED_FILESIZE : c_double_literal := CDouble 280198420 0.

(** The bounds of the three coordinates. *)
Definition bounds : list (Z * Z) :=
  [(INTMIN1, INTMAX1); (INTMIN2, INTMAX2); (INTMIN3, INTMAX3)].

End Test30.

(** ** The enumerations as types

    The enumerations the engine computes with, as inductive types; the
    [_code] of a constructor is the value the header gives its
    enumerator. *)

Inductive tng_function_status := TNG_SUCCESS | TNG_FAILURE | TNG_CRITICAL.

Definition tng_function_status_name (s : tng_function_status) : string :=
  match s with
  | TNG_SUCCESS => "TNG_SUCCESS"
  | TNG_FAILURE => "TNG_FAILURE"
  | TNG_CRITICAL => "TNG_CRITICAL"
  end.

Definition tng_function_status_code (s : tng_function_status) : Z :=
  match s with
  | TNG_SUCCESS => 0
  | TNG_FAILURE => 1
  | TNG_CRITICAL => 2
  end.

Definition tng_function_status_of_code (v : Z) : option tng_function_status :=
  match v with
  | 0 => Some TNG_SUCCESS
  | 1 => Some TNG_FAILURE
  | 2 => Some TNG_CRITICAL
  | _ => None
  end.

Inductive tng_hash_mode := TNG_SKIP_HASH | TNG_USE_HASH.

Inductive tng_block_type := TNG_NON_TRAJECTORY_BLOCK | TNG_TRAJECTORY_BLOCK.

Definition tng_block_type_code (t : tng_block_type) : Z :=
  match t with
  | TNG_NON_TRAJECTORY_BLOCK => 0
  | TNG_TRAJECTORY_BLOCK => 1
  end.

Definition tng_block_type_of_code (v : Z) : option tng_block_type :=
  match v with
  | 0 => Some TNG_NON_TRAJECTORY_BLOCK
  | 1 => Some TNG_TRAJECTORY_BLOCK
  | _ => None
  end.

Inductive tng_variable_n_atoms_flag :=
  TNG_CONSTANT_N_ATOMS | TNG_VARIABLE_N_ATOMS.

Inductive tng_data_type :=
  TNG_CHAR_DATA | TNG_INT_DATA | TNG_FLOAT_DATA | TNG_DOUBLE_DATA.

Definition tng_data_type_name (t : tng_data_type) : string :=
  match t with
  | TNG_CHAR_DATA => "TNG_CHAR_DATA"
  | TNG_INT_DATA => "TNG_INT_DATA"
  | TNG_FLOAT_DATA => "TNG_FLOAT_DATA"
  | TNG_DOUBLE_DATA => "TNG_DOUBLE_DATA"
  end.

Definition tng_data_type_code (t : tng_data_type) : Z :=
  match t with
  | TNG_CHAR_DATA => 0
  | TNG_INT_DATA => 1
  | TNG_FLOAT_DATA => 2
  | TNG_DOUBLE_DATA => 3
  end.

Definition tng_data_type_of_code (v : Z) : option tng_data_type :=
  match v with
  | 0 => Some TNG_CHAR_DATA
  | 1 => Some TNG_INT_DATA
  | 2 => Some TNG_FLOAT_DATA
  | 3 => Some TNG_DOUBLE_DATA
  | _ => None
  end.

(** The member of [union data_values] that holds a value of the type:
    data can be either double, float, int or a string. *)
Definition tng_data_type_member (t : tng_data_type)
  : Header.c_type * string :=
  match t with
  | TNG_CHAR_DATA => (Header.ptr Header.char, "c")
  | TNG_INT_DATA => (Header.ty Header.c_int, "i")
  | TNG_FLOAT_DATA => (Header.ty Header.c_float, "f")
  | TNG_DOUBLE_DATA => (Header.ty Header.c_double, "d")
  end.

(** Width in bits of one value of the type: that of the C type of its
    member of the union (for a string, of its characters). *)
Definition tng_data_type_bits (t : tng_data_type) : option Z :=
  Header.c_width (Header.c_base_of (tng_data_type_member t).1).

(** The two ranges of block IDs. *)
Inductive block_id_range := control_block_id | trajectory_data_block_id.

(** The first enumerator of [tng_trajectory_block_ids]. *)
Definition TNG_TRAJ_BOX_SHAPE : Z := 10000.

(** Modelled from the spec: IDs >= 10000 are trajectory data; IDs < 10000
    are control/metadata.  The header has the two enumerations and no
    function that tells an ID's range; the boundary is the first enumerator
    of [tng_trajectory_block_ids]. *)
Definition block_id_range_of (id : Z) : block_id_range :=
  if Z.leb TNG_TRAJ_BOX_SHAPE id then trajectory_data_block_id
  else control_block_id.

(** The bytes of a string. *)
Definition bytes_of_string (s : string) : list Z :=
  map (fun c => Z.of_nat (nat_of_ascii c)) (list_ascii_of_string s).

(** ** The MD5 message digest

    Modelled from the spec: the 16-byte content digest of a block.  The
    header speaks of the block hashes as MD5 hashes, [TNG_HASH_LEN] = 16
    bytes long; the implementation of the digest ([md5.c]) is not among
    the sources, and this is the algorithm of RFC 1321.  Bytes and 32-bit
    words are integers; the arithmetic wraps at 32 bits. *)

Module MD5.

Definition w32 (x : Z) : Z := Z.land x 0xFFFFFFFF.

Definition add32 (x y : Z) : Z := w32 (x + y).

Definition rotl32 (x s : Z) : Z :=
  w32 (Z.lor (Z.shiftl x s) (Z.shiftr x (32 - s))).

Definition not32 (x : Z) : Z := Z.lxor x 0xFFFFFFFF.

Definition F (x y z : Z) : Z := Z.lor (Z.land x y) (Z.land (not32 x) z).
Definition G (x y z : Z) : Z := Z.lor (Z.land x z) (Z.land y (not32 z)).
Definition H (x y z : Z) : Z := Z.lxor (Z.lxor x y) z.
Definition I (x y z : Z) : Z := Z.lxor y (Z.lor x (not32 z)).

(** T[i] = floor (4294967296 * abs (sin i)), i = 1 .. 64. *)
Definition T : list Z :=
  [ 0xd76aa478; 0xe8c7b756; 0x242070db; 0xc1bdceee;
    0xf57c0faf; 0x4787c62a; 0xa8304613; 0xfd469501;
    0x698098d8; 0x8b44f7af; 0xffff5bb1; 0x895cd7be;
    0x6b901122; 0xfd987193; 0xa679438e; 0x49b40821;
    0xf61e2562; 0xc040b340; 0x265e5a51; 0xe9b6c7aa;
    0xd62f105d; 0x02441453; 0xd8a1e681; 0xe7d3fbc8;
    0x21e1cde6; 0xc33707d6; 0xf4d50d87; 0x455a14ed;
    0xa9e3e905; 0xfcefa3f8; 0x676f02d9; 0x8d2a4c8a;
    0xfffa3942; 0x8771f681; 0x6d9d6122; 0xfde5380c;
    0xa4beea44; 0x4bdecfa9; 0xf6bb4b60; 0xbebfbc70;
    0x289b7ec6; 0xeaa127fa; 0xd4ef3085; 0x04881d05;
    0xd9d4d039; 0xe6db99e5; 0x1fa27cf8; 0xc4ac5665;
    0xf4292244; 0x432aff97; 0xab9423a7; 0xfc93a039;
    0x655b59c3; 0x8f0ccc92; 0xffeff47d; 0x85845dd1;
    0x6fa87e4f; 0xfe2ce6e0; 0xa3014314; 0x4e0811a1;
    0xf7537e82; 0xbd3af235; 0x2ad7d2bb; 0xeb86d391 ].

(** Rotation amounts of the four rounds. *)
Definition S : list Z :=
  [ 7; 12; 17; 22; 7; 12; 17; 22; 7; 12; 17; 22; 7; 12; 17; 22;
    5; 9; 14; 20; 5; 9; 14; 20; 5; 9; 14; 20; 5; 9; 14; 20;
    4; 11; 16; 23; 4; 11; 16; 23; 4; 11; 16; 23; 4; 11; 16; 23;
    6; 10; 15; 21; 6; 10; 15; 21; 6; 10; 15; 21; 6; 10; 15; 21 ].

(** A 32-bit word from four bytes, low-order byte first, and back. *)
Definition word_of_bytes (bs : list Z) : Z :=
  fold_right (fun b acc => Z.land b 255 + 256 * acc) 0 (take 4 bs).

Definition bytes_of_word (w : Z) : list Z :=
  [ Z.land w 255;
    Z.land (Z.shiftr w 8) 255;
    Z.land (Z.shiftr w 16) 255;
    Z.land (Z.shiftr w 24) 255 ].

(** The sixteen words of a 64-byte block. *)
Definition block_words (blk : list Z) : list Z :=
  map (fun g => word_of_bytes (drop (4 * g) blk)) (seq 0 16).

Record state := State { sa : Z; sb : Z; sc : Z; sd : Z }.

Definition init : state :=
  State 0x67452301 0xefcdab89 0x98badcfe 0x10325476.

(** Operation [i] (0 .. 63) on the block with words [M]. *)
Definition step (M : list Z) (st : state) (i : nat) : state :=
  let '(State a b c d) := st in
  let '(f, g) :=
    if (i <? 16)%nat then (F b c d, i)
    else if (i <? 32)%nat then (G b c d, (5 * i + 1) mod 16)%nat
    else if (i <? 48)%nat then (H b c d, (3 * i + 5) mod 16)%nat
    else (I b c d, (7 * i) mod 16)%nat in
  let x := add32 (add32 (add32 a f) (nth i T 0)) (nth g M 0) in
  State d (add32 b (rotl32 x (nth i S 0))) b c.

Definition process_block (st : state) (blk : list Z) : state :=
  let st' := fold_left (step (block_words blk)) (seq 0 64) st in
  State (add32 (sa st) (sa st')) (add32 (sb st) (sb st'))
        (add32 (sc st) (sc st')) (add32 (sd st) (sd st')).

(** Padding: a single 1 bit, 0 bits up to 56 modulo 64 bytes, and the
    length of the message in bits as a 64-bit number, low-order first. *)
Definition pad (msg : list Z) : list Z :=
  let n := length msg in
  let zeros := ((119 - n mod 64) mod 64)%nat in
  let bits := (8 * Z.of_nat n) mod 2 ^ 64 in
  msg ++ [128] ++ replicate zeros 0
      ++ bytes_of_word (w32 bits) ++ bytes_of_word (Z.shiftr bits 32).

Fixpoint blocks (n : nat) (bs : list Z) : list (list Z) :=
  match n with
  | O => []
  | Datatypes.S n' => take 64 bs :: blocks n' (drop 64 bs)
  end.

Definition digest_state (msg : list Z) : state :=
  let p := pad msg in
  fold_left process_block (blocks (length p / 64) p) init.

(** The 16-byte digest of a message. *)
Definition md5 (msg : list Z) : list Z :=
  let st := digest_state msg in
  bytes_of_word (sa st) ++ bytes_of_word (sb st)
    ++ bytes_of_word (sc st) ++ bytes_of_word (sd st).

(** The test suite of RFC 1321 (appendix A.5): the messages and the
    digests the RFC gives for them. *)
Definition test_suite : list (string * list Z) :=
  [
    (EmptyString,
     [0xd4; 0x1d; 0x8c; 0xd9; 0x8f; 0x00; 0xb2; 0x04;
      0xe9; 0x80; 0x09; 0x98; 0xec; 0xf8; 0x42; 0x7e]);
    ("a",
     [0x0c; 0xc1; 0x75; 0xb9; 0xc0; 0xf1; 0xb6; 0xa8;
      0x31; 0xc3; 0x99; 0xe2; 0x69; 0x77; 0x26; 0x61]);
    ("abc",
     [0x90; 0x01; 0x50; 0x98; 0x3c; 0xd2; 0x4f; 0xb0;
      0xd6; 0x96; 0x3f; 0x7d; 0x28; 0xe1; 0x7f; 0x72]);
    ("message digest",
     [0xf9; 0x6b; 0x69; 0x7d; 0x7c; 0xb7; 0x93; 0x8d;
      0x52; 0x5a; 0x2f; 0x31; 0xaa; 0xf1; 0x61; 0xd0]);
    ("abcdefghijklmnopqrstuvwxyz",
     [0xc3; 0xfc; 0xd3; 0xd7; 0x61; 0x92; 0xe4; 0x00;
      0x7d; 0xfb; 0x49; 0x6c; 0xca; 0x67; 0xe1; 0x3b]);
    ("ABCDEFGHIJKLMNOPQRSTUVWXYZabcdefghijklmnopqrstuvwxyz0123456789",
     [0xd1; 0x74; 0xab; 0x98; 0xd2; 0x77; 0xd9; 0xf5;
      0xa5; 0x61; 0x1c; 0x2c; 0x9f; 0x41; 0x9d; 0x9f]);
    ("12345678901234567890123456789012345678901234567890123456789012345678901234567890",
     [0x57; 0xed; 0xf4; 0xa2; 0x2b; 0xe3; 0xc9; 0x55;
      0xac; 0x49; 0xda; 0x2e; 0x21; 0x07; 0xb6; 0x7a]) ].

End MD5.


(** ** The file engine

    The engine ([tng_io.c]) is not among the sources.  The definitions of
    this module are modelled from the specification of the format and from
    the documentation of the prototypes; each says which sentences it
    follows.  Bytes are integers 0 .. 255, files are lists of bytes. *)

Module Tng.

(** *** Block IDs and limits, as the header fixes them *)

Definition TNG_TRAJECTORY_FRAME_SET : Z := 4.
Definition TNG_BLOCK_TABLE_OF_CONTENTS : Z := 5.
Definition TNG_PARTICLE_MAPPING : Z := 6.
Definition TNG_TRAJ_POSITIONS : Z := 10001.

Definition TNG_MAX_STR_LEN : Z := Header.TNG_MAX_STR_LEN.
Definition TNG_HASH_LEN : nat := Z.to_nat Header.TNG_HASH_LEN.

(** *** Data model *)

(** [union data_values] of the header: a double or a float (kept as its bit
    pattern), an int, or a string. *)
Inductive data_values :=
| dv_d (bits : Z)
| dv_f (bits : Z)
| dv_i (i : Z)
| dv_c (c : string).

(** Modelled from the spec: a mapping block holds the first global
    particle number, the particle count, and a dense table mapping the
    local index to the global particle number ([mapping_table[0]] is the
    real particle number of the first particle in the following data
    blocks). *)
Record tng_particle_mapping := {
  num_first_particle : Z;
  mapping_n_particles : Z;
  real_particle_numbers : list Z
}.

(** Modelled from the spec: a particle data block has an ID, a name, a
    datatype, a frame count, the values per frame, a stride length, a codec
    ID, the first particle number and the particle count; its payload is
    laid out frame-major, then particle-major, then value-major. *)
Record tng_particle_data := {
  pd_block_id : Z;
  pd_block_name : string;
  pd_datatype : tng_data_type;
  pd_first_particle_number : Z;
  pd_n_particles : Z;
  pd_n_frames : Z;
  pd_n_values_per_frame : Z;
  pd_stride_length : Z;
  pd_codec_id : Z;
  pd_values : list data_values
}.

(** Modelled from the spec: a non-particle data block is the same without
    the particle range. *)
Record tng_non_particle_data := {
  npd_block_id : Z;
  npd_block_name : string;
  npd_datatype : tng_data_type;
  npd_n_frames : Z;
  npd_n_values_per_frame : Z;
  npd_stride_length : Z;
  npd_codec_id : Z;
  npd_values : list data_values
}.

(** Modelled from the spec: the blocks of a frame set in the order of the
    file; the pairing of a particle data block with its mapping block is
    positional, each particle data block belongs to the nearest preceding
    mapping block. *)
Inductive frame_set_block :=
| MappingBlock (m : tng_particle_mapping)
| ParticleDataBlock (d : tng_particle_data)
| DataBlock (d : tng_non_particle_data).

(** Modelled from the spec: a frame set has a first frame, a frame count,
    the file offsets of the next and previous frame set (immediate, medium
    stride, long stride), a table of contents, and the ordered mapping and
    data blocks; with a variable number of particles it has a particle
    count of its own. *)
Record tng_trajectory_frame_set := {
  first_frame : Z;
  n_frames : Z;
  fs_n_particles : Z;
  next_frame_set_file_pos : Z;
  prev_frame_set_file_pos : Z;
  medium_stride_next_frame_set_file_pos : Z;
  medium_stride_prev_frame_set_file_pos : Z;
  long_stride_next_frame_set_file_pos : Z;
  long_stride_prev_frame_set_file_pos : Z;
  contents : list Z;
  fs_blocks : list frame_set_block
}.

(** Modelled from the spec: an atom has a name and an atom-type string. *)
Record tng_atom := { atom_name : string; atom_type : string }.

(** Modelled from the spec: a residue owns an ordered sequence of atoms. *)
Record tng_residue := {
  residue_name : string;
  residue_atoms : list tng_atom
}.

(** Modelled from the spec: a chain owns an ordered sequence of
    residues. *)
Record tng_chain := {
  chain_name : string;
  chain_residues : list tng_residue
}.

(** Modelled from the spec: a bond references atoms by their index within
    the molecule. *)
Record tng_bond := { from_atom_id : Z; to_atom_id : Z }.

(** Modelled from the spec: a molecule template has a name, an instance
    count, an ordered list of chains, a direct atom list (atoms may live
    outside chains) and a bond list. *)
Record tng_molecule := {
  molecule_name : string;
  molecule_cnt : Z;
  molecule_chains : list tng_chain;
  molecule_atoms : list tng_atom;
  molecule_bonds : list tng_bond
}.

(** Modelled from the spec: the session holds the input file and its read
    cursor, the output file, the topology and the current frame set. *)
Record tng_trajectory := {
  input_file : list Z;
  input_file_pos : nat;
  output_file : list Z;
  var_num_atoms_flag : tng_variable_n_atoms_flag;
  molecules : list tng_molecule;
  current_trajectory_frame_set : tng_trajectory_frame_set
}.

(** Modelled from the spec: a generic block has an ID, a name, a version, a
    block type and a content digest of 16 bytes; its content is an opaque
    run of bytes. *)
Record tng_gen_block := {
  block_id : Z;
  block_name : list Z;
  block_version : Z;
  block_type_flag : tng_block_type;
  block_hash : list Z;
  block_contents : list Z
}.

(** *** Outcomes

    Modelled from the spec: every operation yields one of three outcomes.
    After a minor failure the session remains usable; after a critical
    failure its state is undefined, and there is none to go on with. *)
Inductive tng_result (A : Type) : Type :=
| Success (a : A) (s : tng_trajectory)
| Minor (a : option A) (s : tng_trajectory)
| Critical.

Arguments Success {A} a s.
Arguments Minor {A} a s.
Arguments Critical {A}.

Definition status_of {A : Type} (r : tng_result A) : tng_function_status :=
  match r with
  | Success _ _ => TNG_SUCCESS
  | Minor _ _ => TNG_FAILURE
  | Critical => TNG_CRITICAL
  end.

(** What the caller gets back. *)
Definition value_of {A : Type} (r : tng_result A) : option A :=
  match r with
  | Success a _ => Some a
  | Minor a _ => a
  | Critical => None
  end.

(** The session the caller can go on with. *)
Definition session_of {A : Type} (r : tng_result A) : option tng_trajectory :=
  match r with
  | Success _ s | Minor _ s => Some s
  | Critical => None
  end.

(** The more severe of two outcomes. *)
Definition worst (a b : tng_function_status) : tng_function_status :=
  if Z.ltb (tng_function_status_code a) (tng_function_status_code b)
  then b else a.

(** *** Reading bytes *)

Inductive read_result (A : Type) : Type :=
| Read (a : A) (rest : list Z)
| ReadTooLong
| ReadTruncated.

Arguments Read {A} a rest.
Arguments ReadTooLong {A}.
Arguments ReadTruncated {A}.

Definition reader (A : Type) : Type := list Z -> read_result A.

Definition read_ret {A : Type} (a : A) : reader A := fun bs => Read a bs.

Definition read_bind {A B : Type} (m : reader A) (k : A -> reader B)
  : reader B :=
  fun bs =>
    match m bs with
    | Read a rest => k a rest
    | ReadTooLong => ReadTooLong
    | ReadTruncated => ReadTruncated
    end.

#[global] Instance reader_ret : MRet reader := @read_ret.
#[global] Instance reader_bind : MBind reader :=
  fun A B k m => read_bind m k.

Definition read_bytes (n : nat) : reader (list Z) :=
  fun bs =>
    if (n <=? length bs)%nat then Read (take n bs) (drop n bs)
    else ReadTruncated.

Definition read_byte : reader Z :=
  fun bs =>
    match bs with
    | b :: rest => Read b rest
    | [] => ReadTruncated
    end.

Definition read_fail {A : Type} : reader A := fun _ => ReadTruncated.

Definition read_too_long {A : Type} : reader A := fun _ => ReadTooLong.

Section Engine.

(** The 64-bit integers of a file are stored in the byte order the file
    declares; [u64_decode] reads eight bytes in that order and
    [u64_encode] writes them. *)
Variable u64_decode : list Z -> Z.
Variable u64_encode : Z -> list Z.

Definition read_u64 : reader Z :=
  bs ← read_bytes 8; read_ret (u64_decode bs).

(** Modelled from the spec: strings are length-prefixed with a 64-bit
    length and stored as raw bytes; the maximum accepted length is 1024 and
    over-length strings on read are reported as a minor failure. *)
Definition read_string : reader (list Z) :=
  len ← read_u64;
  if Z.ltb TNG_MAX_STR_LEN len then read_too_long
  else if Z.ltb len 0 then read_fail
  else read_bytes (Z.to_nat len).

(** Bytes of a block before its content, for a name of [n] bytes: total
    length, ID, length-prefixed name, version, type flag, digest. *)
Definition header_size (n : nat) : nat := 8 + 8 + (8 + n) + 8 + 1 + TNG_HASH_LEN.

(** Modelled from the spec: the block header is 1. the 64-bit total block
    length (header + content), 2. the 64-bit block ID, 3. the
    length-prefixed name, 4. the 64-bit block version, 5. the 8-bit
    block-type flag, 6. the 16-byte content digest; 7. the content bytes
    follow, (length - header size) of them. *)
Definition read_block : reader tng_gen_block :=
  total ← read_u64;
  id ← read_u64;
  name ← read_string;
  version ← read_u64;
  flag ← read_byte;
  hash ← read_bytes TNG_HASH_LEN;
  match tng_block_type_of_code flag with
  | None => read_fail
  | Some type =>
      if Z.ltb total (Z.of_nat (header_size (length name))) then read_fail
      else
        content ← read_bytes (Z.to_nat total - header_size (length name));
        read_ret {| block_id := id;
                    block_name := name;
                    block_version := version;
                    block_type_flag := type;
                    block_hash := hash;
                    block_contents := content |}
  end.

Definition block_length (b : tng_gen_block) : nat :=
  header_size (length (block_name b)) + length (block_contents b).

(** The declared total length of the block at the head of the bytes, when
    the block lies within them. *)
Definition declared_length (bs : list Z) : option nat :=
  match read_u64 bs with
  | Read total _ =>
      if Z.leb 8 total && (Z.to_nat total <=? length bs)%nat
      then Some (Z.to_nat total) else None
  | _ => None
  end.

(** How the bytes at the cursor frame a block. *)
Inductive framing :=
| Framed (b : tng_gen_block)
| Skipped (total : nat)
| Malformed.

(** Modelled from the spec: a truncated or malformed block header is a
    critical failure; an over-long string is a minor one, and the block is
    skipped by honouring its declared length. *)
Definition frame_block (bs : list Z) : framing :=
  match read_block bs with
  | Read b _ => Framed b
  | ReadTooLong =>
      match declared_length bs with
      | Some total => Skipped total
      | None => Malformed
      end
  | ReadTruncated => Malformed
  end.

(** *** Integrity *)

Definition zero_hash : list Z := replicate TNG_HASH_LEN 0.

(** Modelled from the spec: the digest is computed over the content of the
    block only, never over the header; the header calls it an MD5 hash. *)
Definition block_digest (b : tng_gen_block) : list Z :=
  MD5.md5 (block_contents b).

(** Modelled from the spec: in mode skip nothing is verified; in mode use
    the stored digest is verified when it is non-zero. *)
Definition hash_verify (hash_mode : tng_hash_mode) (b : tng_gen_block) : bool :=
  match hash_mode with
  | TNG_SKIP_HASH => true
  | TNG_USE_HASH =>
      bool_decide (block_hash b = zero_hash)
      || bool_decide (block_digest b = block_hash b)
  end.

(** *** The session's cursor *)

Definition remaining (s : tng_trajectory) : list Z :=
  drop (input_file_pos s) (input_file s).

Definition advance (n : nat) (s : tng_trajectory) : tng_trajectory :=
  {| input_file := input_file s;
     input_file_pos := input_file_pos s + n;
     output_file := output_file s;
     var_num_atoms_flag := var_num_atoms_flag s;
     molecules := molecules s;
     current_trajectory_frame_set := current_trajectory_frame_set s |}.

Definition append_output (bs : list Z) (s : tng_trajectory) : tng_trajectory :=
  {| input_file := input_file s;
     input_file_pos := input_file_pos s;
     output_file := output_file s ++ bs;
     var_num_atoms_flag := var_num_atoms_flag s;
     molecules := molecules s;
     current_trajectory_frame_set := current_trajectory_frame_set s |}.

(** *** Reading blocks *)

(** Modelled from the spec: tng_block_read_next, declared in the header,
    its body missing.  Read the header and the content; if the digest mode
    is active and the stored digest is non-zero, recompute it over the
    content and fail with a digest mismatch if they differ.  Verification
    failure is a non-fatal minor failure: the data is still returned, but
    the caller is informed. *)
Definition tng_block_read_next (s : tng_trajectory)
    (hash_mode : tng_hash_mode) : tng_result tng_gen_block :=
  match frame_block (remaining s) with
  | Framed b =>
      if hash_verify hash_mode b
      then Success b (advance (block_length b) s)
      else Minor (Some b) (advance (block_length b) s)
  | Skipped total => Minor None (advance total s)
  | Malformed => Critical
  end.

(** Modelled from the spec: the read of a string of the byte layer, which
    the header does not declare.  An over-length string is reported as a
    minor failure, and the session remains usable. *)
Definition tng_string_read (s : tng_trajectory) : tng_result (list Z) :=
  match read_string (remaining s) with
  | Read str _ => Success str (advance (8 + length str) s)
  | ReadTooLong => Minor None (advance 8 s)
  | ReadTruncated => Critical
  end.

(** The outcome of verifying one block. *)
Definition block_status (hash_mode : tng_hash_mode) (b : tng_gen_block)
  : tng_function_status :=
  if hash_verify hash_mode b then TNG_SUCCESS else TNG_FAILURE.

(** The blocks that follow a frame set block, up to the next frame set
    block or the end of the file, with the most severe outcome met on the
    way; [None] when a block is truncated or malformed. *)
Fixpoint frame_set_blocks_read (fuel : nat) (s : tng_trajectory)
    (hash_mode : tng_hash_mode)
  : option (tng_function_status * list tng_gen_block * tng_trajectory) :=
  match fuel with
  | O => None
  | S fuel' =>
      match remaining s with
      | [] => Some (TNG_SUCCESS, [], s)
      | _ :: _ =>
          match frame_block (remaining s) with
          | Malformed => None
          | Skipped total =>
              match frame_set_blocks_read fuel' (advance total s) hash_mode with
              | Some (st, bs, s') => Some (worst TNG_FAILURE st, bs, s')
              | None => None
              end
          | Framed b =>
              if Z.eqb (block_id b) TNG_TRAJECTORY_FRAME_SET
              then Some (TNG_SUCCESS, [], s)
              else
                match frame_set_blocks_read fuel'
                        (advance (block_length b) s) hash_mode with
                | Some (st, bs, s') =>
                    Some (worst (block_status hash_mode b) st, b :: bs, s')
                | None => None
                end
          end
      end
  end.

Definition result_of {A : Type} (st : tng_function_status) (a : A)
    (s : tng_trajectory) : tng_result A :=
  match st with
  | TNG_SUCCESS => Success a s
  | TNG_FAILURE => Minor (Some a) s
  | TNG_CRITICAL => Critical
  end.

(** Modelled from the spec: tng_frame_set_read_next, declared in the
    header, its body missing.  Read the next frame set, its frame set block
    and the blocks that belong to it.  A truncated or malformed frame set
    is a critical failure; a digest mismatch of a block is a minor failure,
    and the block is returned as it was read; an over-long string is a
    minor failure, and the block that holds it is skipped by its declared
    length.  The most severe outcome met is the outcome of the read.  The
    fuel of the loop, the number of bytes left, is more than it needs:
    every turn consumes a block. *)
Definition tng_frame_set_read_next (s : tng_trajectory)
    (hash_mode : tng_hash_mode) : tng_result (list tng_gen_block) :=
  match frame_block (remaining s) with
  | Framed b =>
      if Z.eqb (block_id b) TNG_TRAJECTORY_FRAME_SET
      then
        match frame_set_blocks_read (length (remaining s))
                (advance (block_length b) s) hash_mode with
        | Some (st, bs, s') =>
            result_of (worst (block_status hash_mode b) st) (b :: bs) s'
        | None => Critical
        end
      else Critical
  | Skipped total => Minor None (advance total s)
  | Malformed => Critical
  end.

(** *** Writing blocks *)

(** Modelled from the spec: in mode use the digest is computed over the
    content on write; in mode skip the stored field is zero. *)
Definition tng_block_hash_generate (hash_mode : tng_hash_mode)
    (b : tng_gen_block) : tng_gen_block :=
  {| block_id := block_id b;
     block_name := block_name b;
     block_version := block_version b;
     block_type_flag := block_type_flag b;
     block_hash := match hash_mode with
                   | TNG_USE_HASH => block_digest b
                   | TNG_SKIP_HASH => zero_hash
                   end;
     block_contents := block_contents b |}.

Definition block_bytes (b : tng_gen_block) : list Z :=
  u64_encode (Z.of_nat (block_length b))
  ++ u64_encode (block_id b)
  ++ u64_encode (Z.of_nat (length (block_name b))) ++ block_name b
  ++ u64_encode (block_version b)
  ++ [tng_block_type_code (block_type_flag b)]
  ++ block_hash b
  ++ block_contents b.

(** Modelled from the spec: the write of a block, whose body is missing.
    Serialise the content, compute the digest over it when asked to and
    patch the header field, then write the header followed by the
    content. *)
Definition tng_block_write (s : tng_trajectory) (b : tng_gen_block)
    (hash_mode : tng_hash_mode) : tng_result unit :=
  Success tt (append_output (block_bytes (tng_block_hash_generate hash_mode b)) s).

End Engine.

(** The canonical network order of a 64-bit integer: the most significant
    byte first. *)
Definition be64_decode (bs : list Z) : Z :=
  fold_left (fun acc b => acc * 256 + b) (take 8 bs) 0.

Definition be64_encode (n : Z) : list Z :=
  map (fun i => Z.land (Z.shiftr n (8 * i)) 255) [7; 6; 5; 4; 3; 2; 1; 0].

(** A block that fits the framing: its numbers are 64-bit, its name is no
    longer than a string may be, its digest field has the length of a
    hash. *)
Definition block_fits (b : tng_gen_block) : Prop :=
  0 <= block_id b < 2 ^ 64
  /\ 0 <= block_version b < 2 ^ 64
  /\ Z.of_nat (length (block_name b)) <= TNG_MAX_STR_LEN
  /\ length (block_hash b) = TNG_HASH_LEN
  /\ Z.of_nat (block_length b) < 2 ^ 64.


(** *** Topology and particle counts *)

(** The atoms of a chain are those of its residues. *)
Definition chain_atoms (c : tng_chain) : list tng_atom :=
  concat (map residue_atoms (chain_residues c)).

(** The atoms of one instance of a molecule: those of its chains and those
    outside chains. *)
Definition molecule_n_atoms (m : tng_molecule) : Z :=
  Z.of_nat (length (concat (map chain_atoms (molecule_chains m)))
            + length (molecule_atoms m)).

(** Modelled from the spec: the global atom count of the system is the sum
    of instances times atoms per molecule. *)
Definition topology_n_particles (mols : list tng_molecule) : Z :=
  fold_right (fun m acc => molecule_cnt m * molecule_n_atoms m + acc) 0 mols.

(** The current number of particles of the session. *)
Definition n_particles (s : tng_trajectory) : Z :=
  match var_num_atoms_flag s with
  | TNG_CONSTANT_N_ATOMS => topology_n_particles (molecules s)
  | TNG_VARIABLE_N_ATOMS => fs_n_particles (current_trajectory_frame_set s)
  end.

(** Modelled from the spec: tng_num_particles_get, declared in the header,
    its body missing.  Get the current number of particles; if a variable
    number of particles is used this is the number of particles in the
    current frame set, which may differ from the total of the topology. *)
Definition tng_num_particles_get (s : tng_trajectory) : tng_result Z :=
  Success (n_particles s) s.

Definition with_molecules (mols : list tng_molecule) (s : tng_trajectory)
  : tng_trajectory :=
  {| input_file := input_file s;
     input_file_pos := input_file_pos s;
     output_file := output_file s;
     var_num_atoms_flag := var_num_atoms_flag s;
     molecules := mols;
     current_trajectory_frame_set := current_trajectory_frame_set s |}.

(** Modelled from the spec: the builders of the topology, declared in the
    header, their bodies missing.  The topology is built by adding a
    molecule with a name, a chain to a molecule, a residue to a chain and
    an atom to a residue; each add yields a handle for the adds below it
    (here the position of the new element under its parent).  The instance
    count of a molecule defaults to 1 and is adjustable. *)
Definition tng_molecule_add (s : tng_trajectory) (name : string)
  : tng_result nat :=
  Success (length (molecules s))
    (with_molecules
       (molecules s ++ [{| molecule_name := name;
                           molecule_cnt := 1;
                           molecule_chains := [];
                           molecule_atoms := [];
                           molecule_bonds := [] |}]) s).

Definition set_cnt (cnt : Z) (m : tng_molecule) : tng_molecule :=
  {| molecule_name := molecule_name m;
     molecule_cnt := cnt;
     molecule_chains := molecule_chains m;
     molecule_atoms := molecule_atoms m;
     molecule_bonds := molecule_bonds m |}.

Definition set_chains (cs : list tng_chain) (m : tng_molecule) : tng_molecule :=
  {| molecule_name := molecule_name m;
     molecule_cnt := molecule_cnt m;
     molecule_chains := cs;
     molecule_atoms := molecule_atoms m;
     molecule_bonds := molecule_bonds m |}.

(** Negative counts are invalid arguments. *)
Definition tng_molecule_cnt_set (s : tng_trajectory) (molecule : nat)
    (cnt : Z) : tng_result unit :=
  match molecules s !! molecule with
  | Some m =>
      if Z.ltb cnt 0 then Critical
      else
        Success tt
          (with_molecules (<[molecule := set_cnt cnt m]> (molecules s)) s)
  | None => Critical
  end.

Definition tng_molecule_cnt_get (s : tng_trajectory) (molecule : nat)
  : tng_result Z :=
  match molecules s !! molecule with
  | Some m => Success (molecule_cnt m) s
  | None => Critical
  end.

Definition tng_molecule_chain_add (s : tng_trajectory) (molecule : nat)
    (name : string) : tng_result (nat * nat) :=
  match molecules s !! molecule with
  | Some m =>
      Success (molecule, length (molecule_chains m))
        (with_molecules
           (<[molecule :=
                set_chains (molecule_chains m
                            ++ [{| chain_name := name; chain_residues := [] |}]) m]>
              (molecules s)) s)
  | None => Critical
  end.

Definition tng_chain_residue_add (s : tng_trajectory) (chain : nat * nat)
    (name : string) : tng_result (nat * nat * nat) :=
  match molecules s !! chain.1 with
  | Some m =>
      match molecule_chains m !! chain.2 with
      | Some c =>
          let c' := {| chain_name := chain_name c;
                       chain_residues :=
                         chain_residues c
                         ++ [{| residue_name := name; residue_atoms := [] |}] |} in
          Success (chain, length (chain_residues c))
            (with_molecules
               (<[chain.1 := set_chains (<[chain.2 := c']> (molecule_chains m)) m]>
                  (molecules s)) s)
      | None => Critical
      end
  | None => Critical
  end.

Definition tng_residue_atom_add (s : tng_trajectory)
    (residue : nat * nat * nat) (atom_name atom_type : string)
  : tng_result (nat * nat * nat * nat) :=
  match molecules s !! residue.1.1 with
  | Some m =>
      match molecule_chains m !! residue.1.2 with
      | Some c =>
          match chain_residues c !! residue.2 with
          | Some r =>
              let r' := {| residue_name := residue_name r;
                           residue_atoms :=
                             residue_atoms r
                             ++ [{| atom_name := atom_name;
                                    atom_type := atom_type |}] |} in
              let c' := {| chain_name := chain_name c;
                           chain_residues :=
                             <[residue.2 := r']> (chain_residues c) |} in
              Success (residue, length (residue_atoms r))
                (with_molecules
                   (<[residue.1.1 :=
                        set_chains (<[residue.1.2 := c']> (molecule_chains m)) m]>
                      (molecules s)) s)
          | None => Critical
          end
      | None => Critical
      end
  | None => Critical
  end.

(** *** Particle data in real particle numbering *)

(** The particle data blocks with the given ID in the order of the frame
    set, each with the nearest preceding mapping block ([current] is the
    mapping block in force at the head of the list). *)
Fixpoint paired_blocks (id : Z) (current : option tng_particle_mapping)
    (bs : list frame_set_block)
  : list (option tng_particle_mapping * tng_particle_data) :=
  match bs with
  | [] => []
  | MappingBlock m :: rest => paired_blocks id (Some m) rest
  | ParticleDataBlock d :: rest =>
      if Z.eqb (pd_block_id d) id
      then (current, d) :: paired_blocks id current rest
      else paired_blocks id current rest
  | DataBlock _ :: rest => paired_blocks id current rest
  end.

Definition is_data_block (id : Z) (b : frame_set_block) : bool :=
  match b with
  | DataBlock d => Z.eqb (npd_block_id d) id
  | _ => false
  end.

(** Modelled from the spec: with stride s the payload holds samples for
    ceil (frames / s) frames. *)
Definition stored_frames (d : tng_particle_data) : nat :=
  Z.to_nat ((pd_n_frames d + pd_stride_length d - 1) / pd_stride_length d).

Definition block_particles (d : tng_particle_data) : nat :=
  Z.to_nat (pd_n_particles d).

Definition block_values (d : tng_particle_data) : nat :=
  Z.to_nat (pd_n_values_per_frame d).

(** The values of the particle with local index [j] in stored frame [f]:
    the payload is frame-major, then particle-major, then value-major. *)
Definition payload_row (d : tng_particle_data) (f j : nat) : list data_values :=
  take (block_values d)
    (drop ((f * block_particles d + j) * block_values d) (pd_values d)).

Definition frame_rows (d : tng_particle_data) (f : nat)
  : list (list data_values) :=
  map (payload_row d f) (seq 0 (block_particles d)).

(** The real particle numbers of the rows of a block: those of the table
    of its mapping block; without a mapping block the rows are numbered
    from the first particle number of the block. *)
Definition real_numbers (m : option tng_particle_mapping)
    (d : tng_particle_data) : list Z :=
  match m with
  | Some m => real_particle_numbers m
  | None => map (fun j => pd_first_particle_number d + Z.of_nat j)
                (seq 0 (block_particles d))
  end.

(** The rows of stored frame [f] of all the blocks, each with the real
    particle number it goes to. *)
Definition placements
    (pairs : list (option tng_particle_mapping * tng_particle_data))
    (f : nat) : list (Z * list data_values) :=
  concat (map (fun p => zip (real_numbers p.1 p.2) (frame_rows p.2 f)) pairs).

(** values[f][real particle number] = row; a number that is no particle of
    the system has no place in the array. *)
Definition place (arr : list (list data_values)) (p : Z * list data_values)
  : list (list data_values) :=
  if Z.leb 0 p.1 then <[Z.to_nat p.1 := p.2]> arr else arr.

Definition zero_value (t : tng_data_type) : data_values :=
  match t with
  | TNG_CHAR_DATA => dv_c ""
  | TNG_INT_DATA => dv_i 0
  | TNG_FLOAT_DATA => dv_f 0
  | TNG_DOUBLE_DATA => dv_d 0
  end.

Definition same_shape (d d' : tng_particle_data) : bool :=
  Z.eqb (tng_data_type_code (pd_datatype d')) (tng_data_type_code (pd_datatype d))
  && Nat.eqb (stored_frames d') (stored_frames d)
  && Z.eqb (pd_n_values_per_frame d') (pd_n_values_per_frame d).

(** What the getter hands back: the array, its three dimensions and the
    datatype of its values. *)
Record particle_values := {
  pv_values : list (list (list data_values));
  pv_n_frames : Z;
  pv_n_particles : Z;
  pv_n_values_per_frame : Z;
  pv_type : tng_data_type
}.

(** Modelled from the spec: tng_particle_data_get, declared in the header,
    its body missing.  Retrieve particle data from the last read frame set
    as a 3-D array (frames x particles x values per frame) whose
    particle dimension is translated to real particle numbering; payload
    rows correspond to local indices, the mapping translates them to global
    particle numbers, and the system-wide array is assembled from all
    mapping blocks.  A missing block ID is a critical failure, a type
    mismatch a minor one. *)
Definition tng_particle_data_get (s : tng_trajectory) (block_id : Z)
  : tng_result particle_values :=
  let fs := current_trajectory_frame_set s in
  match paired_blocks block_id None (fs_blocks fs) with
  | [] =>
      if existsb (is_data_block block_id) (fs_blocks fs)
      then Minor None s else Critical
  | (m, d) :: rest =>
      if forallb (same_shape d) (map snd rest)
      then
        let pairs := (m, d) :: rest in
        let empty :=
          replicate (Z.to_nat (n_particles s))
            (replicate (block_values d) (zero_value (pd_datatype d))) in
        Success
          {| pv_values :=
               map (fun f => fold_left place (placements pairs f) empty)
                   (seq 0 (stored_frames d));
             pv_n_frames := Z.of_nat (stored_frames d);
             pv_n_particles := n_particles s;
             pv_n_values_per_frame := pd_n_values_per_frame d;
             pv_type := pd_datatype d |} s
      else Minor None s
  end.

(** Modelled from the spec: the invariants of a mapping block and the data
    block that follows it.  The table is count long and injective, the
    local indices 0 .. count - 1 are the rows of the data block, and the
    table entries are particles of the system. *)
Definition covered (s : tng_trajectory)
    (p : option tng_particle_mapping * tng_particle_data) : Prop :=
  match p.1 with
  | Some m =>
      mapping_n_particles m = Z.of_nat (length (real_particle_numbers m))
      /\ pd_n_particles p.2 = mapping_n_particles m
      /\ NoDup (real_particle_numbers m)
      /\ (forall g, In g (real_particle_numbers m) -> 0 <= g < n_particles s)
  | None => False
  end.

(** Modelled from the spec: the payload element count is
    ceil (frames / stride) x particles x values per frame. *)
Definition payload_complete (d : tng_particle_data) : Prop :=
  length (pd_values d)
  = (stored_frames d * block_particles d * block_values d)%nat.

(** Modelled from the spec: no two mapping blocks in one frame set claim
    the same global index. *)
Definition disjoint_ranges
    (pairs : list (option tng_particle_mapping * tng_particle_data)) : Prop :=
  forall i j p q g,
    i <> j -> pairs !! i = Some p -> pairs !! j = Some q ->
    In g (real_numbers p.1 p.2) -> ~ In g (real_numbers q.1 q.2).

(** Reading the array: values[f][g][k]. *)
Definition value_at (pv : particle_values) (f : nat) (g : Z) (k : nat)
  : option data_values :=
  if Z.leb 0 g
  then row ← (frame ← pv_values pv !! f; frame !! Z.to_nat g); row !! k
  else None.

(** *** Sessions *)

Definition empty_frame_set : tng_trajectory_frame_set :=
  {| first_frame := 0;
     n_frames := 0;
     fs_n_particles := 0;
     next_frame_set_file_pos := 0;
     prev_frame_set_file_pos := 0;
     medium_stride_next_frame_set_file_pos := 0;
     medium_stride_prev_frame_set_file_pos := 0;
     long_stride_next_frame_set_file_pos := 0;
     long_stride_prev_frame_set_file_pos := 0;
     contents := [];
     fs_blocks := [] |}.

(** Modelled from the spec: a session is created empty. *)
Definition tng_trajectory_init : tng_trajectory :=
  {| input_file := [];
     input_file_pos := 0;
     output_file := [];
     var_num_atoms_flag := TNG_CONSTANT_N_ATOMS;
     molecules := [];
     current_trajectory_frame_set := empty_frame_set |}.

(** The session reading the given file from its start. *)
Definition with_input_file (bs : list Z) (s : tng_trajectory) : tng_trajectory :=
  {| input_file := bs;
     input_file_pos := 0;
     output_file := output_file s;
     var_num_atoms_flag := var_num_atoms_flag s;
     molecules := molecules s;
     current_trajectory_frame_set := current_trajectory_frame_set s |}.

(** The session with the given frame set as its current one. *)
Definition with_frame_set (flag : tng_variable_n_atoms_flag)
    (fs : tng_trajectory_frame_set) (s : tng_trajectory) : tng_trajectory :=
  {| input_file := input_file s;
     input_file_pos := input_file_pos s;
     output_file := output_file s;
     var_num_atoms_flag := flag;
     molecules := molecules s;
     current_trajectory_frame_set := fs |}.

End Tng.

(** ** Scenarios

    Small instances of the scenarios of the specification, to run the
    model on. *)

Module Scenario.

Import Tng.

(** One water molecule (O, H, H) with two instances: six particles. *)
Definition water : tng_trajectory :=
  match tng_molecule_add tng_trajectory_init "water" with
  | Success m s =>
    match tng_molecule_chain_add s m "W" with
    | Success c s =>
      match tng_chain_residue_add s c "WAT" with
      | Success r s =>
        match tng_residue_atom_add s r "O" "O" with
        | Success _ s =>
          match tng_residue_atom_add s r "HO1" "H" with
          | Success _ s =>
            match tng_residue_atom_add s r "HO2" "H" with
            | Success _ s =>
              match tng_molecule_cnt_set s m 2 with
              | Success _ s => s
              | _ => tng_trajectory_init
              end
            | _ => tng_trajectory_init
            end
          | _ => tng_trajectory_init
          end
        | _ => tng_trajectory_init
        end
      | _ => tng_trajectory_init
      end
    | _ => tng_trajectory_init
    end
  | _ => tng_trajectory_init
  end.

Definition positions (first : Z) (values : list Z) : tng_particle_data :=
  {| pd_block_id := TNG_TRAJ_POSITIONS;
     pd_block_name := "POSITIONS";
     pd_datatype := TNG_FLOAT_DATA;
     pd_first_particle_number := first;
     pd_n_particles := 3;
     pd_n_frames := 2;
     pd_n_values_per_frame := 1;
     pd_stride_length := 1;
     pd_codec_id := 0;
     pd_values := map dv_f values |}.

Definition mapping (first : Z) (table : list Z) : tng_particle_mapping :=
  {| num_first_particle := first;
     mapping_n_particles := Z.of_nat (length table);
     real_particle_numbers := table |}.

(** Two writers: the first holds the particles 4, 0, 2, the second the
    particles 1, 5, 3; two frames of one value per particle. *)
Definition mapping_a : tng_particle_mapping := mapping 0 [4; 0; 2].
Definition mapping_b : tng_particle_mapping := mapping 3 [1; 5; 3].
Definition positions_a : tng_particle_data :=
  positions 0 [10; 11; 12; 20; 21; 22].
Definition positions_b : tng_particle_data :=
  positions 3 [13; 14; 15; 23; 24; 25].

Definition two_partitions : tng_trajectory :=
  with_frame_set TNG_CONSTANT_N_ATOMS
    {| first_frame := 0;
       n_frames := 2;
       fs_n_particles := 6;
       next_frame_set_file_pos := 0;
       prev_frame_set_file_pos := 0;
       medium_stride_next_frame_set_file_pos := 0;
       medium_stride_prev_frame_set_file_pos := 0;
       long_stride_next_frame_set_file_pos := 0;
       long_stride_prev_frame_set_file_pos := 0;
       contents := [TNG_PARTICLE_MAPPING; TNG_TRAJ_POSITIONS];
       fs_blocks := [MappingBlock mapping_a; ParticleDataBlock positions_a;
                     MappingBlock mapping_b; ParticleDataBlock positions_b] |}
    water.

(** A frame set whose particle count differs from that of the topology. *)
Definition four_particles : tng_trajectory :=
  with_frame_set TNG_VARIABLE_N_ATOMS
    {| first_frame := 0;
       n_frames := 2;
       fs_n_particles := 4;
       next_frame_set_file_pos := 0;
       prev_frame_set_file_pos := 0;
       medium_stride_next_frame_set_file_pos := 0;
       medium_stride_prev_frame_set_file_pos := 0;
       long_stride_next_frame_set_file_pos := 0;
       long_stride_prev_frame_set_file_pos := 0;
       contents := [];
       fs_blocks := [] |}
    water.

Definition block (id : Z) (name : string) (content : list Z) : tng_gen_block :=
  {| block_id := id;
     block_name := bytes_of_string name;
     block_version := 1;
     block_type_flag := TNG_TRAJECTORY_BLOCK;
     block_hash := [];
     block_contents := content |}.

Definition frame_set_block : tng_gen_block :=
  block TNG_TRAJECTORY_FRAME_SET "FRAME SET" [0; 0; 0; 0; 0; 0; 0; 2].

Definition positions_block : tng_gen_block :=
  block TNG_TRAJ_POSITIONS "POSITIONS" [10; 11; 12; 20; 21; 22].

(** A file of one frame set, written with hashes. *)
Definition written_file : list Z :=
  match tng_block_write be64_encode tng_trajectory_init frame_set_block
          TNG_USE_HASH with
  | Success _ s =>
      match tng_block_write be64_encode s positions_block TNG_USE_HASH with
      | Success _ s => output_file s
      | _ => []
      end
  | _ => []
  end.

(** The same file with the last byte of the positions changed. *)
Definition corrupted_file : list Z :=
  <[(length written_file - 1)%nat := 23]> written_file.

Definition reading (file : list Z) : tng_trajectory :=
  with_input_file file tng_trajectory_init.

(** A file that starts with a string of declared length 2000. *)
Definition long_string_file : list Z :=
  be64_encode 2000 ++ replicate 2000 65.

(** A complete block whose name has the declared length 2000: the total
    length 2049, the ID, the name, the version, the type flag, a zero
    digest and no content. *)
Definition long_name_block (id : Z) : list Z :=
  be64_encode 2049 ++ be64_encode id
  ++ be64_encode 2000 ++ replicate 2000 65
  ++ be64_encode 1 ++ [tng_block_type_code TNG_TRAJECTORY_BLOCK]
  ++ replicate 16 0.

(** A frame set of three blocks, the second with such a name: the frame
    set block, the block with the over-long name, the positions. *)
Definition long_name_frame_set : list Z :=
  take 66 written_file ++ long_name_block TNG_TRAJ_POSITIONS
  ++ drop 66 written_file.

End Scenario.

(** * Properties *)

(** ** The interface of [tng_io.h] *)

Section HeaderFacts.

Lemma c_base_eqb_eq (a b : Header.c_base) :
  Header.c_base_eqb a b = true -> a = b.
Proof.
  destruct a, b; simpl; try discriminate; try reflexivity;
    intros E; apply String.eqb_eq in E; now subst.
Qed.

Lemma c_type_eqb_eq (a b : Header.c_type) :
  Header.c_type_eqb a b = true -> a = b.
Proof.
  destruct a as [ca ba na], b as [cb bb nb]; unfold Header.c_type_eqb; simpl.
  intros E. apply andb_prop in E as [E En]. apply andb_prop in E as [Ec Eb].
  apply Bool.eqb_prop in Ec. apply c_base_eqb_eq in Eb.
  apply Nat.eqb_eq in En. now subst.
Qed.

Lemma find_decl_In (x : string) (api : list Header.c_decl) (d : Header.c_decl) :
  Header.find_decl x api = Some d -> In d api /\ Header.decl_name d = x.
Proof.
  induction api as [|e api IH]; simpl; [discriminate|].
  destruct (String.eqb x (Header.decl_name e)) eqn:E.
  - intros [= ->]. apply String.eqb_eq in E. auto.
  - intros Hf. destruct (IH Hf). auto.
Qed.

Lemma tng_function_status_cases (s : tng_function_status) :
  s = TNG_SUCCESS \/ s = TNG_FAILURE \/ s = TNG_CRITICAL.
Proof. destruct s; auto. Qed.

Lemma tng_function_status_of_code_Some (v : Z) (s : tng_function_status) :
  tng_function_status_of_code v = Some s <-> tng_function_status_code s = v.
Proof.
  split.
  - destruct v as [|p|p]; simpl; [now intros [= <-]| |discriminate].
    destruct p as [[?|?|]|[?|?|]|]; simpl; try discriminate;
      now intros [= <-].
  - intros <-. now destruct s.
Qed.

(** C4.  Every operation of the public interface returns a
    [tng_function_status], and a status is exactly one of three kinds:
    TNG_SUCCESS = 0, TNG_FAILURE = 1 or TNG_CRITICAL = 2.  The 57
    prototypes of the header all have this return type (none returns void,
    a pointer or a number), the enumeration has these three enumerators
    with these values, and the codes 0, 1, 2 and the three outcomes
    correspond one to one. *)
Theorem every_operation_returns_a_status :
  length Header.tng_api = 57%nat
  /\ (forall d, In d Header.tng_api ->
                Header.decl_ret d = Header.enum Header.tng_function_status)
  /\ Header.enum_constants Header.tng_function_status
     = [("TNG_SUCCESS", 0); ("TNG_FAILURE", 1); ("TNG_CRITICAL", 2)]
  /\ (forall s, Header.enum_value Header.tng_function_status
                  (tng_function_status_name s)
                = Some (tng_function_status_code s))
  /\ (forall s : tng_function_status,
        s = TNG_SUCCESS \/ s = TNG_FAILURE \/ s = TNG_CRITICAL)
  /\ (forall v s, tng_function_status_of_code v = Some s
                  <-> tng_function_status_code s = v)
  /\ (forall v, (exists s, tng_function_status_code s = v)
                <-> v = 0 \/ v = 1 \/ v = 2).
Proof.
  split; [reflexivity|]. split.
  - intros d Hd.
    assert (H : forallb Header.returns_status Header.tng_api = true)
      by (vm_compute; reflexivity).
    rewrite forallb_forall in H. apply c_type_eqb_eq. exact (H d Hd).
  - split; [reflexivity|]. split; [intros []; reflexivity|].
    split; [exact tng_function_status_cases|].
    split; [exact tng_function_status_of_code_Some|].
    intros v; split.
    + intros [[] <-]; simpl; auto.
    + intros [->|[->| ->]];
        [exists TNG_SUCCESS|exists TNG_FAILURE|exists TNG_CRITICAL]; reflexivity.
Qed.

Lemma every_operation_witness :
  exists d, Header.find_decl "tng_frame_set_read_next" Header.tng_api = Some d
            /\ Header.decl_ret d = Header.enum Header.tng_function_status.
Proof.
  eexists. split; [reflexivity|].
  apply (proj1 (proj2 every_operation_returns_a_status)).
  exact (proj1 (find_decl_In "tng_frame_set_read_next" Header.tng_api _ eq_refl)).
Defined.

Lemma tng_data_type_of_code_Some (v : Z) (t : tng_data_type) :
  tng_data_type_of_code v = Some t <-> tng_data_type_code t = v.
Proof.
  split.
  - destruct v as [|p|p]; simpl; [now intros [= <-]| |discriminate].
    destruct p as [[?|?|]|[?|?|]|]; simpl; try discriminate;
      now intros [= <-].
  - intros <-. now destruct t.
Qed.

(** The block IDs and limits the engine uses are those of the header. *)
Lemma engine_constants_of_header :
  Header.enum_value Header.tng_non_trajectory_block_ids
    "TNG_TRAJECTORY_FRAME_SET" = Some Tng.TNG_TRAJECTORY_FRAME_SET
  /\ Header.enum_value Header.tng_non_trajectory_block_ids
       "TNG_BLOCK_TABLE_OF_CONTENTS" = Some Tng.TNG_BLOCK_TABLE_OF_CONTENTS
  /\ Header.enum_value Header.tng_non_trajectory_block_ids
       "TNG_PARTICLE_MAPPING" = Some Tng.TNG_PARTICLE_MAPPING
  /\ Header.enum_value Header.tng_trajectory_block_ids
       "TNG_TRAJ_POSITIONS" = Some Tng.TNG_TRAJ_POSITIONS
  /\ Header.enum_value Header.tng_block_type "TNG_TRAJECTORY_BLOCK"
     = Some (tng_block_type_code TNG_TRAJECTORY_BLOCK)
  /\ Header.enum_value Header.tng_block_type "TNG_NON_TRAJECTORY_BLOCK"
     = Some (tng_block_type_code TNG_NON_TRAJECTORY_BLOCK).
Proof. repeat split. Qed.

(** C5.  The reserved block IDs are 0 EndiannessAndStringLength,
    1 GeneralInfo, 2 Molecules, 3 TrajectoryIdsAndNames, 4 FrameSet,
    5 BlockTableOfContents, 6 ParticleMapping, 10000 BoxShape,
    10001 Positions, 10002 Velocities and 10003 Forces; every ID from
    10000 on is trajectory data and every ID below 10000 is
    control/metadata, and the two enumerations of the header fall on the
    two sides of that boundary. *)
Theorem reserved_block_id_assignment :
  Header.enum_constants Header.tng_non_trajectory_block_ids
  = [("TNG_ENDIANNESS_AND_STRING_LENGTH", 0);
     ("TNG_GENERAL_INFO", 1);
     ("TNG_MOLECULES", 2);
     ("TNG_TRAJECTORY_IDS_AND_NAMES", 3);
     ("TNG_TRAJECTORY_FRAME_SET", 4);
     ("TNG_BLOCK_TABLE_OF_CONTENTS", 5);
     ("TNG_PARTICLE_MAPPING", 6)]
  /\ Header.enum_constants Header.tng_trajectory_block_ids
     = [("TNG_TRAJ_BOX_SHAPE", 10000);
        ("TNG_TRAJ_POSITIONS", 10001);
        ("TNG_TRAJ_VELOCITIES", 10002);
        ("TNG_TRAJ_FORCES", 10003)]
  /\ Header.enum_value Header.tng_trajectory_block_ids "TNG_TRAJ_BOX_SHAPE"
     = Some TNG_TRAJ_BOX_SHAPE
  /\ (forall x v,
        In (x, v) (Header.enum_constants Header.tng_trajectory_block_ids) ->
        block_id_range_of v = trajectory_data_block_id)
  /\ (forall x v,
        In (x, v) (Header.enum_constants Header.tng_non_trajectory_block_ids) ->
        block_id_range_of v = control_block_id)
  /\ (forall id, 10000 <= id <->
                 block_id_range_of id = trajectory_data_block_id)
  /\ (forall id, id < 10000 <-> block_id_range_of id = control_block_id)
  /\ map snd Header.reserved_block_ids
     = [0; 1; 2; 3; 4; 5; 6; 10000; 10001; 10002; 10003].
Proof.
  split; [reflexivity|]. split; [reflexivity|]. split; [reflexivity|].
  split; [|split; [|split; [|split; [|reflexivity]]]].
  - intros x v Hin. vm_compute in Hin.
    repeat (destruct Hin as [[= <- <-]|Hin]; [reflexivity|]). destruct Hin.
  - intros x v Hin. vm_compute in Hin.
    repeat (destruct Hin as [[= <- <-]|Hin]; [reflexivity|]). destruct Hin.
  - intros id; unfold block_id_range_of, TNG_TRAJ_BOX_SHAPE;
      destruct (Z.leb_spec 10000 id); split; intros; try lia;
        try reflexivity; discriminate.
  - intros id; unfold block_id_range_of, TNG_TRAJ_BOX_SHAPE;
      destruct (Z.leb_spec 10000 id); split; intros; try lia;
        try reflexivity; discriminate.
Qed.

Lemma reserved_block_id_witness :
  block_id_range_of 10001 = trajectory_data_block_id
  /\ block_id_range_of 6 = control_block_id.
Proof.
  split.
  - apply (proj1 (proj2 (proj2 (proj2 reserved_block_id_assignment)))
             "TNG_TRAJ_POSITIONS" 10001).
    right. left. reflexivity.
  - apply (proj1 (proj2 (proj2 (proj2 (proj2 reserved_block_id_assignment))))
             "TNG_PARTICLE_MAPPING" 6).
    do 6 right. left. reflexivity.
Defined.

(** C6.  The datatype tag has exactly four values, 0 for character data,
    1 for 32-bit integers, 2 for 32-bit floats and 3 for 64-bit floats;
    the operations that add a data block take it as a [const char], one
    byte, and the getters hand the tag back through [tng_data_type *type]
    next to the array of [union data_values], whose members are the four
    kinds of value. *)
Theorem datatype_tag_one_byte_four_values :
  Header.enum_constants Header.tng_data_type
  = [("TNG_CHAR_DATA", 0); ("TNG_INT_DATA", 1);
     ("TNG_FLOAT_DATA", 2); ("TNG_DOUBLE_DATA", 3)]
  /\ (forall t, Header.enum_value Header.tng_data_type (tng_data_type_name t)
                = Some (tng_data_type_code t))
  /\ (forall v t, tng_data_type_of_code v = Some t
                  <-> tng_data_type_code t = v)
  /\ (forall v, (exists t, tng_data_type_code t = v) <-> 0 <= v <= 3)
  /\ (forall t, 0 <= tng_data_type_code t < 2 ^ 8)
  /\ (forall f, In f ["tng_data_block_add"; "tng_particle_data_block_add"] ->
                Header.param_of f "datatype" = Some (Header.const Header.char))
  /\ Header.c_sizeof (Header.const Header.char) = Some 1
  /\ (forall f, In f ["tng_data_get"; "tng_data_interval_get";
                      "tng_particle_data_get";
                      "tng_particle_data_interval_get"] ->
                Header.param_of f "type"
                = Some (Header.ptr (Header.enum Header.tng_data_type))
                /\ exists t, Header.param_of f "values" = Some t
                             /\ Header.c_base_of t = Header.c_union "data_values")
  /\ (forall t, In (tng_data_type_member t) Header.data_values)
  /\ map tng_data_type_bits
         [TNG_CHAR_DATA; TNG_INT_DATA; TNG_FLOAT_DATA; TNG_DOUBLE_DATA]
     = [Some 8; Some 32; Some 32; Some 64].
Proof.
  split; [reflexivity|]. split; [intros []; reflexivity|].
  split; [exact tng_data_type_of_code_Some|].
  split.
  { intros v; split.
    - intros [[] <-]; simpl; lia.
    - intros Hv.
      assert (v = 0 \/ v = 1 \/ v = 2 \/ v = 3) as [->|[->|[->| ->]]] by lia;
        [exists TNG_CHAR_DATA|exists TNG_INT_DATA
        |exists TNG_FLOAT_DATA|exists TNG_DOUBLE_DATA]; reflexivity. }
  split; [intros []; simpl; lia|].
  split.
  { intros f Hf. simpl in Hf.
    destruct Hf as [<-|[<-|[]]]; reflexivity. }
  split; [reflexivity|].
  split.
  { intros f Hf. simpl in Hf.
    destruct Hf as [<-|[<-|[<-|[<-|[]]]]];
      (split; [reflexivity|eexists; split; reflexivity]). }
  split; [intros []; simpl; auto 6|reflexivity].
Qed.

Lemma datatype_tag_witness :
  Header.param_of "tng_particle_data_block_add" "datatype"
  = Some (Header.const Header.char)
  /\ Header.param_of "tng_particle_data_get" "type"
     = Some (Header.ptr (Header.enum Header.tng_data_type)).
Proof.
  split.
  - apply (proj1 (proj2 (proj2 (proj2 (proj2 (proj2
             datatype_tag_one_byte_four_values)))))).
    right. left. reflexivity.
  - apply (proj1 (proj2 (proj2 (proj2 (proj2 (proj2 (proj2 (proj2
             datatype_tag_one_byte_four_values)))))))).
    do 2 right. left. reflexivity.
Defined.

(** C10.  The header names three codecs: 0 is uncompressed, 1 is the XTC
    compression and 2 the TNG compression.  A codec ID is free for a custom
    codec exactly when it is none of 0, 1 and 2; the add operations take
    any 64-bit ID. *)
Theorem codec_ids_0_1_2_reserved :
  Header.enum_constants Header.tng_compression
  = [("TNG_UNCOMPRESSED", 0);
     ("TNG_XTC_COMPRESSION", 1);
     ("TNG_TNG_COMPRESSION", 2)]
  /\ (forall codec_id, Header.codec_id_reserved codec_id = true
                       <-> codec_id = 0 \/ codec_id = 1 \/ codec_id = 2)
  /\ (forall codec_id, Header.codec_id_reserved codec_id = false
                       <-> codec_id <> 0 /\ codec_id <> 1 /\ codec_id <> 2)
  /\ (forall f, In f ["tng_data_block_add"; "tng_particle_data_block_add"] ->
                Header.param_of f "codec_id" = Some Header.int64_t).
Proof.
  assert (R : forall c, Header.codec_id_reserved c
                        = Z.eqb 0 c || (Z.eqb 1 c || (Z.eqb 2 c || false)))
    by reflexivity.
  split; [reflexivity|]. split; [|split].
  - intros c. rewrite R.
    destruct (Z.eqb_spec 0 c), (Z.eqb_spec 1 c), (Z.eqb_spec 2 c);
      simpl; split; intros; try lia; try reflexivity; discriminate.
  - intros c. rewrite R.
    destruct (Z.eqb_spec 0 c), (Z.eqb_spec 1 c), (Z.eqb_spec 2 c);
      simpl; split; intros; try lia; try reflexivity; discriminate.
  - intros f Hf. simpl in Hf. destruct Hf as [<-|[<-|[]]]; reflexivity.
Qed.

Lemma codec_ids_witness :
  Header.codec_id_reserved 3 = false /\ Header.codec_id_reserved 2 = true.
Proof.
  split.
  - apply (proj1 (proj2 (proj2 codec_ids_0_1_2_reserved))).
    repeat split; discriminate.
  - apply (proj1 (proj2 codec_ids_0_1_2_reserved)).
    right. right. reflexivity.
Defined.

(** The numbering rule on an enumeration without initialisers: the
    enumerators count up from the first value. *)
Lemma enum_number_consecutive (items : list (string * option Z)) (next : Z) :
  (forall p, In p items -> snd p = None) ->
  map snd (Header.enum_number next items)
  = map (fun i => next + Z.of_nat i) (seq 0 (length items)).
Proof.
  revert next. induction items as [|[x init] items IH]; intros next Hn;
    [reflexivity|].
  assert (init = None) as -> by (apply (Hn (x, init)); now left).
  cbn [Header.enum_number length seq map snd].
  rewrite IH by (intros p Hp; apply Hn; now right).
  rewrite <- seq_shift, map_map. f_equal; [lia|].
  apply map_ext. intros i. lia.
Qed.

Lemma distinctb_NoDup {A : Type} (eqb : A -> A -> bool) (l : list A) :
  (forall x y, eqb x y = true -> x = y) ->
  (forall x, eqb x x = true) ->
  Header.distinctb eqb l = true -> NoDup l.
Proof.
  intros Heq Hrefl. induction l as [|x l IH]; simpl; [constructor|].
  intros H. apply andb_prop in H as [Hx Hl].
  apply NoDup_cons. split; [|now apply IH].
  intros Hin. apply negb_true_iff in Hx.
  assert (E : existsb (eqb x) l = true).
  { apply existsb_exists. exists x. split; [now apply list_elem_of_In|auto]. }
  congruence.
Qed.

Lemma param_eqb_eq (p q : Header.c_type * string) :
  Header.param_eqb p q = true -> p = q.
Proof.
  destruct p as [t x], q as [u y]. unfold Header.param_eqb; simpl.
  intros H. apply andb_prop in H as [Ht Hx].
  apply c_type_eqb_eq in Ht. apply String.eqb_eq in Hx. now subst.
Qed.

(** In every enumeration of the header the enumerators have pairwise
    distinct names and pairwise distinct values, so that a value stands for
    one enumerator; an enumeration without initialisers counts from 0. *)
Theorem enumerators_distinct (e : Header.c_enum) :
  In e Header.enums ->
  NoDup (map fst (Header.enum_constants e))
  /\ NoDup (map snd (Header.enum_constants e))
  /\ ((forall p, In p (Header.enum_items e) -> snd p = None) ->
      map snd (Header.enum_constants e)
      = map Z.of_nat (seq 0 (length (Header.enum_items e)))).
Proof.
  intros He. split; [|split].
  - assert (H : forallb (fun e => Header.distinctb String.eqb
                                    (map fst (Header.enum_constants e)))
                  Header.enums = true) by (vm_compute; reflexivity).
    rewrite forallb_forall in H.
    apply (distinctb_NoDup String.eqb);
      [intros x y; apply String.eqb_eq|apply String.eqb_refl|exact (H e He)].
  - assert (H : forallb (fun e => Header.distinctb Z.eqb
                                    (map snd (Header.enum_constants e)))
                  Header.enums = true) by (vm_compute; reflexivity).
    rewrite forallb_forall in H.
    apply (distinctb_NoDup Z.eqb);
      [intros x y; apply Z.eqb_eq|apply Z.eqb_refl|exact (H e He)].
  - intros Hn. unfold Header.enum_constants.
    rewrite enum_number_consecutive by assumption.
    apply map_ext. intros i. lia.
Qed.

Lemma enumerators_distinct_witness :
  NoDup (map snd (Header.enum_constants Header.tng_endianness_64))
  /\ map snd (Header.enum_constants Header.tng_endianness_64)
     = [0; 1; 2; 3; 4].
Proof.
  destruct (enumerators_distinct Header.tng_endianness_64) as (_ & Hv & Hc).
  - do 1 right. left. reflexivity.
  - split; [exact Hv|]. apply Hc.
    intros p Hp. simpl in Hp.
    repeat (destruct Hp as [<-|Hp]; [reflexivity|]). destruct Hp.
Defined.

(** The byte orders a file can declare: three for 32-bit values (big
    endian, little endian, byte pairs swapped) and five for 64-bit values
    (big endian, little endian, quads swapped, byte pairs swapped, bytes
    swapped). *)
Theorem byte_order_enumerations :
  Header.enum_constants Header.tng_endianness_32
  = [("TNG_BIG_ENDIAN_32", 0);
     ("TNG_LITTLE_ENDIAN_32", 1);
     ("TNG_BYTE_PAIR_SWAP_32", 2)]
  /\ Header.enum_constants Header.tng_endianness_64
     = [("TNG_BIG_ENDIAN_64", 0);
        ("TNG_LITTLE_ENDIAN_64", 1);
        ("TNG_QUAD_SWAP_64", 2);
        ("TNG_BYTE_PAIR_SWAP_64", 3);
        ("TNG_BYTE_SWAP_64", 4)].
Proof. split; reflexivity. Qed.

(** The integrity mode is TNG_SKIP_HASH = 0 or TNG_USE_HASH = 1; an
    operation that takes it takes it as [const tng_hash_mode hash_mode],
    after the session, as its last parameter. *)
Theorem hash_mode_parameter :
  Header.enum_constants Header.tng_hash_mode
  = [("TNG_SKIP_HASH", 0); ("TNG_USE_HASH", 1)]
  /\ (forall d t,
        In d Header.tng_api ->
        Header.param_type "hash_mode" (Header.decl_params d) = Some t ->
        t = Header.const (Header.enum Header.tng_hash_mode)
        /\ last (Header.decl_params d) = Some (t, "hash_mode")
        /\ head (Header.decl_params d)
           = Some (Header.tng_trajectory_t, "tng_data")).
Proof.
  split; [reflexivity|]. intros d t Hd Ht.
  assert (H : forallb
                (fun d =>
                   match Header.param_type "hash_mode" (Header.decl_params d) with
                   | None => true
                   | Some t =>
                       Header.c_type_eqb t
                         (Header.const (Header.enum Header.tng_hash_mode))
                       && Header.last_param_is (t, "hash_mode") d
                       && Header.first_param_is
                            (Header.tng_trajectory_t, "tng_data") d
                   end) Header.tng_api = true) by (vm_compute; reflexivity).
  rewrite forallb_forall in H. specialize (H d Hd). rewrite Ht in H.
  apply andb_prop in H as [H Hh]. apply andb_prop in H as [Hc Hl].
  apply c_type_eqb_eq in Hc.
  unfold Header.last_param_is in Hl. unfold Header.first_param_is in Hh.
  destruct (last (Header.decl_params d)) as [p|]; [|discriminate].
  destruct (head (Header.decl_params d)) as [q|]; [|discriminate].
  apply param_eqb_eq in Hl, Hh. subst. auto.
Qed.

Lemma hash_mode_parameter_witness :
  exists d, Header.find_decl "tng_frame_set_write" Header.tng_api = Some d
            /\ last (Header.decl_params d)
               = Some (Header.const (Header.enum Header.tng_hash_mode),
                       "hash_mode").
Proof.
  eexists. split; [reflexivity|].
  eapply (proj2 hash_mode_parameter).
  - exact (proj1 (find_decl_In "tng_frame_set_write" Header.tng_api _ eq_refl)).
  - reflexivity.
Defined.

(** X21.  The header marks the operations over a range of frames as not
    implemented: the prototypes that take a range of frames
    ([start_frame_nr], [end_frame_nr]) are tng_frame_read_interval,
    tng_frame_write_interval and the two interval getters, and they are
    exactly the prototypes whose documentation says "Not implemented
    yet!".  No prototype the header documents without that note takes a
    range of frames.  This is what the header declares; what a call does
    is in the bodies, which these sources do not hold. *)
Theorem interval_operations_not_implemented :
  map Header.decl_name (List.filter Header.takes_frame_interval Header.tng_api)
  = ["tng_frame_read_interval"; "tng_frame_write_interval";
     "tng_data_interval_get"; "tng_particle_data_interval_get"]
  /\ (forall d, In d Header.tng_api ->
                Header.takes_frame_interval d = true
                <-> Header.decl_note d = Header.NotImplementedYet)
  /\ (forall d, In d Header.tng_api ->
                Header.decl_note d = Header.Documented ->
                Header.param_type "start_frame_nr" (Header.decl_params d) = None
                /\ Header.param_type "end_frame_nr" (Header.decl_params d) = None)
  /\ (forall f, In f ["tng_frame_read_interval"; "tng_frame_write_interval";
                      "tng_data_interval_get";
                      "tng_particle_data_interval_get"] ->
                exists d, Header.find_decl f Header.tng_api = Some d
                          /\ Header.decl_note d = Header.NotImplementedYet
                          /\ Header.decl_ret d
                             = Header.enum Header.tng_function_status).
Proof.
  split; [reflexivity|]. split; [|split].
  - intros d Hd.
    assert (H : forallb (fun d => Bool.eqb (Header.takes_frame_interval d)
                                    (Header.not_implemented d))
                  Header.tng_api = true) by (vm_compute; reflexivity).
    rewrite forallb_forall in H. specialize (H d Hd).
    apply Bool.eqb_prop in H. rewrite H. unfold Header.not_implemented.
    destruct (Header.decl_note d); split; intros; try reflexivity; discriminate.
  - intros d Hd Hn.
    assert (H : forallb
                  (fun d =>
                     Header.not_implemented d
                     || (match Header.param_type "start_frame_nr" (Header.decl_params d),
                               Header.param_type "end_frame_nr" (Header.decl_params d)
                         with None, None => true | _, _ => false end))
                  Header.tng_api = true) by (vm_compute; reflexivity).
    rewrite forallb_forall in H. specialize (H d Hd).
    unfold Header.not_implemented in H. rewrite Hn in H. simpl in H.
    destruct (Header.param_type "start_frame_nr" _),
             (Header.param_type "end_frame_nr" _); try discriminate; auto.
  - intros f Hf. simpl in Hf.
    destruct Hf as [<-|[<-|[<-|[<-|[]]]]];
      (eexists; split; [reflexivity|split; reflexivity]).
Qed.

Lemma interval_operations_witness :
  exists d, Header.find_decl "tng_frame_read_interval" Header.tng_api = Some d
            /\ Header.decl_note d = Header.NotImplementedYet.
Proof.
  eexists. split; [reflexivity|].
  apply (proj1 (proj2 interval_operations_not_implemented)).
  - exact (proj1 (find_decl_In "tng_frame_read_interval" Header.tng_api _
                    eq_refl)).
  - reflexivity.
Defined.

End HeaderFacts.

(** ** The macros, the prototypes taken together, and their documentation *)

Section InterfaceFacts.

(** The value of an expression depends on the caller's identifiers it
    reads, and on no other. *)
Lemma eval_free (e : Header.c_expr) (env env' : Header.c_env) :
  (forall z, Header.free z e = true -> env z = env' z) ->
  Header.eval env e = Header.eval env' e.
Proof.
  revert env env'.
  induction e as [n|x|l IHl r IHr|l IHl r IHr|c IHc t IHt e IHe
                  |x ex IHx y ey IHy res IHr];
    intros env env' H; cbn [Header.eval].
  - reflexivity.
  - apply H. cbn [Header.free]. apply String.eqb_refl.
  - rewrite (IHl env env'), (IHr env env'); [reflexivity| |];
      intros z Hz; apply H; cbn [Header.free]; rewrite Hz;
      auto using orb_true_r.
  - rewrite (IHl env env'), (IHr env env'); [reflexivity| |];
      intros z Hz; apply H; cbn [Header.free]; rewrite Hz;
      auto using orb_true_r.
  - rewrite (IHc env env'), (IHt env env'), (IHe env env'); [reflexivity| | |];
      intros z Hz; apply H; cbn [Header.free]; rewrite Hz;
      rewrite ?orb_true_r; reflexivity.
  - assert (Ex : Header.eval (Header.declare x None env) ex
                 = Header.eval (Header.declare x None env') ex).
    { apply IHx. intros z Hz. unfold Header.declare.
      destruct (String.eqb z x) eqn:E; [reflexivity|].
      apply H. cbn [Header.free]. now rewrite E, Hz. }
    rewrite Ex. destruct (Header.eval (Header.declare x None env') ex)
      as [vx|]; [|reflexivity]. cbv zeta.
    assert (Ey : Header.eval
                   (Header.declare y None (Header.declare x (Some vx) env)) ey
                 = Header.eval
                     (Header.declare y None (Header.declare x (Some vx) env'))
                     ey).
    { apply IHy. intros z Hz. unfold Header.declare.
      destruct (String.eqb z y) eqn:Ey; [reflexivity|].
      destruct (String.eqb z x) eqn:E; [reflexivity|].
      apply H. cbn [Header.free]. rewrite E, Ey, Hz. cbn.
      apply orb_true_r. }
    rewrite Ey. clear Ex Ey.
    destruct (Header.eval
                (Header.declare y None (Header.declare x (Some vx) env')) ey)
      as [vy|]; [|reflexivity].
    apply IHr. intros z Hz. unfold Header.declare.
    destruct (String.eqb z y) eqn:Ey'; [reflexivity|].
    destruct (String.eqb z x) eqn:E; [reflexivity|].
    apply H. cbn [Header.free]. rewrite E, Ey', Hz. cbn.
    rewrite !orb_true_r. reflexivity.
Qed.

(** What the macros evaluate to on arguments that keep clear of the
    temporaries: the first may not read [_a], the second neither [_a] nor
    [_b]. *)
Lemma eval_min_max (env : Header.c_env) (a b : Header.c_expr) (va vb : Z) :
  Header.free "_a" a = false ->
  Header.free "_a" b = false -> Header.free "_b" b = false ->
  Header.eval env a = Some va -> Header.eval env b = Some vb ->
  Header.eval env (Header.min a b) = Some (if (va <? vb)%Z then va else vb)
  /\ Header.eval env (Header.max a b) = Some (if (va >? vb)%Z then va else vb).
Proof.
  intros Fa Fab Fbb Ea Eb.
  assert (Ea' : Header.eval (Header.declare "_a" None env) a = Some va).
  { rewrite <- Ea. apply eval_free. intros z Hz. unfold Header.declare.
    destruct (String.eqb_spec z "_a") as [->|_]; [congruence|reflexivity]. }
  assert (Eb' : Header.eval
                  (Header.declare "_b" None
                     (Header.declare "_a" (Some va) env)) b = Some vb).
  { rewrite <- Eb. apply eval_free. intros z Hz. unfold Header.declare.
    destruct (String.eqb_spec z "_b") as [->|_]; [congruence|].
    destruct (String.eqb_spec z "_a") as [->|_]; [congruence|reflexivity]. }
  unfold Header.min, Header.max. cbn [Header.eval].
  rewrite Ea'. cbv zeta. rewrite Eb'.
  unfold Header.declare. cbn [String.eqb Ascii.eqb Bool.eqb].
  split; [destruct (va <? vb)%Z|destruct (va >? vb)%Z]; reflexivity.
Qed.





(** X22.  An argument that names a temporary is captured by it.  When the
    second argument is [_a], it denotes the temporary that holds the first
    argument, so that [min(a,_a)] and [max(a,_a)] are the value of [a]
    whatever the caller's [_a] is; [max(_b,_a)] with [_a] = 7 and [_b] = 3
    is 3.  When the first argument reads [_a], or the second reads [_b],
    it reads a temporary that has no value yet, and the result is
    undefined. *)
Theorem macro_temporaries_capture (env : Header.c_env) (a : Header.c_expr)
    (va : Z) :
  Header.free "_a" a = false -> Header.eval env a = Some va ->
  Header.eval env (Header.min a (Header.Id "_a")) = Some va
  /\ Header.eval env (Header.max a (Header.Id "_a")) = Some va
  /\ Header.eval env (Header.min a (Header.Id "_b")) = None
  /\ Header.eval env (Header.max a (Header.Id "_b")) = None
  /\ (forall b, Header.eval env (Header.min (Header.Id "_a") b) = None
                /\ Header.eval env (Header.max (Header.Id "_a") b) = None).
Proof.
  intros Fa Ea.
  assert (Ea' : Header.eval (Header.declare "_a" None env) a = Some va).
  { rewrite <- Ea. apply eval_free. intros z Hz. unfold Header.declare.
    destruct (String.eqb_spec z "_a") as [->|_]; [congruence|reflexivity]. }
  unfold Header.min, Header.max. cbn [Header.eval]. rewrite Ea'. cbv zeta.
  unfold Header.declare. cbn [String.eqb Ascii.eqb Bool.eqb].
  rewrite Z.ltb_irrefl, Z.gtb_ltb, Z.ltb_irrefl. cbn.
  repeat split; reflexivity.
Qed.

Lemma macro_temporaries_witness :
  Header.eval (Header.declare "_a" (Some 7)
                 (Header.declare "_b" (Some 3) (fun _ => None)))
    (Header.max (Header.Id "_b") (Header.Id "_a"))
  = Some 3.
Proof.
  apply (proj1 (proj2 (macro_temporaries_capture
                         (Header.declare "_a" (Some 7)
                            (Header.declare "_b" (Some 3) (fun _ => None)))
                         (Header.Id "_b") 3 eq_refl eq_refl))).
Defined.

(** X6.  The two dependency flags are independent bits: setting one in
    a flag word leaves the test for the other as it was, a flag that has
    been set tests as set, and the two have no bit in common. *)
Theorem dependency_flags_are_independent (w : Z) :
  Z.land (Z.lor w Header.TNG_PARTICLE_DEPENDENT) Header.TNG_FRAME_DEPENDENT
  = Z.land w Header.TNG_FRAME_DEPENDENT
  /\ Z.land (Z.lor w Header.TNG_FRAME_DEPENDENT) Header.TNG_PARTICLE_DEPENDENT
     = Z.land w Header.TNG_PARTICLE_DEPENDENT
  /\ Z.land (Z.lor w Header.TNG_PARTICLE_DEPENDENT)
       Header.TNG_PARTICLE_DEPENDENT
     = Header.TNG_PARTICLE_DEPENDENT
  /\ Z.land (Z.lor w Header.TNG_FRAME_DEPENDENT) Header.TNG_FRAME_DEPENDENT
     = Header.TNG_FRAME_DEPENDENT
  /\ Z.land Header.TNG_PARTICLE_DEPENDENT Header.TNG_FRAME_DEPENDENT = 0.
Proof.
  unfold Header.TNG_PARTICLE_DEPENDENT, Header.TNG_FRAME_DEPENDENT.
  change 1 with (2 ^ 0). change 2 with (2 ^ 1).
  repeat split; try reflexivity; apply Z.bits_inj'; intros n Hn;
    rewrite ?Z.land_spec, ?Z.lor_spec, ?Z.pow2_bits_eqb by lia;
    destruct (Z.testbit w n), (Z.eqb_spec 0 n), (Z.eqb_spec 1 n);
    try reflexivity; lia.
Qed.

Lemma list_eqb_eq {A : Type} (eqb : A -> A -> bool) (l k : list A) :
  (forall x y, eqb x y = true -> x = y) ->
  Header.list_eqb eqb l k = true -> l = k.
Proof.
  intros Heq. revert k. induction l as [|x l IH]; intros [|y k]; simpl;
    try discriminate; [reflexivity|].
  intros H. apply andb_prop in H as [Hx Hl].
  f_equal; [now apply Heq|now apply IH].
Qed.

Lemma string_length_append (p q : string) :
  String.length (p ++ q) = (String.length p + String.length q)%nat.
Proof. induction p as [|c p IH]; simpl; [reflexivity|now rewrite IH]. Qed.

Lemma stem_app (sfx p : string) : Header.stem sfx (p ++ sfx) = Some p.
Proof.
  induction p as [|c p IH].
  - destruct sfx; cbn [String.append Header.stem];
      now rewrite String.eqb_refl.
  - cbn [String.append Header.stem]. rewrite IH.
    destruct (String.eqb_spec (String c (p ++ sfx)) sfx) as [E|_];
      [|reflexivity].
    apply (f_equal String.length) in E. simpl in E.
    rewrite string_length_append in E. lia.
Qed.

Lemma existsb_string_In (x : string) (l : list string) :
  existsb (String.eqb x) l = true <-> In x l.
Proof.
  rewrite existsb_exists. split.
  - intros (y & Hy & E). apply String.eqb_eq in E. now subst.
  - intros H. exists x. split; [assumption|apply String.eqb_refl].
Qed.

Lemma first_param_is_head (p : Header.c_type * string) (d : Header.c_decl) :
  Header.first_param_is p d = true <-> head (Header.decl_params d) = Some p.
Proof.
  unfold Header.first_param_is.
  destruct (head (Header.decl_params d)) as [q|]; split; try discriminate.
  - intros H. apply param_eqb_eq in H. now subst.
  - intros [= ->]. destruct p as [t x]. unfold Header.param_eqb; simpl.
    rewrite String.eqb_refl, andb_true_r.
    destruct t as [c b n]. unfold Header.c_type_eqb; simpl.
    rewrite Nat.eqb_refl, andb_true_r, Bool.eqb_reflx. simpl.
    destruct b; simpl; try reflexivity; apply String.eqb_refl.
Qed.

(** X7.  Every operation takes the session [tng_trajectory_t tng_data] as
    its first parameter, except eight: the two that create and destroy the
    session, the two that read a frame set's neighbours, the two that set
    up and clean a molecule, and the two that free arrays of values.  No
    operation takes the session in any other position. *)
Theorem session_is_the_first_parameter (d : Header.c_decl) :
  In d Header.tng_api ->
  (head (Header.decl_params d) = Some (Header.tng_trajectory_t, "tng_data")
   <-> ~ In (Header.decl_name d)
          ["tng_trajectory_init"; "tng_trajectory_destroy";
           "tng_frame_set_next_frame_set_file_pos_get";
           "tng_frame_set_prev_frame_set_file_pos_get";
           "tng_molecule_init"; "tng_molecule_destroy";
           "tng_data_values_free"; "tng_particle_data_values_free"])
  /\ (forall t, In (t, "tng_data") (Header.decl_params d) ->
                head (Header.decl_params d) = Some (t, "tng_data")).
Proof.
  intros Hd. split.
  - assert (H : forallb
                  (fun d =>
                     Bool.eqb (Header.takes_session_first d)
                       (negb (existsb (String.eqb (Header.decl_name d))
                                ["tng_trajectory_init";
                                 "tng_trajectory_destroy";
                                 "tng_frame_set_next_frame_set_file_pos_get";
                                 "tng_frame_set_prev_frame_set_file_pos_get";
                                 "tng_molecule_init"; "tng_molecule_destroy";
                                 "tng_data_values_free";
                                 "tng_particle_data_values_free"])))
                  Header.tng_api = true) by (vm_compute; reflexivity).
    rewrite forallb_forall in H. specialize (H d Hd).
    apply Bool.eqb_prop in H.
    rewrite <- first_param_is_head. fold (Header.takes_session_first d).
    rewrite H, negb_true_iff, <- not_true_iff_false, existsb_string_In.
    reflexivity.
  - intros t Ht.
    assert (H : forallb
                  (fun d =>
                     forallb
                       (fun q =>
                          negb (String.eqb (snd q) "tng_data")
                          || Header.first_param_is q d)
                       (Header.decl_params d))
                  Header.tng_api = true) by (vm_compute; reflexivity).
    rewrite forallb_forall in H. specialize (H d Hd).
    rewrite forallb_forall in H. specialize (H _ Ht). simpl in H.
    now apply first_param_is_head in H.
Qed.

Lemma session_is_the_first_parameter_witness :
  exists d, Header.find_decl "tng_molecule_cnt_set" Header.tng_api = Some d
            /\ head (Header.decl_params d)
               = Some (Header.tng_trajectory_t, "tng_data").
Proof.
  eexists. split; [reflexivity|].
  refine (proj2 (proj1 (session_is_the_first_parameter _ _)) _).
  - exact (proj1 (find_decl_In "tng_molecule_cnt_set" Header.tng_api _ eq_refl)).
  - simpl. intros H.
    repeat (destruct H as [H|H]; [discriminate H|]). destruct H.
Defined.

Lemma forallb_pairs (P : Header.c_decl -> Header.c_decl -> bool) :
  forallb (fun a => forallb (P a) Header.tng_api) Header.tng_api = true ->
  forall a b, In a Header.tng_api -> In b Header.tng_api -> P a b = true.
Proof.
  intros H a b Ha Hb. rewrite forallb_forall in H. specialize (H a Ha).
  rewrite forallb_forall in H. exact (H b Hb).
Qed.

Lemma params_eqb_eq (ps qs : list (Header.c_type * string)) :
  Header.list_eqb Header.param_eqb ps qs = true -> ps = qs.
Proof. apply list_eqb_eq. exact param_eqb_eq. Qed.

(** X8.  Where a value has both a setter [p_set] and a getter [p_get],
    the two take the same parameters up to the last: the setter takes the
    value, the getter a pointer to a value of the same type, under the
    same name. *)
Theorem getter_takes_pointer_to_setter_value
    (s g : Header.c_decl) (p : string) :
  In s Header.tng_api -> In g Header.tng_api ->
  Header.decl_name s = p ++ "_set" ->
  Header.decl_name g = p ++ "_get" ->
  exists common t x,
    Header.decl_params s = (common ++ [(t, x)])%list
    /\ Header.decl_params g = (common ++ [(Header.ptr t, x)])%list.
Proof.
  intros Hs Hg Es Eg.
  assert (H : forallb
                (fun s =>
                   forallb
                     (fun g =>
                        implb (Header.setter_getter s g)
                          match last (Header.decl_params s) with
                          | Some (t, x) =>
                              Header.list_eqb Header.param_eqb
                                (Header.decl_params g)
                                (removelast (Header.decl_params s)
                                 ++ [(Header.ptr t, x)])%list
                          | None => false
                          end) Header.tng_api)
                Header.tng_api = true) by (vm_compute; reflexivity).
  pose proof (forallb_pairs _ H s g Hs Hg) as Hp. clear H.
  unfold Header.setter_getter in Hp.
  rewrite Es, Eg, !stem_app, String.eqb_refl in Hp. simpl in Hp.
  destruct (last (Header.decl_params s)) as [[t x]|] eqn:El; [|discriminate].
  apply params_eqb_eq in Hp. apply last_Some in El as [common El].
  exists common, t, x. split; [assumption|].
  rewrite Hp, El, removelast_last. reflexivity.
Qed.

Lemma getter_takes_pointer_witness :
  exists s g,
    Header.find_decl "tng_molecule_cnt_set" Header.tng_api = Some s
    /\ Header.find_decl "tng_molecule_cnt_get" Header.tng_api = Some g
    /\ exists common t x,
         Header.decl_params s = (common ++ [(t, x)])%list
         /\ Header.decl_params g = (common ++ [(Header.ptr t, x)])%list.
Proof.
  eexists _, _. split; [reflexivity|]. split; [reflexivity|].
  apply (getter_takes_pointer_to_setter_value _ _ "tng_molecule_cnt").
  - exact (proj1 (find_decl_In "tng_molecule_cnt_set" Header.tng_api _ eq_refl)).
  - exact (proj1 (find_decl_In "tng_molecule_cnt_get" Header.tng_api _ eq_refl)).
  - reflexivity.
  - reflexivity.
Defined.

(** X9.  What a getter of values hands out is what the operation that
    frees them takes: [p_get] takes the session and the block ID and then
    a pointer to each parameter of [p_values_free], in the same order and
    under the same names (the array, its dimensions, the datatype). *)
Theorem values_free_takes_what_get_returns
    (g f : Header.c_decl) (p : string) :
  In g Header.tng_api -> In f Header.tng_api ->
  Header.decl_name g = p ++ "_get" ->
  Header.decl_name f = p ++ "_values_free" ->
  Header.decl_params g
  = (Header.tng_trajectory_t, "tng_data")
    :: (Header.int64_t, "block_id")
    :: map (fun q => (Header.ptr (fst q), snd q)) (Header.decl_params f).
Proof.
  intros Hg Hf Eg Ef.
  assert (H : forallb
                (fun g =>
                   forallb
                     (fun f =>
                        implb (Header.getter_free g f)
                          (Header.list_eqb Header.param_eqb
                             (Header.decl_params g)
                             ((Header.tng_trajectory_t, "tng_data")
                              :: (Header.int64_t, "block_id")
                              :: map (fun q => (Header.ptr (fst q), snd q))
                                   (Header.decl_params f))))
                     Header.tng_api)
                Header.tng_api = true) by (vm_compute; reflexivity).
  pose proof (forallb_pairs _ H g f Hg Hf) as Hp. clear H.
  unfold Header.getter_free in Hp.
  rewrite Eg, Ef, !stem_app, String.eqb_refl in Hp. simpl in Hp.
  now apply params_eqb_eq in Hp.
Qed.

Lemma values_free_witness :
  exists g f,
    Header.find_decl "tng_particle_data_get" Header.tng_api = Some g
    /\ Header.find_decl "tng_particle_data_values_free" Header.tng_api = Some f
    /\ Header.decl_params g
       = (Header.tng_trajectory_t, "tng_data")
         :: (Header.int64_t, "block_id")
         :: map (fun q => (Header.ptr (fst q), snd q)) (Header.decl_params f).
Proof.
  eexists _, _. split; [reflexivity|]. split; [reflexivity|].
  apply (values_free_takes_what_get_returns _ _ "tng_particle_data").
  - exact (proj1 (find_decl_In "tng_particle_data_get" Header.tng_api _
                    eq_refl)).
  - exact (proj1 (find_decl_In "tng_particle_data_values_free" Header.tng_api
                    _ eq_refl)).
  - reflexivity.
  - reflexivity.
Defined.

(** X10.  A particle operation [tng_particle_r] is its counterpart [tng_r]
    with the particles added: leaving out the parameters that select
    particles (each an [int64_t], or a pointer to one where the operation
    sets it) and taking one dimension off the array [values] gives the
    parameters of [tng_r], in the same order with the same types. *)
Theorem particle_variant_extends_the_plain_one
    (d dp : Header.c_decl) (r : string) :
  In d Header.tng_api -> In dp Header.tng_api ->
  Header.decl_name d = "tng_" ++ r ->
  Header.decl_name dp = "tng_particle_" ++ r ->
  Header.without_particles (Header.decl_params dp) = Header.decl_params d
  /\ (forall q, In q (Header.decl_params dp) ->
                Header.is_particle_param q = true ->
                Header.c_base_of (fst q) = Header.c_int64_t
                /\ (Header.c_stars (fst q) <= 1)%nat).
Proof.
  intros Hd Hdp Ed Edp.
  assert (H : forallb
                (fun d =>
                   forallb
                     (fun dp =>
                        implb (Header.particle_variant d dp)
                          (Header.list_eqb Header.param_eqb
                             (Header.without_particles (Header.decl_params dp))
                             (Header.decl_params d)
                           && forallb
                                (fun q =>
                                   implb (Header.is_particle_param q)
                                     (Header.c_base_eqb
                                        (Header.c_base_of (fst q))
                                        Header.c_int64_t
                                      && Nat.leb (Header.c_stars (fst q)) 1))
                                (Header.decl_params dp)))
                     Header.tng_api)
                Header.tng_api = true) by (vm_compute; reflexivity).
  pose proof (forallb_pairs _ H d dp Hd Hdp) as Hp. clear H.
  unfold Header.particle_variant in Hp. rewrite Ed, Edp in Hp.
  cbn [String.append Header.particle_name] in Hp.
  rewrite String.eqb_refl in Hp. cbn [implb] in Hp.
  apply andb_prop in Hp as [Hp Hq]. split.
  - now apply params_eqb_eq in Hp.
  - intros q Hin Hpart. rewrite forallb_forall in Hq.
    specialize (Hq q Hin). rewrite Hpart in Hq. cbn [implb] in Hq.
    apply andb_prop in Hq as [Hb Hn].
    apply c_base_eqb_eq in Hb. apply Nat.leb_le in Hn. auto.
Qed.

Lemma particle_variant_witness :
  exists d dp,
    Header.find_decl "tng_data_block_add" Header.tng_api = Some d
    /\ Header.find_decl "tng_particle_data_block_add" Header.tng_api = Some dp
    /\ Header.without_particles (Header.decl_params dp) = Header.decl_params d.
Proof.
  eexists _, _. split; [reflexivity|]. split; [reflexivity|].
  apply (particle_variant_extends_the_plain_one _ _ "data_block_add").
  - exact (proj1 (find_decl_In "tng_data_block_add" Header.tng_api _ eq_refl)).
  - exact (proj1 (find_decl_In "tng_particle_data_block_add" Header.tng_api _
                    eq_refl)).
  - reflexivity.
  - reflexivity.
Defined.

(** X11.  An operation never writes through a string it is given: every
    [char *] parameter of the interface is a [const char *], except the
    buffer [time] that tng_time_get_str fills. *)
Theorem string_arguments_are_read_only
    (d : Header.c_decl) (t : Header.c_type) (x : string) :
  In d Header.tng_api -> In (t, x) (Header.decl_params d) ->
  Header.c_base_of t = Header.c_char -> Header.c_stars t = 1%nat ->
  Header.c_const t = true
  \/ (Header.decl_name d = "tng_time_get_str" /\ x = "time").
Proof.
  intros Hd Hq Hb Hn.
  assert (H : forallb
                (fun d =>
                   forallb
                     (fun q =>
                        implb (Header.writable_string (fst q))
                          (String.eqb (Header.decl_name d) "tng_time_get_str"
                           && String.eqb (snd q) "time"))
                     (Header.decl_params d))
                Header.tng_api = true) by (vm_compute; reflexivity).
  rewrite forallb_forall in H. specialize (H d Hd).
  rewrite forallb_forall in H. specialize (H _ Hq).
  unfold Header.writable_string in H. cbn [fst snd] in H.
  rewrite Hb, Hn in H. cbn [Header.c_base_eqb Nat.eqb andb] in H.
  destruct (Header.c_const t); [now left|right].
  cbn [negb implb] in H. apply andb_prop in H as [Hd' Hx].
  apply String.eqb_eq in Hd', Hx. auto.
Qed.

Lemma string_arguments_witness :
  exists d,
    Header.find_decl "tng_residue_atom_add" Header.tng_api = Some d
    /\ In (Header.ptr (Header.const Header.char), "atom_type")
          (Header.decl_params d)
    /\ (Header.c_const (Header.ptr (Header.const Header.char)) = true
        \/ (Header.decl_name d = "tng_time_get_str" /\ "atom_type" = "time")).
Proof.
  eexists. split; [reflexivity|].
  assert (Hin : In (Header.ptr (Header.const Header.char), "atom_type")
                   [(Header.tng_trajectory_t, "tng_data");
                    (Header.tng_residue_t, "residue");
                    (Header.ptr (Header.const Header.char), "atom_name");
                    (Header.ptr (Header.const Header.char), "atom_type");
                    (Header.ptr Header.tng_atom_t, "atom")])
    by (do 3 right; left; reflexivity).
  split; [exact Hin|].
  eapply string_arguments_are_read_only.
  - exact (proj1 (find_decl_In "tng_residue_atom_add" Header.tng_api _
                    eq_refl)).
  - exact Hin.
  - reflexivity.
  - reflexivity.
Defined.

(** X12.  Every prototype is documented, in the order of the header: the
    block in front of it names each of its parameters, in order, and under
    [@return] the three outcomes with the numbers 0, 1 and 2, which are the
    values the enumeration [tng_function_status] gives them. *)
Theorem documentation_matches_prototypes :
  map Header.doc_name Header.tng_api_doc
  = map Header.decl_name Header.tng_api
  /\ (forall d c,
        In (d, c) (combine Header.tng_api Header.tng_api_doc) ->
        Header.doc_name c = Header.decl_name d
        /\ Header.doc_params c = map snd (Header.decl_params d)
        /\ Header.doc_return c
           = Header.enum_constants Header.tng_function_status).
Proof.
  split; [vm_compute; reflexivity|]. intros d c Hin.
  assert (H : forallb
                (fun p =>
                   String.eqb (Header.doc_name (snd p))
                     (Header.decl_name (fst p))
                   && Header.list_eqb String.eqb (Header.doc_params (snd p))
                        (map snd (Header.decl_params (fst p)))
                   && Header.list_eqb
                        (fun a b =>
                           String.eqb (fst a) (fst b) && Z.eqb (snd a) (snd b))
                        (Header.doc_return (snd p))
                        (Header.enum_constants Header.tng_function_status))
                (combine Header.tng_api Header.tng_api_doc) = true)
    by (vm_compute; reflexivity).
  rewrite forallb_forall in H. specialize (H _ Hin). cbn [fst snd] in H.
  apply andb_prop in H as [H Hr]. apply andb_prop in H as [Hn Hp].
  apply String.eqb_eq in Hn.
  apply list_eqb_eq in Hp; [|intros a b; apply String.eqb_eq].
  apply list_eqb_eq in Hr; [auto|].
  intros [a v] [b w] E. cbn [fst snd] in E. apply andb_prop in E as [Ea Ev].
  apply String.eqb_eq in Ea. apply Z.eqb_eq in Ev. now subst.
Qed.

Lemma documentation_witness :
  exists d c,
    nth_error (combine Header.tng_api Header.tng_api_doc) 43 = Some (d, c)
    /\ Header.doc_name c = "tng_frame_set_read_next"
    /\ Header.doc_params c = map snd (Header.decl_params d)
    /\ Header.doc_return c
       = [("TNG_SUCCESS", 0); ("TNG_FAILURE", 1); ("TNG_CRITICAL", 2)].
Proof.
  eexists _, _. split; [reflexivity|]. split; [reflexivity|].
  refine (proj2 (proj2 documentation_matches_prototypes _ _ _)).
  apply (nth_error_In _ 43). reflexivity.
Defined.

Lemma c_type_eqb_refl (t : Header.c_type) : Header.c_type_eqb t t = true.
Proof.
  destruct t as [c b n]. unfold Header.c_type_eqb; simpl.
  rewrite Nat.eqb_refl, andb_true_r, Bool.eqb_reflx. simpl.
  destruct b; simpl; try reflexivity; apply String.eqb_refl.
Qed.

Lemma existsb_c_type_In (t : Header.c_type) (l : list Header.c_type) :
  existsb (Header.c_type_eqb t) l = true <-> In t l.
Proof.
  rewrite existsb_exists. split.
  - intros (u & Hu & E). apply c_type_eqb_eq in E. now subst.
  - intros H. exists t. split; [assumption|apply c_type_eqb_refl].
Qed.

Lemma c_base_eqb_refl (b : Header.c_base) : Header.c_base_eqb b b = true.
Proof. destruct b; simpl; try reflexivity; apply String.eqb_refl. Qed.

(** X13.  Where the twelve handle types occur in the prototypes.  Some
    prototype has a pointer to the handle as its last parameter exactly
    for five of them (the session, a molecule, a chain, a residue, an
    atom); some prototype has a parameter of the handle type itself
    exactly for seven (those five, the block and the frame set); and the
    other five (bond, table of contents, particle mapping, particle data,
    non-particle data) occur in no parameter of any prototype, at any
    depth of pointers. *)
Theorem handle_types_in_the_prototypes (h : Header.c_type) :
  In h Header.handles ->
  ((exists d x, In d Header.tng_api
                /\ last (Header.decl_params d) = Some (Header.ptr h, x))
   <-> In h [Header.tng_trajectory_t; Header.tng_molecule_t;
             Header.tng_chain_t; Header.tng_residue_t; Header.tng_atom_t])
  /\ ((exists d x, In d Header.tng_api /\ In (h, x) (Header.decl_params d))
      <-> In h [Header.tng_trajectory_t; Header.tng_molecule_t;
                Header.tng_chain_t; Header.tng_residue_t; Header.tng_atom_t;
                Header.tng_gen_block_t; Header.tng_trajectory_frame_set_t])
  /\ ((forall d t x, In d Header.tng_api -> In (t, x) (Header.decl_params d) ->
                     Header.c_base_of t <> Header.c_base_of h)
      <-> In h [Header.tng_bond_t; Header.tng_frame_set_toc_t;
                Header.tng_particle_mapping_t; Header.tng_particle_data_t;
                Header.tng_non_particle_data_t]).
Proof.
  intros Hh.
  assert (H : forallb
                (fun h =>
                   Bool.eqb (existsb (Header.hands_out h) Header.tng_api)
                     (existsb (Header.c_type_eqb h)
                        [Header.tng_trajectory_t; Header.tng_molecule_t;
                         Header.tng_chain_t; Header.tng_residue_t;
                         Header.tng_atom_t])
                   && Bool.eqb (existsb (Header.takes h) Header.tng_api)
                        (existsb (Header.c_type_eqb h)
                           [Header.tng_trajectory_t; Header.tng_molecule_t;
                            Header.tng_chain_t; Header.tng_residue_t;
                            Header.tng_atom_t; Header.tng_gen_block_t;
                            Header.tng_trajectory_frame_set_t])
                   && Bool.eqb
                        (forallb
                           (fun d =>
                              forallb
                                (fun q =>
                                   negb (Header.c_base_eqb
                                           (Header.c_base_of (fst q))
                                           (Header.c_base_of h)))
                                (Header.decl_params d)) Header.tng_api)
                        (existsb (Header.c_type_eqb h)
                           [Header.tng_bond_t; Header.tng_frame_set_toc_t;
                            Header.tng_particle_mapping_t;
                            Header.tng_particle_data_t;
                            Header.tng_non_particle_data_t]))
                Header.handles = true) by (vm_compute; reflexivity).
  rewrite forallb_forall in H. specialize (H h Hh).
  apply andb_prop in H as [H Hn]. apply andb_prop in H as [Ho Ht].
  apply Bool.eqb_prop in Ho, Ht, Hn.
  rewrite <- !existsb_c_type_In, <- Ho, <- Ht, <- Hn. clear Ho Ht Hn.
  split; [|split].
  - rewrite existsb_exists. split.
    + intros (d & x & Hd & Hl). exists d. split; [assumption|].
      unfold Header.hands_out. rewrite Hl. apply c_type_eqb_refl.
    + intros (d & Hd & Ho). unfold Header.hands_out in Ho.
      destruct (last (Header.decl_params d)) as [[t x]|] eqn:El;
        [|discriminate].
      apply c_type_eqb_eq in Ho. subst. eauto.
  - rewrite existsb_exists. split.
    + intros (d & x & Hd & Hin). exists d. split; [assumption|].
      unfold Header.takes. apply existsb_exists. exists (h, x).
      split; [assumption|apply c_type_eqb_refl].
    + intros (d & Hd & Ht). unfold Header.takes in Ht.
      apply existsb_exists in Ht as ([t x] & Hin & E).
      apply c_type_eqb_eq in E. cbn [fst] in E. subst. eauto.
  - split.
    + intros Hno. apply forallb_forall. intros d Hd.
      apply forallb_forall. intros [t x] Hin. cbn [fst].
      apply negb_true_iff.
      destruct (Header.c_base_eqb (Header.c_base_of t) (Header.c_base_of h))
        eqn:E; [|reflexivity].
      apply c_base_eqb_eq in E. now destruct (Hno d t x Hd Hin).
    + intros Hno d t x Hd Hin E. rewrite forallb_forall in Hno.
      specialize (Hno d Hd). rewrite forallb_forall in Hno.
      specialize (Hno _ Hin). cbn [fst] in Hno.
      rewrite E, c_base_eqb_refl in Hno. discriminate.
Qed.

Lemma handle_types_witness :
  (exists d x, In d Header.tng_api
               /\ In (Header.tng_gen_block_t, x) (Header.decl_params d))
  /\ ~ (exists d x, In d Header.tng_api
                    /\ last (Header.decl_params d)
                       = Some (Header.ptr Header.tng_gen_block_t, x)).
Proof.
  destruct (handle_types_in_the_prototypes Header.tng_gen_block_t)
    as (Ho & Ht & _).
  - do 6 right. left. reflexivity.
  - split.
    + apply Ht. do 5 right. left. reflexivity.
    + intros H. apply Ho in H. simpl in H.
      repeat (destruct H as [H|H]; [discriminate H|]). destruct H.
Defined.

Lemma find_decl_NoDup (api : list Header.c_decl) (d : Header.c_decl) :
  NoDup (map Header.decl_name api) -> In d api ->
  Header.find_decl (Header.decl_name d) api = Some d.
Proof.
  induction api as [|e api IH]; simpl; [intros _ []|].
  intros Hn Hd. apply NoDup_cons in Hn as [He Hn].
  destruct (String.eqb_spec (Header.decl_name d) (Header.decl_name e)) as [E|E].
  - destruct Hd as [->|Hd]; [reflexivity|]. exfalso. apply He.
    rewrite <- E. apply list_elem_of_In, in_map. assumption.
  - destruct Hd as [->|Hd]; [congruence|]. now apply IH.
Qed.

Lemma param_type_In (ps : list (Header.c_type * string))
    (t : Header.c_type) (x : string) :
  NoDup (map snd ps) ->
  Header.param_type x ps = Some t <-> In (t, x) ps.
Proof.
  induction ps as [|[u y] ps IH]; simpl; [intros _; split; [discriminate|tauto]|].
  intros Hn. apply NoDup_cons in Hn as [Hy Hn].
  destruct (String.eqb_spec x y) as [->|E].
  - split.
    + intros [= ->]. now left.
    + intros [[= -> ]|Hin]; [reflexivity|]. exfalso. apply Hy.
      apply list_elem_of_In. change y with (snd (t, y)). now apply in_map.
  - rewrite (IH Hn). split; [tauto|].
    intros [[= _ ->]|Hin]; [congruence|assumption].
Qed.

(** X14.  A prototype is found by its name, and a parameter by its name
    within the prototype: no operation is declared twice, every operation
    carries the prefix [tng_], and no prototype uses a parameter name
    twice. *)
Theorem operations_are_found_by_name (d : Header.c_decl) :
  In d Header.tng_api ->
  Header.find_decl (Header.decl_name d) Header.tng_api = Some d
  /\ String.prefix "tng_" (Header.decl_name d) = true
  /\ (forall t x, Header.param_type x (Header.decl_params d) = Some t
                  <-> In (t, x) (Header.decl_params d)).
Proof.
  intros Hd. split; [|split].
  - apply find_decl_NoDup; [|assumption].
    apply (distinctb_NoDup String.eqb);
      [intros x y; apply String.eqb_eq|apply String.eqb_refl|].
    vm_compute; reflexivity.
  - assert (H : forallb (fun d => String.prefix "tng_" (Header.decl_name d))
                  Header.tng_api = true) by (vm_compute; reflexivity).
    rewrite forallb_forall in H. exact (H d Hd).
  - intros t x. apply param_type_In.
    assert (H : forallb
                  (fun d => Header.distinctb String.eqb
                              (map snd (Header.decl_params d)))
                  Header.tng_api = true) by (vm_compute; reflexivity).
    rewrite forallb_forall in H.
    apply (distinctb_NoDup String.eqb);
      [intros a b; apply String.eqb_eq|apply String.eqb_refl|exact (H d Hd)].
Qed.

Lemma operations_are_found_witness :
  exists d, nth_error Header.tng_api 30 = Some d
            /\ Header.find_decl (Header.decl_name d) Header.tng_api = Some d.
Proof.
  eexists. split; [reflexivity|].
  refine (proj1 (operations_are_found_by_name _ _)).
  apply (nth_error_In _ 30). reflexivity.
Defined.

(** X15.  The topology is built from the top down.  The operations that
    add a part and hand it out are tng_molecule_add,
    tng_molecule_chain_add, tng_chain_residue_add and tng_residue_atom_add;
    each takes the session first, and each but the first takes next the
    handle of the part it adds to, which is the very handle that another
    of the four hands out. *)
Theorem parts_are_added_under_their_parent :
  map Header.decl_name (List.filter Header.adds_part Header.tng_api)
  = ["tng_molecule_add"; "tng_molecule_chain_add"; "tng_chain_residue_add";
     "tng_residue_atom_add"]
  /\ (forall d,
        In d Header.tng_api -> Header.adds_part d = true ->
        head (Header.decl_params d) = Some (Header.tng_trajectory_t, "tng_data")
        /\ (Header.decl_name d = "tng_molecule_add"
            \/ exists h x d',
                 nth_error (Header.decl_params d) 1 = Some (h, x)
                 /\ In h Header.handles
                 /\ In d' Header.tng_api
                 /\ Header.adds_part d' = true
                 /\ last (Header.decl_params d') = Some (Header.ptr h, x))).
Proof.
  split; [vm_compute; reflexivity|]. intros d Hd Ha.
  assert (H : forallb
                (fun d =>
                   implb (Header.adds_part d)
                     (Header.takes_session_first d
                      && (String.eqb (Header.decl_name d) "tng_molecule_add"
                          || match nth_error (Header.decl_params d) 1 with
                             | Some (h, x) =>
                                 Header.is_handle h
                                 && existsb
                                      (fun d' =>
                                         Header.adds_part d'
                                         && Header.last_param_is
                                              (Header.ptr h, x) d')
                                      Header.tng_api
                             | None => false
                             end)))
                Header.tng_api = true) by (vm_compute; reflexivity).
  rewrite forallb_forall in H. specialize (H d Hd).
  rewrite Ha in H. cbn [implb] in H. apply andb_prop in H as [Hs Hp].
  split; [now apply first_param_is_head|].
  apply orb_prop in Hp as [Hm|Hp]; [left; now apply String.eqb_eq|right].
  destruct (nth_error (Header.decl_params d) 1) as [[h x]|]; [|discriminate].
  apply andb_prop in Hp as [Hh Hp].
  apply existsb_exists in Hp as (d' & Hd' & Hp).
  apply andb_prop in Hp as [Ha' Hl].
  exists h, x, d'. split; [reflexivity|].
  split; [now apply existsb_c_type_In|].
  split; [assumption|]. split; [assumption|].
  unfold Header.last_param_is in Hl.
  destruct (last (Header.decl_params d')) as [q|]; [|discriminate].
  apply param_eqb_eq in Hl. now subst.
Qed.

Lemma parts_are_added_witness :
  exists d,
    Header.find_decl "tng_chain_residue_add" Header.tng_api = Some d
    /\ head (Header.decl_params d) = Some (Header.tng_trajectory_t, "tng_data").
Proof.
  eexists. split; [reflexivity|].
  refine (proj1 (proj2 parts_are_added_under_their_parent _ _ _)).
  - exact (proj1 (find_decl_In "tng_chain_residue_add" Header.tng_api _
                    eq_refl)).
  - reflexivity.
Defined.

(** X16.  The enumerators of the header share one name space without a
    clash: no name is used by two enumerators, also across enumerations.
    Every enumerator carries the prefix [TNG_], except FALSE and TRUE of
    [tng_bool]. *)
Theorem enumerators_share_one_name_space :
  NoDup (concat (map (fun e => map fst (Header.enum_constants e))
                   Header.enums))
  /\ (forall e x,
        In e Header.enums -> In x (map fst (Header.enum_constants e)) ->
        String.prefix "TNG_" x = true
        \/ (Header.enum_tag e = "tng_bool" /\ (x = "FALSE" \/ x = "TRUE"))).
Proof.
  split.
  - apply (distinctb_NoDup String.eqb);
      [intros x y; apply String.eqb_eq|apply String.eqb_refl|].
    vm_compute; reflexivity.
  - intros e x He Hx.
    assert (H : forallb
                  (fun e =>
                     forallb
                       (fun x =>
                          String.prefix "TNG_" x
                          || (String.eqb (Header.enum_tag e) "tng_bool"
                              && (String.eqb x "FALSE" || String.eqb x "TRUE")))
                       (map fst (Header.enum_constants e)))
                  Header.enums = true) by (vm_compute; reflexivity).
    rewrite forallb_forall in H. specialize (H e He).
    rewrite forallb_forall in H. specialize (H x Hx).
    apply orb_prop in H as [H|H]; [now left|right].
    apply andb_prop in H as [Ht Hb]. apply String.eqb_eq in Ht.
    split; [assumption|].
    apply orb_prop in Hb as [Hb|Hb]; apply String.eqb_eq in Hb; auto.
Qed.

Lemma enumerators_name_space_witness :
  String.prefix "TNG_" "TNG_TRAJ_FORCES" = true
  \/ (Header.enum_tag Header.tng_trajectory_block_ids = "tng_bool"
      /\ ("TNG_TRAJ_FORCES" = "FALSE" \/ "TNG_TRAJ_FORCES" = "TRUE")).
Proof.
  apply (proj2 enumerators_share_one_name_space).
  - do 5 right. left. reflexivity.
  - do 3 right. left. reflexivity.
Defined.

(** X17.  Getters write and setters do not: the last parameter of an
    operation named [..._get] is a pointer the operation can write
    through, and every parameter of an operation named [..._set] is a
    handle, a value, or a pointer to [const]. *)
Theorem getters_write_and_setters_do_not (d : Header.c_decl) (p : string) :
  In d Header.tng_api ->
  (Header.decl_name d = p ++ "_get" ->
   exists t x, last (Header.decl_params d) = Some (t, x)
               /\ Header.c_const t = false /\ (1 <= Header.c_stars t)%nat)
  /\ (Header.decl_name d = p ++ "_set" ->
      forall t x, In (t, x) (Header.decl_params d) ->
                  In t Header.handles \/ Header.c_stars t = 0%nat
                  \/ Header.c_const t = true).
Proof.
  intros Hd. split.
  - intros E.
    assert (H : forallb
                  (fun d =>
                     match Header.stem "_get" (Header.decl_name d) with
                     | None => true
                     | Some _ =>
                         match last (Header.decl_params d) with
                         | Some (t, _) =>
                             negb (Header.c_const t)
                             && Nat.leb 1 (Header.c_stars t)
                         | None => false
                         end
                     end) Header.tng_api = true) by (vm_compute; reflexivity).
    rewrite forallb_forall in H. specialize (H d Hd).
    rewrite E, stem_app in H.
    destruct (last (Header.decl_params d)) as [[t x]|]; [|discriminate].
    apply andb_prop in H as [Hc Hn]. apply negb_true_iff in Hc.
    apply Nat.leb_le in Hn. exists t, x. auto.
  - intros E t x Hin.
    assert (H : forallb
                  (fun d =>
                     match Header.stem "_set" (Header.decl_name d) with
                     | None => true
                     | Some _ =>
                         forallb
                           (fun q =>
                              Header.is_handle (fst q)
                              || Nat.eqb (Header.c_stars (fst q)) 0
                              || Header.c_const (fst q))
                           (Header.decl_params d)
                     end) Header.tng_api = true) by (vm_compute; reflexivity).
    rewrite forallb_forall in H. specialize (H d Hd).
    rewrite E, stem_app in H. rewrite forallb_forall in H.
    specialize (H _ Hin). cbn [fst] in H.
    apply orb_prop in H as [H|H]; [|auto].
    apply orb_prop in H as [H|H].
    + left. now apply existsb_c_type_In.
    + right. left. now apply Nat.eqb_eq.
Qed.

Lemma getters_write_witness :
  exists d,
    Header.find_decl "tng_num_particles_get" Header.tng_api = Some d
    /\ exists t x, last (Header.decl_params d) = Some (t, x)
                   /\ Header.c_const t = false
                   /\ (1 <= Header.c_stars t)%nat.
Proof.
  eexists. split; [reflexivity|].
  refine (proj1 (getters_write_and_setters_do_not _ "tng_num_particles" _) _).
  - exact (proj1 (find_decl_In "tng_num_particles_get" Header.tng_api _
                    eq_refl)).
  - reflexivity.
Defined.

(** X18.  No prototype has a parameter of type [int], [float] or
    [double], nor a pointer to one: the only 64-bit arithmetic type among
    the parameters is [int64_t].  The data of a block is passed untyped,
    as [void *new_data] of the two operations that add a data block (no
    other parameter is a [void *]), and comes back as arrays of [union
    data_values], always under the name [values]. *)
Theorem numbers_cross_as_int64 (d : Header.c_decl) (t : Header.c_type)
    (x : string) :
  In d Header.tng_api -> In (t, x) (Header.decl_params d) ->
  Header.c_base_of t <> Header.c_int
  /\ Header.c_base_of t <> Header.c_float
  /\ Header.c_base_of t <> Header.c_double
  /\ (Header.c_width (Header.c_base_of t) = Some 64
      <-> Header.c_base_of t = Header.c_int64_t)
  /\ (Header.c_base_of t = Header.c_void ->
      t = Header.ptr Header.void /\ x = "new_data"
      /\ (Header.decl_name d = "tng_data_block_add"
          \/ Header.decl_name d = "tng_particle_data_block_add"))
  /\ (Header.c_base_of t = Header.c_union "data_values" ->
      x = "values" /\ (2 <= Header.c_stars t)%nat).
Proof.
  intros Hd Hin.
  assert (H : forallb
                (fun d =>
                   forallb
                     (fun q =>
                        match Header.c_base_of (fst q) with
                        | Header.c_int | Header.c_float | Header.c_double =>
                            false
                        | Header.c_void =>
                            Header.c_type_eqb (fst q) (Header.ptr Header.void)
                            && String.eqb (snd q) "new_data"
                            && (String.eqb (Header.decl_name d)
                                  "tng_data_block_add"
                                || String.eqb (Header.decl_name d)
                                     "tng_particle_data_block_add")
                        | Header.c_union u =>
                            negb (String.eqb u "data_values")
                            || String.eqb (snd q) "values"
                               && Nat.leb 2 (Header.c_stars (fst q))
                        | _ => true
                        end) (Header.decl_params d))
                Header.tng_api = true) by (vm_compute; reflexivity).
  rewrite forallb_forall in H. specialize (H d Hd).
  rewrite forallb_forall in H. specialize (H _ Hin). cbn [fst snd] in H.
  destruct (Header.c_base_of t) as [| | | | | |tag|tag|tag] eqn:Eb;
    try discriminate H;
    (split; [discriminate|]); (split; [discriminate|]);
    (split; [discriminate|]);
    (split; [split; [try discriminate|try discriminate]; reflexivity|]);
    (split; [try discriminate|try discriminate]).
  - intros _. apply andb_prop in H as [H Hn]. apply andb_prop in H as [Ht Hx].
    apply c_type_eqb_eq in Ht. apply String.eqb_eq in Hx.
    split; [assumption|]. split; [assumption|].
    apply orb_prop in Hn as [Hn|Hn]; apply String.eqb_eq in Hn; auto.
  - intros [= ->]. rewrite String.eqb_refl in H. cbn [negb orb] in H.
    apply andb_prop in H as [Hx Hn].
    apply String.eqb_eq in Hx. apply Nat.leb_le in Hn. auto.
Qed.

Lemma numbers_cross_witness :
  exists d,
    Header.find_decl "tng_frame_set_new" Header.tng_api = Some d
    /\ In (Header.const Header.int64_t, "n_frames") (Header.decl_params d)
    /\ Header.c_base_of (Header.const Header.int64_t) <> Header.c_int.
Proof.
  eexists. split; [reflexivity|].
  assert (Hin : In (Header.const Header.int64_t, "n_frames")
                   [(Header.tng_trajectory_t, "tng_data");
                    (Header.const Header.int64_t, "first_frame");
                    (Header.const Header.int64_t, "n_frames")])
    by (do 2 right; left; reflexivity).
  split; [exact Hin|].
  exact (proj1 (numbers_cross_as_int64 _ _ _
                  (proj1 (find_decl_In "tng_frame_set_new" Header.tng_api _
                            eq_refl)) Hin)).
Defined.

End InterfaceFacts.

(** ** The headers [dict.h] and [test30.h] *)

Section CompressionFacts.

(** X19.  The two dictionary routines of the compression code return
    nothing, so neither can report a failure, and they agree on the
    dictionary: both take it as [unsigned int *dict] with its length as
    [int *ndict], side by side in this order, so that the dictionary
    Ptngc_comp_make_dict_hist builds can be passed on to
    Ptngc_comp_canonical_dict as it is. *)
Theorem dictionary_routines_share_the_dictionary (d : Dict.c_decl) :
  In d Dict.api ->
  Dict.decl_ret d = Dict.void
  /\ Dict.param_type "dict" (Dict.decl_params d)
     = Some (Dict.ptr Dict.unsigned_int)
  /\ Dict.param_type "ndict" (Dict.decl_params d) = Some (Dict.ptr Dict.int)
  /\ exists pre post,
       Dict.decl_params d
       = (pre ++ Dict.decl_params Dict.Ptngc_comp_canonical_dict ++ post)%list.
Proof.
  intros [<-|[<-|[]]].
  - repeat split. exists [], []. reflexivity.
  - repeat split.
    exists [(Dict.ptr Dict.unsigned_int, "vals"); (Dict.int, "nvals")],
           [(Dict.ptr Dict.unsigned_int, "hist")].
    reflexivity.
Qed.

Lemma dictionary_routines_witness :
  Dict.param_type "ndict" (Dict.decl_params Dict.Ptngc_comp_make_dict_hist)
  = Some (Dict.ptr Dict.int).
Proof.
  refine (proj1 (proj2 (proj2
            (dictionary_routines_share_the_dictionary _ _)))).
  right. left. reflexivity.
Defined.

(** X20.  The integer coordinates of test 30 range over the same interval
    in the three dimensions (the cell is cubic), symmetric about 0, from
    -(2^29 - 1) to 2^29 - 1: the negative of a coordinate in range is in
    range, and a coordinate less the lower bound is a number of 30
    bits. *)
Theorem test30_coordinate_range (lo hi x : Z) :
  In (lo, hi) Test30.bounds -> lo <= x <= hi ->
  lo = - hi /\ hi = 2 ^ 29 - 1
  /\ lo <= - x <= hi
  /\ 0 <= x - lo < 2 ^ 30.
Proof.
  intros Hin Hx.
  assert (lo = -536870911 /\ hi = 536870911) as [-> ->].
  { simpl in Hin. destruct Hin as [[= <- <-]|[[= <- <-]|[[= <- <-]|[]]]];
      split; reflexivity. }
  lia.
Qed.

Lemma test30_coordinate_range_witness :
  0 <= 536870911 - Test30.INTMIN2 < 2 ^ 30.
Proof.
  refine (proj2 (proj2 (proj2
            (test30_coordinate_range Test30.INTMIN2 Test30.INTMAX2
               536870911 _ _)))).
  - right. left. reflexivity.
  - unfold Test30.INTMIN2, Test30.INTMAX2. lia.
Defined.

End CompressionFacts.

(** ** MD5 test vectors (RFC 1321, and a message of two blocks) *)

Example md5_empty :
  MD5.md5 [] = [0xd4; 0x1d; 0x8c; 0xd9; 0x8f; 0x00; 0xb2; 0x04;
                0xe9; 0x80; 0x09; 0x98; 0xec; 0xf8; 0x42; 0x7e].
Proof. vm_compute. reflexivity. Qed.

Example md5_abc :
  MD5.md5 (bytes_of_string "abc")
  = [144; 1; 80; 152; 60; 210; 79; 176; 214; 150; 63; 125; 40; 225; 127; 114].
Proof. vm_compute. reflexivity. Qed.

Example md5_two_blocks :
  MD5.md5 (replicate 70 97)
  = [0x0f; 0x5c; 0x6c; 0x4e; 0x74; 0x0b; 0xfc; 0xc0;
     0x8c; 0x3c; 0x26; 0xcc; 0xb2; 0x67; 0x3d; 0x46].
Proof. vm_compute. reflexivity. Qed.

Local Open Scope list_scope.

(** ** Outcomes *)

Section OutcomeFacts.

Import Tng.

Lemma worst_assoc (a b c : tng_function_status) :
  worst a (worst b c) = worst (worst a b) c.
Proof. destruct a, b, c; reflexivity. Qed.

Lemma worst_comm (a b : tng_function_status) : worst a b = worst b a.
Proof. destruct a, b; reflexivity. Qed.

Lemma worst_success_l (a : tng_function_status) : worst TNG_SUCCESS a = a.
Proof. destruct a; reflexivity. Qed.

Lemma worst_success_r (a : tng_function_status) : worst a TNG_SUCCESS = a.
Proof. destruct a; reflexivity. Qed.

Lemma worst_failure (a : tng_function_status) :
  a <> TNG_CRITICAL -> worst TNG_FAILURE a = TNG_FAILURE.
Proof. intros H; destruct a; try reflexivity; now destruct H. Qed.

Lemma worst_not_critical (a b : tng_function_status) :
  a <> TNG_CRITICAL -> b <> TNG_CRITICAL -> worst a b <> TNG_CRITICAL.
Proof. intros Ha Hb; destruct a, b; simpl; try discriminate; assumption. Qed.

Lemma status_of_result_of {A : Type} (st : tng_function_status) (a : A)
    (s : tng_trajectory) :
  status_of (result_of st a s) = st.
Proof. destruct st; reflexivity. Qed.

Lemma block_status_not_critical (m : tng_hash_mode) (b : tng_gen_block) :
  block_status m b <> TNG_CRITICAL.
Proof. unfold block_status. destruct (hash_verify m b); discriminate. Qed.

Lemma block_status_skip (b : tng_gen_block) :
  block_status TNG_SKIP_HASH b = TNG_SUCCESS.
Proof. reflexivity. Qed.

(** A digest mismatch: the stored digest is non-zero and differs from the
    digest of the content. *)
Lemma hash_verify_mismatch (b : tng_gen_block) :
  block_hash b <> zero_hash ->
  block_digest b <> block_hash b ->
  hash_verify TNG_USE_HASH b = false.
Proof.
  intros Hz Hd. unfold hash_verify.
  rewrite (bool_decide_eq_false_2 _ Hz), (bool_decide_eq_false_2 _ Hd).
  reflexivity.
Qed.

Lemma hash_verify_use (b : tng_gen_block) :
  hash_verify TNG_USE_HASH b = true
  <-> block_hash b = zero_hash \/ block_hash b = MD5.md5 (block_contents b).
Proof.
  unfold hash_verify, block_digest.
  rewrite orb_true_iff, !bool_decide_eq_true. intuition congruence.
Qed.

End OutcomeFacts.

(** ** Reading *)

(** Unfold the binds of a reader to the reads they sequence. *)
Ltac unfold_reader := unfold mbind, Tng.reader_bind, Tng.read_bind.

Section ReadFacts.

Import Tng.

Variable u64_decode : list Z -> Z.

Lemma read_bytes_Read (n : nat) (bs x rest : list Z) :
  read_bytes n bs = Read x rest ->
  bs = x ++ rest /\ length x = n.
Proof.
  unfold read_bytes. destruct (Nat.leb_spec n (length bs)); [|discriminate].
  intros [= <- <-]. split; [symmetry; apply take_drop|].
  rewrite length_take. lia.
Qed.

Lemma read_bytes_app (x rest : list Z) :
  read_bytes (length x) (x ++ rest) = Read x rest.
Proof.
  unfold read_bytes. rewrite length_app.
  destruct (Nat.leb_spec (length x) (length x + length rest)); [|lia].
  rewrite take_app_length, drop_app_length. reflexivity.
Qed.

Lemma read_u64_Read (bs rest : list Z) (v : Z) :
  read_u64 u64_decode bs = Read v rest ->
  exists x, bs = x ++ rest /\ length x = 8%nat /\ v = u64_decode x.
Proof.
  unfold read_u64; unfold_reader.
  destruct (read_bytes 8 bs) as [x r| |] eqn:E; try discriminate.
  unfold read_ret. intros [= <- <-].
  apply read_bytes_Read in E as [-> Hl]. eauto.
Qed.

Lemma read_string_Read (bs rest str : list Z) :
  read_string u64_decode bs = Read str rest ->
  exists x, bs = x ++ str ++ rest /\ length x = 8%nat
            /\ u64_decode x = Z.of_nat (length str)
            /\ Z.of_nat (length str) <= TNG_MAX_STR_LEN.
Proof.
  unfold read_string; unfold_reader.
  destruct (read_u64 u64_decode bs) as [len r| |] eqn:E; try discriminate.
  apply read_u64_Read in E as (x & -> & Hx & ->).
  destruct (Z.ltb_spec TNG_MAX_STR_LEN (u64_decode x)); [discriminate|].
  destruct (Z.ltb_spec (u64_decode x) 0); [discriminate|].
  intros E. apply read_bytes_Read in E as [-> Hl].
  exists x. rewrite Hl. split; [reflexivity|]. split; [assumption|].
  split; lia.
Qed.

(** A block that was read lies at the head of the bytes: a header of
    [header_size] bytes that declares the total length, then the content,
    byte for byte. *)
Lemma read_block_Read (bs rest : list Z) (b : tng_gen_block) :
  read_block u64_decode bs = Read b rest ->
  exists hdr,
    bs = hdr ++ block_contents b ++ rest
    /\ length hdr = header_size (length (block_name b))
    /\ u64_decode (take 8 bs) = Z.of_nat (block_length b)
    /\ length (block_hash b) = TNG_HASH_LEN
    /\ Z.of_nat (length (block_name b)) <= TNG_MAX_STR_LEN.
Proof.
  unfold read_block; unfold_reader.
  destruct (read_u64 u64_decode bs) as [total r1| |] eqn:E1; try discriminate.
  apply read_u64_Read in E1 as (x1 & -> & Hx1 & ->).
  destruct (read_u64 u64_decode r1) as [id r2| |] eqn:E2; try discriminate.
  apply read_u64_Read in E2 as (x2 & -> & Hx2 & ->).
  destruct (read_string u64_decode r2) as [name r3| |] eqn:E3; try discriminate.
  apply read_string_Read in E3 as (x3 & -> & Hx3 & Hn & Hmax).
  destruct (read_u64 u64_decode r3) as [ver r4| |] eqn:E4; try discriminate.
  apply read_u64_Read in E4 as (x4 & -> & Hx4 & ->).
  destruct r4 as [|flag r5]; simpl; [discriminate|].
  destruct (read_bytes TNG_HASH_LEN r5) as [hash r6| |] eqn:E5; try discriminate.
  apply read_bytes_Read in E5 as [-> Hh].
  destruct (tng_block_type_of_code flag) as [ty|]; [|discriminate].
  destruct (Z.ltb_spec (u64_decode x1) (Z.of_nat (header_size (length name))));
    [discriminate|].
  destruct (read_bytes _ r6) as [content r7| |] eqn:E6; try discriminate.
  apply read_bytes_Read in E6 as [-> Hc].
  unfold read_ret. intros [= <- <-].
  cbn [block_name block_contents block_hash].
  exists (x1 ++ x2 ++ x3 ++ name ++ x4 ++ flag :: hash).
  split; [rewrite <- !app_assoc; simpl; rewrite <- ?app_assoc; reflexivity|].
  split; [rewrite !length_app; simpl; rewrite ?length_app;
          rewrite Hx1, Hx2, Hx3, Hx4, Hh; unfold header_size; lia|].
  split; [|split; [assumption|assumption]].
  rewrite take_app_length' by (symmetry; assumption).
  unfold block_length; cbn [block_name block_contents]. lia.
Qed.

End ReadFacts.

(** ** Integrity: a digest mismatch is a minor failure *)

Section DigestMismatch.

Import Tng.

Variable u64_decode : list Z -> Z.

Lemma frame_block_Framed (bs : list Z) (b : tng_gen_block) :
  frame_block u64_decode bs = Framed b ->
  exists rest, read_block u64_decode bs = Read b rest.
Proof.
  unfold frame_block.
  destruct (read_block u64_decode bs) as [b' rest| |]; try discriminate.
  - intros [= <-]. eauto.
  - destruct (declared_length u64_decode bs); discriminate.
Qed.

(** The content of a framed block is the run of bytes after its header. *)
Lemma framed_contents (bs : list Z) (b : tng_gen_block) :
  frame_block u64_decode bs = Framed b ->
  block_contents b
  = take (length (block_contents b))
         (drop (header_size (length (block_name b))) bs).
Proof.
  intros Hf. apply frame_block_Framed in Hf as [rest Hr].
  apply read_block_Read in Hr as (hdr & -> & Hh & _).
  rewrite <- Hh, drop_app_length, take_app_length. reflexivity.
Qed.

Lemma worst_fold_shift {B : Type} (g : B -> tng_function_status)
    (a st : tng_function_status) (bs : list B) :
  fold_right (fun b acc => worst (g b) acc) (worst a st) bs
  = worst a (fold_right (fun b acc => worst (g b) acc) st bs).
Proof.
  induction bs as [|b bs IH]; simpl; [reflexivity|].
  rewrite IH, !worst_assoc, (worst_comm (g b) a). reflexivity.
Qed.

Lemma worst_fold_not_critical {B : Type} (g : B -> tng_function_status)
    (st : tng_function_status) (bs : list B) :
  st <> TNG_CRITICAL -> (forall b, g b <> TNG_CRITICAL) ->
  fold_right (fun b acc => worst (g b) acc) st bs <> TNG_CRITICAL.
Proof.
  intros Hst Hg. induction bs as [|b bs IH]; simpl; [assumption|].
  apply worst_not_critical; auto.
Qed.

Lemma worst_fold_failure {B : Type} (g : B -> tng_function_status)
    (st : tng_function_status) (bs : list B) (b : B) :
  st <> TNG_CRITICAL -> (forall b, g b <> TNG_CRITICAL) ->
  In b bs -> g b = TNG_FAILURE ->
  fold_right (fun b acc => worst (g b) acc) st bs = TNG_FAILURE.
Proof.
  intros Hst Hg Hin Hb. induction bs as [|c bs IH]; simpl; [destruct Hin|].
  destruct Hin as [->|Hin].
  - rewrite Hb. apply worst_failure. now apply worst_fold_not_critical.
  - rewrite (IH Hin), worst_comm. apply worst_failure. apply Hg.
Qed.

Lemma frame_set_blocks_read_status (fuel : nat) (s s' : tng_trajectory)
    (m : tng_hash_mode) (st : tng_function_status) (bs : list tng_gen_block) :
  frame_set_blocks_read u64_decode fuel s m = Some (st, bs, s') ->
  st <> TNG_CRITICAL.
Proof.
  revert s st bs s'. induction fuel as [|fuel IH]; intros s st bs s'; simpl;
    [discriminate|].
  destruct (remaining s) as [|x xs]; [intros [= <- _ _]; discriminate|].
  destruct (frame_block u64_decode (x :: xs)) as [b|total|]; [| |discriminate].
  - destruct (Z.eqb (block_id b) TNG_TRAJECTORY_FRAME_SET);
      [intros [= <- _ _]; discriminate|].
    destruct (frame_set_blocks_read u64_decode fuel _ m)
      as [[[st0 bs0] s0]|] eqn:E; [|discriminate].
    intros [= <- _ _]. apply worst_not_critical;
      [apply block_status_not_critical|eapply IH; eassumption].
  - destruct (frame_set_blocks_read u64_decode fuel _ m)
      as [[[st0 bs0] s0]|] eqn:E; [|discriminate].
    intros [= <- _ _]. apply worst_not_critical;
      [discriminate|eapply IH; eassumption].
Qed.

(** Verification changes the outcome of reading the blocks of a frame set
    and nothing else: the blocks and the cursor are those of a read that
    skips the hashes. *)
Lemma frame_set_blocks_read_use (fuel : nat) (s s' : tng_trajectory)
    (st : tng_function_status) (bs : list tng_gen_block) :
  frame_set_blocks_read u64_decode fuel s TNG_SKIP_HASH = Some (st, bs, s') ->
  frame_set_blocks_read u64_decode fuel s TNG_USE_HASH
  = Some (fold_right (fun b acc => worst (block_status TNG_USE_HASH b) acc) st bs,
          bs, s').
Proof.
  revert s st bs s'. induction fuel as [|fuel IH]; intros s st bs s'; simpl;
    [discriminate|].
  destruct (remaining s) as [|x xs]; [intros [= <- <- <-]; reflexivity|].
  destruct (frame_block u64_decode (x :: xs)) as [b|total|]; [| |discriminate].
  - destruct (Z.eqb (block_id b) TNG_TRAJECTORY_FRAME_SET);
      [intros [= <- <- <-]; reflexivity|].
    destruct (frame_set_blocks_read u64_decode fuel _ TNG_SKIP_HASH)
      as [[[st0 bs0] s0]|] eqn:E; [|discriminate].
    rewrite (IH _ _ _ _ E), block_status_skip, worst_success_l.
    intros [= <- <- <-]. reflexivity.
  - destruct (frame_set_blocks_read u64_decode fuel _ TNG_SKIP_HASH)
      as [[[st0 bs0] s0]|] eqn:E; [|discriminate].
    rewrite (IH _ _ _ _ E). intros [= <- <- <-].
    rewrite worst_fold_shift. reflexivity.
Qed.

Lemma remaining_advance (n : nat) (s : tng_trajectory) :
  remaining (advance n s) = drop n (remaining s).
Proof. unfold remaining, advance; simpl. now rewrite drop_drop. Qed.

Lemma frame_block_Skipped (bs : list Z) (total : nat) :
  frame_block u64_decode bs = Skipped total -> (8 <= total)%nat.
Proof.
  unfold frame_block, declared_length.
  destruct (read_block u64_decode bs); try discriminate.
  destruct (read_u64 u64_decode bs) as [t r| |]; try discriminate.
  destruct (Z.leb_spec 8 t); simpl; [|discriminate].
  destruct (Z.to_nat t <=? length bs)%nat; [|discriminate].
  intros [= <-]. lia.
Qed.

(** The loop over the blocks of a frame set never stops for lack of fuel:
    every turn consumes at least one byte, and the fuel it is given, the
    number of bytes left in the file, is enough. *)
Lemma frame_set_blocks_read_fuel (fuel fuel' : nat) (s : tng_trajectory)
    (m : tng_hash_mode) :
  (length (remaining s) < fuel)%nat -> (length (remaining s) < fuel')%nat ->
  frame_set_blocks_read u64_decode fuel s m
  = frame_set_blocks_read u64_decode fuel' s m.
Proof.
  revert fuel' s. induction fuel as [|fuel IH]; intros [|fuel'] s H H';
    try lia. simpl.
  destruct (remaining s) as [|x xs] eqn:E; [reflexivity|].
  destruct (frame_block u64_decode (x :: xs)) as [b|total|] eqn:F;
    [| |reflexivity].
  - destruct (Z.eqb (block_id b) TNG_TRAJECTORY_FRAME_SET); [reflexivity|].
    rewrite (IH fuel'); [reflexivity| |];
      rewrite remaining_advance, E, length_drop;
      unfold block_length, header_size; simpl in *; lia.
  - apply frame_block_Skipped in F.
    rewrite (IH fuel'); [reflexivity| |];
      rewrite remaining_advance, E, length_drop; simpl in *; lia.
Qed.

(** Whether the blocks of a frame set can be framed does not depend on the
    integrity mode. *)
Lemma frame_set_blocks_read_None (fuel : nat) (s : tng_trajectory)
    (m m' : tng_hash_mode) :
  frame_set_blocks_read u64_decode fuel s m = None ->
  frame_set_blocks_read u64_decode fuel s m' = None.
Proof.
  revert s. induction fuel as [|fuel IH]; intros s; simpl; [reflexivity|].
  destruct (remaining s) as [|x xs]; [discriminate|].
  destruct (frame_block u64_decode (x :: xs)) as [b|total|]; [| |reflexivity].
  - destruct (Z.eqb (block_id b) TNG_TRAJECTORY_FRAME_SET); [discriminate|].
    destruct (frame_set_blocks_read u64_decode fuel _ m)
      as [[[st0 bs0] s0]|] eqn:E; [discriminate|].
    now rewrite (IH _ E).
  - destruct (frame_set_blocks_read u64_decode fuel _ m)
      as [[[st0 bs0] s0]|] eqn:E; [discriminate|].
    now rewrite (IH _ E).
Qed.

Lemma frame_set_read_critical (s : tng_trajectory) (m m' : tng_hash_mode) :
  status_of (tng_frame_set_read_next u64_decode s m) = TNG_CRITICAL ->
  status_of (tng_frame_set_read_next u64_decode s m') = TNG_CRITICAL.
Proof.
  unfold tng_frame_set_read_next.
  destruct (frame_block u64_decode (remaining s)) as [b| |];
    [|intros H; exact H|reflexivity].
  destruct (Z.eqb (block_id b) TNG_TRAJECTORY_FRAME_SET); [|reflexivity].
  destruct (frame_set_blocks_read u64_decode _ _ m)
    as [[[st0 bs0] s0]|] eqn:E.
  - rewrite status_of_result_of. intros Hc. exfalso.
    revert Hc. apply worst_not_critical;
      [apply block_status_not_critical
      |eapply frame_set_blocks_read_status; eassumption].
  - now rewrite (frame_set_blocks_read_None _ _ m m' E).
Qed.

Lemma value_of_result_of {A : Type} (st : tng_function_status) (a : A)
    (s : tng_trajectory) (a' : A) :
  value_of (result_of st a s) = Some a' -> st <> TNG_CRITICAL /\ a' = a.
Proof. destruct st; simpl; intros [= <-]; split; congruence. Qed.

Lemma session_of_result_of {A : Type} (st : tng_function_status) (a : A)
    (s s' : tng_trajectory) :
  session_of (result_of st a s) = Some s' -> s' = s.
Proof. destruct st; simpl; congruence. Qed.

(** C1.  A block read in integrity mode use whose recomputed content
    digest differs from the non-zero stored digest is reported as a minor
    failure, never as a critical one; the block is still returned, content
    included, and the session is left as a read without verification
    leaves it, with the cursor behind the block.  This holds for the read
    of one block and for the read of a frame set one of whose blocks fails
    the check.  Verification never turns an outcome into a critical
    failure: a read in mode use is critical exactly when the same read in
    mode skip is. *)
Theorem digest_mismatch_is_minor :
  (forall (s : tng_trajectory) (b : tng_gen_block),
      frame_block u64_decode (remaining s) = Framed b ->
      block_hash b <> zero_hash ->
      MD5.md5 (block_contents b) <> block_hash b ->
      tng_block_read_next u64_decode s TNG_USE_HASH
      = Minor (Some b) (advance (block_length b) s)
      /\ status_of (tng_block_read_next u64_decode s TNG_USE_HASH) = TNG_FAILURE
      /\ session_of (tng_block_read_next u64_decode s TNG_USE_HASH)
         = session_of (tng_block_read_next u64_decode s TNG_SKIP_HASH)
      /\ block_contents b
         = take (length (block_contents b))
                (drop (header_size (length (block_name b))) (remaining s)))
  /\ (forall (s s' : tng_trajectory) (bs : list tng_gen_block)
             (b : tng_gen_block),
        value_of (tng_frame_set_read_next u64_decode s TNG_SKIP_HASH) = Some bs ->
        session_of (tng_frame_set_read_next u64_decode s TNG_SKIP_HASH) = Some s' ->
        In b bs ->
        block_hash b <> zero_hash ->
        MD5.md5 (block_contents b) <> block_hash b ->
        tng_frame_set_read_next u64_decode s TNG_USE_HASH = Minor (Some bs) s'
        /\ status_of (tng_frame_set_read_next u64_decode s TNG_USE_HASH)
           = TNG_FAILURE)
  /\ (forall s : tng_trajectory,
        (status_of (tng_block_read_next u64_decode s TNG_USE_HASH)
         = TNG_CRITICAL
         <-> status_of (tng_block_read_next u64_decode s TNG_SKIP_HASH)
             = TNG_CRITICAL)
        /\ (status_of (tng_frame_set_read_next u64_decode s TNG_USE_HASH)
            = TNG_CRITICAL
            <-> status_of (tng_frame_set_read_next u64_decode s TNG_SKIP_HASH)
                = TNG_CRITICAL)).
Proof.
  split; [|split].
  - intros s b Hf Hz Hd.
    pose proof (hash_verify_mismatch b Hz Hd) as Hv.
    unfold tng_block_read_next. rewrite Hf, Hv. simpl.
    repeat split. now apply framed_contents.
  - intros s s' bs b Hv Hs Hin Hz Hd.
    pose proof (hash_verify_mismatch b Hz Hd) as Hb.
    unfold tng_frame_set_read_next in *.
    destruct (frame_block u64_decode (remaining s)) as [b0| |];
      try discriminate.
    destruct (Z.eqb (block_id b0) TNG_TRAJECTORY_FRAME_SET); [|discriminate].
    destruct (frame_set_blocks_read u64_decode _ _ TNG_SKIP_HASH)
      as [[[st0 bs0] s0]|] eqn:E; [|discriminate].
    rewrite (frame_set_blocks_read_use _ _ _ _ _ E).
    apply value_of_result_of in Hv as [_ ->].
    apply session_of_result_of in Hs as ->.
    pose proof (frame_set_blocks_read_status _ _ _ _ _ _ E) as Hst.
    assert (Hw : worst (block_status TNG_USE_HASH b0)
                   (fold_right (fun b acc => worst (block_status TNG_USE_HASH b) acc)
                      st0 bs0) = TNG_FAILURE).
    { apply (worst_fold_failure (block_status TNG_USE_HASH) st0 (b0 :: bs0) b);
        auto using block_status_not_critical.
      unfold block_status. now rewrite Hb. }
    rewrite Hw. split; reflexivity.
  - intros s. split; [|split; apply frame_set_read_critical].
    unfold tng_block_read_next.
    destruct (frame_block u64_decode (remaining s)) as [b| |];
      [|split; trivial|split; trivial].
    destruct (hash_verify TNG_USE_HASH b); simpl; split; discriminate.
Qed.

End DigestMismatch.

Section DigestMismatchWitness.

Import Tng Scenario.

Lemma digest_mismatch_witness :
  status_of (tng_block_read_next be64_decode
               (advance 66 (reading corrupted_file)) TNG_USE_HASH)
  = TNG_FAILURE
  /\ status_of (tng_frame_set_read_next be64_decode (reading corrupted_file)
                  TNG_USE_HASH)
     = TNG_FAILURE.
Proof.
  split.
  - eapply (proj1 (digest_mismatch_is_minor be64_decode)).
    + vm_compute. reflexivity.
    + vm_compute. discriminate.
    + vm_compute. discriminate.
  - eapply (proj1 (proj2 (digest_mismatch_is_minor be64_decode))).
    + vm_compute. reflexivity.
    + vm_compute. reflexivity.
    + right. left. reflexivity.
    + vm_compute. discriminate.
    + vm_compute. discriminate.
Defined.

End DigestMismatchWitness.

(** ** Strings *)

Section Strings.

Import Tng.

Variable u64_decode : list Z -> Z.

Lemma read_u64_take (bs : list Z) :
  (8 <= length bs)%nat ->
  read_u64 u64_decode bs = Read (u64_decode (take 8 bs)) (drop 8 bs).
Proof.
  intros H. unfold read_u64; unfold_reader; unfold read_bytes.
  destruct (Nat.leb_spec 8 (length bs)); [reflexivity|lia].
Qed.

Lemma read_string_too_long (bs : list Z) :
  (8 <= length bs)%nat ->
  TNG_MAX_STR_LEN < u64_decode (take 8 bs) ->
  read_string u64_decode bs = ReadTooLong.
Proof.
  intros H Hl. unfold read_string; unfold_reader.
  rewrite (read_u64_take bs H).
  destruct (Z.ltb_spec TNG_MAX_STR_LEN (u64_decode (take 8 bs)));
    [reflexivity|lia].
Qed.

Lemma read_string_accepted (bs : list Z) (n : nat) :
  u64_decode (take 8 bs) = Z.of_nat n ->
  Z.of_nat n <= TNG_MAX_STR_LEN ->
  (8 + n <= length bs)%nat ->
  read_string u64_decode bs = Read (take n (drop 8 bs)) (drop (8 + n) bs).
Proof.
  intros Hn Hmax Hlen. unfold read_string; unfold_reader.
  rewrite (read_u64_take bs) by lia. rewrite Hn.
  destruct (Z.ltb_spec TNG_MAX_STR_LEN (Z.of_nat n)); [lia|].
  destruct (Z.ltb_spec (Z.of_nat n) 0); [lia|].
  unfold read_bytes. rewrite Nat2Z.id, length_drop.
  destruct (Nat.leb_spec n (length bs - 8)); [|lia].
  rewrite drop_drop. reflexivity.
Qed.

(** The same for the name of a block. *)
Lemma read_block_name_too_long (bs : list Z) :
  (24 <= length bs)%nat ->
  TNG_MAX_STR_LEN < u64_decode (take 8 (drop 16 bs)) ->
  read_block u64_decode bs = ReadTooLong.
Proof.
  intros H Hl. unfold read_block; unfold_reader.
  rewrite (read_u64_take bs) by lia.
  rewrite (read_u64_take (drop 8 bs)) by (rewrite length_drop; lia).
  rewrite drop_drop. change (8 + 8)%nat with 16%nat.
  unfold_reader.
  rewrite read_string_too_long; [reflexivity|rewrite length_drop; lia|assumption].
Qed.

(** A block with an over-long name is skipped when it lies within the
    bytes, by the total length it declares. *)
Lemma frame_block_name_too_long (bs : list Z) :
  (24 <= length bs)%nat ->
  TNG_MAX_STR_LEN < u64_decode (take 8 (drop 16 bs)) ->
  frame_block u64_decode bs
  = if Z.leb 8 (u64_decode (take 8 bs))
       && (Z.to_nat (u64_decode (take 8 bs)) <=? length bs)%nat
    then Skipped (Z.to_nat (u64_decode (take 8 bs)))
    else Malformed.
Proof.
  intros H Hl. unfold frame_block, declared_length.
  rewrite read_block_name_too_long by assumption.
  rewrite (read_u64_take bs) by lia.
  destruct (Z.leb 8 (u64_decode (take 8 bs))
            && (Z.to_nat (u64_decode (take 8 bs)) <=? length bs)%nat);
    reflexivity.
Qed.

(** The loop over the blocks of a frame set fails only where a block
    cannot be framed. *)
Lemma frame_set_blocks_read_Malformed (fuel : nat) (s : tng_trajectory)
    (m : tng_hash_mode) :
  (length (remaining s) < fuel)%nat ->
  frame_set_blocks_read u64_decode fuel s m = None ->
  exists n, frame_block u64_decode (drop n (remaining s)) = Malformed.
Proof.
  revert s. induction fuel as [|fuel IH]; intros s Hf; [lia|]. simpl.
  destruct (remaining s) as [|x xs] eqn:E; [discriminate|].
  destruct (frame_block u64_decode (x :: xs)) as [b|total|] eqn:F.
  - destruct (Z.eqb (block_id b) TNG_TRAJECTORY_FRAME_SET); [discriminate|].
    destruct (frame_set_blocks_read u64_decode fuel _ m)
      as [[[st0 bs0] s0]|] eqn:R; [discriminate|]. intros _.
    apply IH in R as [n Hn].
    + rewrite remaining_advance, E, drop_drop in Hn. eauto.
    + rewrite remaining_advance, E, length_drop.
      unfold block_length, header_size. simpl in *. lia.
  - destruct (frame_set_blocks_read u64_decode fuel _ m)
      as [[[st0 bs0] s0]|] eqn:R; [discriminate|]. intros _.
    apply frame_block_Skipped in F.
    apply IH in R as [n Hn].
    + rewrite remaining_advance, E, drop_drop in Hn. eauto.
    + rewrite remaining_advance, E, length_drop. simpl in *. lia.
  - intros _. exists 0%nat. now rewrite drop_0.
Qed.


End Strings.

Section StringsWitness.

Import Tng Scenario.


End StringsWitness.

(** ** The digest of a block is its MD5 hash *)

Section Digest.

Import Tng.

Lemma md5_length (msg : list Z) : length (MD5.md5 msg) = TNG_HASH_LEN.
Proof. unfold MD5.md5. rewrite !length_app. reflexivity. Qed.

Lemma md5_bytes (msg : list Z) (x : Z) :
  In x (MD5.md5 msg) -> 0 <= x < 256.
Proof.
  assert (B : forall w, 0 <= Z.land w 255 < 256).
  { intros w. change 255 with (Z.ones 8). rewrite Z.land_ones by lia.
    apply Z.mod_pos_bound. reflexivity. }
  unfold MD5.md5, MD5.bytes_of_word. rewrite !in_app_iff. simpl.
  intros H. repeat (destruct H as [H|H]); subst; try apply B; destruct H.
Qed.

Lemma be64_encode_length (n : Z) : length (be64_encode n) = 8%nat.
Proof. reflexivity. Qed.

Lemma be64_roundtrip (n : Z) :
  0 <= n < 2 ^ 64 -> be64_decode (be64_encode n) = n.
Proof.
  intros Hn. unfold be64_decode, be64_encode. cbn [map take fold_left].
  change 255 with (Z.ones 8).
  rewrite !Z.land_ones, !Z.shiftr_div_pow2 by lia.
  change (8 * 0) with 0. rewrite Z.pow_0_r, Z.div_1_r.
  cbn [Z.mul Pos.mul Z.pow Z.pow_pos Pos.iter].
  Z.div_mod_to_equations; lia.
Qed.

Section Codec.

Variable u64_decode : list Z -> Z.
Variable u64_encode : Z -> list Z.
Hypothesis encode_length : forall n, length (u64_encode n) = 8%nat.
Hypothesis decode_encode :
  forall n, 0 <= n < 2 ^ 64 -> u64_decode (u64_encode n) = n.

Lemma read_u64_encode (n : Z) (rest : list Z) :
  0 <= n < 2 ^ 64 ->
  read_u64 u64_decode (u64_encode n ++ rest) = Read n rest.
Proof.
  intros Hn. unfold read_u64; unfold_reader.
  rewrite <- (encode_length n), read_bytes_app. unfold read_ret.
  now rewrite decode_encode.
Qed.

Lemma read_string_encode (str rest : list Z) :
  Z.of_nat (length str) <= TNG_MAX_STR_LEN ->
  read_string u64_decode (u64_encode (Z.of_nat (length str)) ++ str ++ rest)
  = Read str rest.
Proof.
  intros Hl. unfold read_string; unfold_reader.
  rewrite read_u64_encode
    by (unfold TNG_MAX_STR_LEN, Header.TNG_MAX_STR_LEN in Hl; lia).
  destruct (Z.ltb_spec TNG_MAX_STR_LEN (Z.of_nat (length str))); [lia|].
  destruct (Z.ltb_spec (Z.of_nat (length str)) 0); [lia|].
  rewrite Nat2Z.id. apply read_bytes_app.
Qed.

(** What was written is read back: the bytes of a block frame that
    block. *)
Lemma read_block_block_bytes (b : tng_gen_block) (rest : list Z) :
  block_fits b ->
  read_block u64_decode (block_bytes u64_encode b ++ rest) = Read b rest.
Proof.
  intros (Hid & Hver & Hname & Hhash & Htotal).
  unfold read_block, block_bytes; unfold_reader.
  rewrite <- !app_assoc.
  rewrite read_u64_encode by lia.
  rewrite read_u64_encode by lia.
  rewrite read_string_encode by assumption.
  rewrite read_u64_encode by lia.
  cbn [app read_byte].
  rewrite <- Hhash, read_bytes_app.
  assert (Hty : tng_block_type_of_code (tng_block_type_code (block_type_flag b))
                = Some (block_type_flag b)) by (now destruct (block_type_flag b)).
  rewrite Hty.
  destruct (Z.ltb_spec (Z.of_nat (block_length b))
              (Z.of_nat (header_size (length (block_name b)))));
    [unfold block_length in *; lia|].
  replace (Z.to_nat (Z.of_nat (block_length b))
           - header_size (length (block_name b)))%nat
    with (length (block_contents b)) by (unfold block_length; lia).
  rewrite read_bytes_app. unfold read_ret. now destruct b.
Qed.

Lemma frame_block_block_bytes (b : tng_gen_block) (rest : list Z) :
  block_fits b ->
  frame_block u64_decode (block_bytes u64_encode b ++ rest) = Framed b.
Proof.
  intros Hb. unfold frame_block. now rewrite read_block_block_bytes.
Qed.

End Codec.

Variable u64_decode : list Z -> Z.
Variable u64_encode : Z -> list Z.

(** The padded message is the message, the byte 128, zeros, and the
    length in bits in eight bytes: a whole number of 64-byte blocks, at
    most 72 bytes longer than the message. *)
Lemma md5_pad (msg : list Z) :
  (length (MD5.pad msg) mod 64 = 0)%nat
  /\ (length msg + 9 <= length (MD5.pad msg) <= length msg + 72)%nat
  /\ take (length msg) (MD5.pad msg) = msg
  /\ MD5.pad msg !! length msg = Some 128.
Proof.
  unfold MD5.pad. cbv zeta.
  split; [|split; [|split]].
  - rewrite !length_app, length_replicate. cbn [length MD5.bytes_of_word].
    pose proof (Nat.mod_upper_bound (length msg) 64).
    pose proof (Nat.div_mod_eq (length msg) 64).
    pose proof (Nat.mod_upper_bound (119 - length msg mod 64) 64).
    pose proof (Nat.div_mod_eq (119 - length msg mod 64) 64).
    set (q := (length msg / 64)%nat) in *.
    set (r := (length msg mod 64)%nat) in *.
    set (q' := ((119 - r) / 64)%nat) in *.
    set (r' := ((119 - r) mod 64)%nat) in *.
    assert (Hq : q' = 0%nat \/ q' = 1%nat) by lia.
    replace (length msg + (1 + (r' + (4 + 4))))%nat
      with ((q + 2 - q') * 64)%nat by lia.
    apply Nat.Div0.mod_mul.
  - rewrite !length_app, length_replicate. cbn [length MD5.bytes_of_word].
    pose proof (Nat.mod_upper_bound (119 - length msg mod 64) 64). lia.
  - now rewrite take_app_length.
  - rewrite lookup_app_r by lia. now rewrite Nat.sub_diag.
Qed.


End Digest.

Section DigestWitness.

Import Tng Scenario.


End DigestWitness.

(** ** Particle data in real particle numbering *)

Section ParticleData.

Import Tng.

Local Abbreviation row := (list data_values).

Lemma place_length (arr : list row) (p : Z * row) :
  length (place arr p) = length arr.
Proof.
  unfold place. destruct (Z.leb 0 p.1); [apply length_insert|reflexivity].
Qed.

Lemma fold_place_length (ps : list (Z * row)) (arr : list row) :
  length (fold_left place ps arr) = length arr.
Proof.
  revert arr. induction ps as [|p ps IH]; intros arr; simpl; [reflexivity|].
  now rewrite IH, place_length.
Qed.

(** A place no row goes to keeps what it held. *)
Lemma fold_place_other (ps : list (Z * row)) (arr : list row) (g : Z) :
  0 <= g -> ~ In g (ps.*1) ->
  fold_left place ps arr !! Z.to_nat g = arr !! Z.to_nat g.
Proof.
  intros Hg. revert arr.
  induction ps as [|[h r] ps IH]; intros arr Hn; simpl; [reflexivity|].
  simpl in Hn. rewrite IH by tauto.
  unfold place; simpl. destruct (Z.leb_spec 0 h); [|reflexivity].
  apply list_lookup_insert_ne. intros E. apply Hn. left. lia.
Qed.

(** A row that goes to a place of the array is found there, when no other
    row goes to the same place. *)
Lemma fold_place_lookup (ps : list (Z * row)) (arr : list row)
    (g : Z) (r : row) :
  NoDup (ps.*1) -> In (g, r) ps ->
  0 <= g -> (Z.to_nat g < length arr)%nat ->
  fold_left place ps arr !! Z.to_nat g = Some r.
Proof.
  intros Hnd Hin Hg. revert arr Hnd Hin.
  induction ps as [|[h q] ps IH]; intros arr Hnd Hin Hlt; [destruct Hin|].
  simpl in *. apply NoDup_cons in Hnd as [Hh Hnd].
  destruct Hin as [[= -> ->]|Hin].
  - rewrite fold_place_other;
      [|assumption|now rewrite <- list_elem_of_In].
    unfold place; simpl. destruct (Z.leb_spec 0 g); [|lia].
    now apply list_lookup_insert_eq.
  - apply IH; [assumption|assumption|now rewrite place_length].
Qed.

Lemma NoDup_concat_disjoint {A : Type} (ls : list (list A)) :
  (forall l, In l ls -> NoDup l) ->
  (forall i j l k x, i <> j -> ls !! i = Some l -> ls !! j = Some k ->
                     In x l -> ~ In x k) ->
  NoDup (concat ls).
Proof.
  induction ls as [|l ls IH]; intros Hnd Hdis; simpl; [constructor|].
  apply NoDup_app. split; [apply Hnd; now left|]. split.
  - intros x Hx Hc. apply list_elem_of_In, in_concat in Hc as (k & Hk & Hxk).
    apply list_elem_of_In, list_elem_of_lookup in Hk as [j Hj].
    apply (Hdis 0%nat (S j) l k x); [lia|reflexivity|exact Hj| |exact Hxk].
    now apply list_elem_of_In.
  - apply IH; [intros k Hk; apply Hnd; now right|].
    intros i j k1 k2 x Hij Hi Hj. apply (Hdis (S i) (S j)); [lia|exact Hi|exact Hj].
Qed.

(** The pairing is positional: a particle data block with the ID belongs
    to the mapping block before it when no other mapping block lies
    between the two. *)
Lemma paired_blocks_after_mapping (id : Z) (m : tng_particle_mapping)
    (x : option tng_particle_mapping * tng_particle_data)
    (pre rest : list frame_set_block) (cur : option tng_particle_mapping) :
  In x (paired_blocks id (Some m) rest) ->
  In x (paired_blocks id cur (pre ++ MappingBlock m :: rest)).
Proof.
  intros Hx. revert cur. induction pre as [|b pre IH]; intros cur; simpl;
    [assumption|].
  destruct b as [m'|d'|d']; [apply IH| |apply IH].
  destruct (Z.eqb (pd_block_id d') id); [right|]; apply IH.
Qed.

Lemma paired_blocks_nearest (id : Z) (d : tng_particle_data)
    (mid post : list frame_set_block) (cur : option tng_particle_mapping) :
  (forall m', ~ In (MappingBlock m') mid) ->
  pd_block_id d = id ->
  In (cur, d) (paired_blocks id cur (mid ++ ParticleDataBlock d :: post)).
Proof.
  intros Hmid Hid. induction mid as [|b mid IH]; simpl.
  - rewrite Hid, Z.eqb_refl. now left.
  - assert (Hmid' : forall m', ~ In (MappingBlock m') mid)
      by (intros m' H; apply (Hmid m'); now right).
    destruct b as [m'|d'|d'];
      [exfalso; apply (Hmid m'); now left| |now apply IH].
    destruct (Z.eqb (pd_block_id d') id); [right|]; now apply IH.
Qed.

Lemma payload_row_lookup (d : tng_particle_data) (f j k : nat) :
  (k < block_values d)%nat ->
  payload_row d f j !! k
  = pd_values d !! ((f * block_particles d + j) * block_values d + k)%nat.
Proof.
  intros Hk. unfold payload_row.
  rewrite lookup_take_lt by assumption. now rewrite lookup_drop.
Qed.

Lemma frame_rows_length (d : tng_particle_data) (f : nat) :
  length (frame_rows d f) = block_particles d.
Proof. unfold frame_rows. now rewrite length_map, length_seq. Qed.

Lemma frame_rows_lookup (d : tng_particle_data) (f j : nat) :
  (j < block_particles d)%nat ->
  frame_rows d f !! j = Some (payload_row d f j).
Proof.
  intros Hj. unfold frame_rows.
  rewrite list_lookup_fmap, lookup_seq_lt by assumption. reflexivity.
Qed.

Lemma fold_place_Forall (P : row -> Prop) (ps : list (Z * row))
    (arr : list row) :
  Forall P arr -> (forall p, In p ps -> P p.2) ->
  Forall P (fold_left place ps arr).
Proof.
  revert arr. induction ps as [|p ps IH]; intros arr Ha Hp; simpl;
    [assumption|].
  apply IH; [|intros q Hq; apply Hp; now right].
  unfold place. destruct (Z.leb 0 p.1); [|assumption].
  apply Forall_insert; [assumption|apply Hp; now left].
Qed.

Lemma payload_row_length (d : tng_particle_data) (f j : nat) :
  payload_complete d ->
  (f < stored_frames d)%nat -> (j < block_particles d)%nat ->
  length (payload_row d f j) = block_values d.
Proof.
  unfold payload_complete, payload_row. intros Hp Hf Hj.
  rewrite length_take, length_drop, Hp.
  assert (H1 : (S f * block_particles d
                <= stored_frames d * block_particles d)%nat)
    by (apply Nat.mul_le_mono_r; lia).
  assert (H2 : (S (f * block_particles d + j) * block_values d
                <= stored_frames d * block_particles d * block_values d)%nat)
    by (apply Nat.mul_le_mono_r; lia).
  lia.
Qed.

Lemma placements_keys
    (pairs : list (option tng_particle_mapping * tng_particle_data)) (f : nat) :
  (forall p, In p pairs ->
             length (real_numbers p.1 p.2) = block_particles p.2) ->
  (placements pairs f).*1 = concat (map (fun p => real_numbers p.1 p.2) pairs).
Proof.
  intros Hlen. unfold placements.
  induction pairs as [|p pairs IH]; simpl; [reflexivity|].
  rewrite fmap_app, IH by (intros q Hq; apply Hlen; now right).
  rewrite fst_zip; [reflexivity|].
  rewrite frame_rows_length, (Hlen p) by (now left). lia.
Qed.

Lemma placements_In
    (pairs : list (option tng_particle_mapping * tng_particle_data))
    (p : option tng_particle_mapping * tng_particle_data) (f j : nat) (g : Z) :
  In p pairs ->
  real_numbers p.1 p.2 !! j = Some g ->
  (j < block_particles p.2)%nat ->
  In (g, payload_row p.2 f j) (placements pairs f).
Proof.
  intros Hp Hg Hj. unfold placements. apply in_concat.
  exists (zip (real_numbers p.1 p.2) (frame_rows p.2 f)). split.
  - apply in_map_iff. exists p. split; [reflexivity|assumption].
  - apply list_elem_of_In, list_elem_of_lookup. exists j.
    rewrite lookup_zip_with, Hg. simpl.
    now rewrite frame_rows_lookup.
Qed.

Lemma covered_real_numbers (s : tng_trajectory)
    (p : option tng_particle_mapping * tng_particle_data) :
  covered s p ->
  exists m, p.1 = Some m
            /\ real_numbers p.1 p.2 = real_particle_numbers m
            /\ length (real_particle_numbers m) = block_particles p.2
            /\ NoDup (real_particle_numbers m)
            /\ (forall g, In g (real_particle_numbers m) ->
                          0 <= g < n_particles s).
Proof.
  unfold covered, block_particles. destruct p as [[m|] d]; simpl; [|tauto].
  intros (Hc & Hl & Hn & Hr). exists m.
  split; [reflexivity|]. split; [reflexivity|].
  split; [rewrite Hl, Hc; now rewrite Nat2Z.id|]. split; assumption.
Qed.

Lemma placements_NoDup (s : tng_trajectory)
    (pairs : list (option tng_particle_mapping * tng_particle_data)) (f : nat) :
  (forall p, In p pairs -> covered s p) ->
  disjoint_ranges pairs ->
  NoDup ((placements pairs f).*1).
Proof.
  intros Hcov Hdis. rewrite placements_keys.
  - apply NoDup_concat_disjoint.
    + intros l Hl. apply in_map_iff in Hl as (p & <- & Hp).
      destruct (covered_real_numbers s p (Hcov p Hp)) as (m & _ & -> & _ & Hn & _).
      exact Hn.
    + intros i j l k x Hij Hi Hj.
      rewrite list_lookup_fmap in Hi, Hj.
      destruct (pairs !! i) as [p|] eqn:Ei; [|discriminate].
      destruct (pairs !! j) as [q|] eqn:Ej; [|discriminate].
      simpl in Hi, Hj. injection Hi as <-. injection Hj as <-.
      exact (Hdis i j p q x Hij Ei Ej).
  - intros p Hp.
    destruct (covered_real_numbers s p (Hcov p Hp)) as (m & _ & -> & Hl & _).
    exact Hl.
Qed.

(** C2.  For a frame set whose particle data blocks with the requested ID
    each follow a mapping block, with injective tables over pairwise
    disjoint sets of particles of the system, tng_particle_data_get
    succeeds with a 3-D array of frames x particles x values per frame
    whose particle axis is indexed by real particle numbers: the row of
    local index j of a block is found at the global number the nearest
    preceding mapping block gives for j, for every block and every j (no
    row of the union is missing), a particle no mapping block claims keeps
    the zero row, and a global number is the target of one row of one
    block only (no duplicates). *)
Theorem particle_data_in_real_numbering
    (s : tng_trajectory) (block_id : Z)
    (pairs : list (option tng_particle_mapping * tng_particle_data)) :
  pairs = paired_blocks block_id None
            (fs_blocks (current_trajectory_frame_set s)) ->
  pairs <> [] ->
  (forall p, In p pairs -> covered s p /\ payload_complete p.2) ->
  (forall p q, In p pairs -> In q pairs -> same_shape p.2 q.2 = true) ->
  disjoint_ranges pairs ->
  exists pv,
    tng_particle_data_get s block_id = Success pv s
    /\ pv_n_particles pv = n_particles s
    /\ length (pv_values pv) = Z.to_nat (pv_n_frames pv)
    /\ (forall frame, In frame (pv_values pv) ->
          length frame = Z.to_nat (pv_n_particles pv)
          /\ forall r, In r frame ->
                       length r = Z.to_nat (pv_n_values_per_frame pv))
    /\ (forall pre m mid d post,
          fs_blocks (current_trajectory_frame_set s)
          = pre ++ MappingBlock m :: mid ++ ParticleDataBlock d :: post ->
          (forall m', ~ In (MappingBlock m') mid) ->
          pd_block_id d = block_id ->
          pv_n_frames pv = Z.of_nat (stored_frames d)
          /\ pv_n_values_per_frame pv = pd_n_values_per_frame d
          /\ pv_type pv = pd_datatype d
          /\ forall f j g k v,
               real_particle_numbers m !! j = Some g ->
               pd_values d !! ((f * block_particles d + j) * block_values d + k)%nat
               = Some v ->
               (k < block_values d)%nat ->
               value_at pv f g k = Some v)
    /\ (forall f g frame,
          pv_values pv !! f = Some frame ->
          0 <= g < n_particles s ->
          (forall p, In p pairs -> ~ In g (real_numbers p.1 p.2)) ->
          frame !! Z.to_nat g
          = Some (replicate (Z.to_nat (pv_n_values_per_frame pv))
                    (zero_value (pv_type pv))))
    /\ (forall i i' p p' j j' g,
          pairs !! i = Some p -> pairs !! i' = Some p' ->
          real_numbers p.1 p.2 !! j = Some g ->
          real_numbers p'.1 p'.2 !! j' = Some g ->
          i = i' /\ j = j').
Proof.
  intros Hpairs Hne Hwf Hshape Hdis.
  assert (Hcov : forall p, In p pairs -> covered s p) by (intros p Hp; apply Hwf, Hp).
  unfold tng_particle_data_get. rewrite <- Hpairs.
  destruct pairs as [|[m0 d0] rest] eqn:Epairs; [congruence|]. clear Hne.
  rewrite <- Epairs in *.
  assert (Hd0 : In (m0, d0) pairs) by (rewrite Epairs; now left).
  assert (Hall : forallb (same_shape d0) (map snd rest) = true).
  { apply forallb_forall. intros d Hd. apply in_map_iff in Hd as (q & <- & Hq).
    apply (Hshape (m0, d0) q); [assumption|rewrite Epairs; now right]. }
  rewrite Hall. eexists. split; [reflexivity|]. cbn [pv_values pv_n_frames
    pv_n_particles pv_n_values_per_frame pv_type].
  split; [reflexivity|].
  split; [now rewrite length_map, length_seq, Nat2Z.id|].
  split.
  { intros frame Hf. apply in_map_iff in Hf as (f & <- & Hf).
    apply in_seq in Hf.
    split; [now rewrite fold_place_length, length_replicate|].
    apply List.Forall_forall, fold_place_Forall.
    - apply Forall_forall. intros r Hr.
      apply elem_of_replicate in Hr as [-> _].
      apply length_replicate.
    - intros [g r] Hr. unfold placements in Hr.
      apply in_concat in Hr as (l & Hl & Hr).
      apply in_map_iff in Hl as (q & <- & Hq).
      apply list_elem_of_In, elem_of_zip_r in Hr.
      apply list_elem_of_In, in_map_iff in Hr as (j & <- & Hj).
      apply in_seq in Hj. simpl.
      pose proof (Hshape (m0, d0) q Hd0 Hq) as Hs.
      unfold same_shape in Hs; simpl in Hs.
      apply andb_prop in Hs as [Hs Hv]. apply andb_prop in Hs as [_ Hfr].
      apply Nat.eqb_eq in Hfr. apply Z.eqb_eq in Hv.
      rewrite payload_row_length;
        [unfold block_values; now rewrite Hv|apply Hwf, Hq|lia|lia]. }
  split; [|split].
  - intros pre m mid d post Hblocks Hmid Hid.
    assert (Hin : In (Some m, d) pairs).
    { rewrite Hpairs, Hblocks. apply paired_blocks_after_mapping.
      now apply paired_blocks_nearest. }
    pose proof (Hshape (m0, d0) (Some m, d) Hd0 Hin) as Hs.
    unfold same_shape in Hs; simpl in Hs.
    apply andb_prop in Hs as [Hs Hv]. apply andb_prop in Hs as [Ht Hf].
    apply Nat.eqb_eq in Hf. apply Z.eqb_eq in Hv, Ht.
    split; [now rewrite Hf|].
    split; [now rewrite Hv|].
    split; [destruct (pd_datatype d), (pd_datatype d0); now try discriminate|].
    intros f j g k v Hg Hval Hk.
    destruct (Hwf _ Hin) as [Hc Hpay].
    destruct (covered_real_numbers s _ Hc) as (m1 & E1 & E & Hlen & _ & Hrange).
    simpl in E1, E, Hlen. injection E1 as <-.
    assert (Hj : (j < block_particles d)%nat)
      by (rewrite <- Hlen; eapply lookup_lt_Some; eassumption).
    assert (Hgr : 0 <= g < n_particles s).
    { apply Hrange, list_elem_of_In, list_elem_of_lookup. eauto. }
    assert (Hfr : (f < stored_frames d0)%nat).
    { apply lookup_lt_Some in Hval. unfold payload_complete in Hpay.
      simpl in Hpay. rewrite Hpay, Hf in Hval.
      destruct (Nat.lt_ge_cases f (stored_frames d0)) as [|Hge]; [assumption|].
      exfalso.
      pose proof (Nat.mul_le_mono_r _ _ (block_particles d) Hge) as H1.
      assert (H2 : (stored_frames d0 * block_particles d
                    <= f * block_particles d + j)%nat) by lia.
      pose proof (Nat.mul_le_mono_r _ _ (block_values d) H2) as H3.
      lia. }
    unfold value_at. cbn [pv_values].
    destruct (Z.leb_spec 0 g); [|lia].
    rewrite list_lookup_fmap, lookup_seq_lt by assumption. simpl.
    rewrite (fold_place_lookup _ _ g (payload_row d f j)).
    + simpl. rewrite payload_row_lookup by assumption. exact Hval.
    + now apply (placements_NoDup s).
    + apply (placements_In pairs (Some m, d)); assumption.
    + lia.
    + rewrite length_replicate. lia.
  - intros f g frame Hframe Hg Hnot.
    rewrite list_lookup_fmap in Hframe.
    destruct (seq 0 (stored_frames d0) !! f) as [f'|]; [|discriminate].
    simpl in Hframe. injection Hframe as <-.
    rewrite fold_place_other.
    + apply lookup_replicate_2. lia.
    + lia.
    + rewrite placements_keys.
      * intros Hin. apply in_concat in Hin as (l & Hl & Hgl).
        apply in_map_iff in Hl as (p & <- & Hp). exact (Hnot p Hp Hgl).
      * intros p Hp.
        destruct (covered_real_numbers s p (Hcov p Hp)) as (m & _ & -> & Hl & _).
        exact Hl.
  - intros i i' p p' j j' g Hi Hi' Hj Hj'.
    assert (i = i') as <-.
    { destruct (Nat.eq_dec i i') as [|Hii]; [assumption|exfalso].
      apply (Hdis i i' p p' g Hii Hi Hi').
      - apply list_elem_of_In, list_elem_of_lookup. eauto.
      - apply list_elem_of_In, list_elem_of_lookup. eauto. }
    split; [reflexivity|].
    rewrite Hi in Hi'. injection Hi' as <-.
    assert (Hp : In p pairs)
      by (apply list_elem_of_In, list_elem_of_lookup; eauto).
    destruct (covered_real_numbers s p (Hcov p Hp)) as (m1 & _ & E & _ & Hn & _).
    rewrite E in Hj, Hj'. exact (NoDup_lookup _ _ _ _ Hn Hj Hj').
Qed.

End ParticleData.

Section ParticleDataWitness.

Import Tng Scenario.

Lemma particle_data_witness :
  exists pv,
    tng_particle_data_get two_partitions TNG_TRAJ_POSITIONS
    = Success pv two_partitions
    /\ value_at pv 1 4 0 = Some (dv_f 20)
    /\ value_at pv 0 5 0 = Some (dv_f 14).
Proof.
  assert (N : n_particles two_partitions = 6) by reflexivity.
  destruct (particle_data_in_real_numbering two_partitions TNG_TRAJ_POSITIONS
              [(Some mapping_a, positions_a); (Some mapping_b, positions_b)]
              eq_refl)
    as (pv & Hget & _ & _ & _ & Hplace & _).
  - discriminate.
  - intros p [<-|[<-|[]]]; (split; [|reflexivity]);
      (split; [reflexivity|split; [reflexivity|split]]).
    + repeat (apply NoDup_cons; split; [rewrite list_elem_of_In; simpl; lia|]);
        constructor.
    + rewrite N. intros g [<-|[<-|[<-|[]]]]; lia.
    + repeat (apply NoDup_cons; split; [rewrite list_elem_of_In; simpl; lia|]);
        constructor.
    + rewrite N. intros g [<-|[<-|[<-|[]]]]; lia.
  - intros p q [<-|[<-|[]]] [<-|[<-|[]]]; reflexivity.
  - intros [|[|i]] [|[|j]] p q g Hij Hi Hj; try discriminate; try congruence;
      injection Hi as <-; injection Hj as <-;
      intros [<-|[<-|[<-|[]]]] [H|[H|[H|[]]]]; discriminate.
  - exists pv. split; [exact Hget|]. split.
    + apply (Hplace [] mapping_a [] positions_a
               [MappingBlock mapping_b; ParticleDataBlock positions_b]
               eq_refl (fun _ H => H) eq_refl) with (j := 0%nat);
        [reflexivity|reflexivity|vm_compute; lia].
    + apply (Hplace [MappingBlock mapping_a; ParticleDataBlock positions_a]
               mapping_b [] positions_b [] eq_refl (fun _ H => H) eq_refl)
        with (j := 1%nat); [reflexivity|reflexivity|vm_compute; lia].
Defined.

End ParticleDataWitness.

(** ** Particle counts *)

Section ParticleCount.

Import Tng.

Lemma topology_n_particles_app (mols mols' : list tng_molecule) :
  topology_n_particles (mols ++ mols')
  = topology_n_particles mols + topology_n_particles mols'.
Proof.
  unfold topology_n_particles.
  induction mols as [|m mols IH]; simpl; [reflexivity|].
  rewrite IH. lia.
Qed.

(** Replacing a molecule changes the total by the difference of its
    share. *)
Lemma topology_n_particles_insert (mols : list tng_molecule) (i : nat)
    (m m' : tng_molecule) :
  mols !! i = Some m ->
  topology_n_particles (<[i := m']> mols)
  = topology_n_particles mols
    - molecule_cnt m * molecule_n_atoms m
    + molecule_cnt m' * molecule_n_atoms m'.
Proof.
  revert i. induction mols as [|x mols IH]; intros [|i] H;
    try discriminate; simpl in *.
  - injection H as ->. lia.
  - rewrite (IH i H). lia.
Qed.

(** Setting the instance count of a molecule to [cnt] changes the count of
    a session with a constant number of particles by (cnt - old count)
    times the atoms of the molecule. *)
Lemma tng_molecule_cnt_set_n_particles (s s' : tng_trajectory) (i : nat)
    (cnt : Z) (m : tng_molecule) :
  var_num_atoms_flag s = TNG_CONSTANT_N_ATOMS ->
  molecules s !! i = Some m ->
  tng_molecule_cnt_set s i cnt = Success tt s' ->
  n_particles s' = n_particles s + (cnt - molecule_cnt m) * molecule_n_atoms m.
Proof.
  intros Hflag Hm. unfold tng_molecule_cnt_set. rewrite Hm.
  destruct (Z.ltb cnt 0); [discriminate|]. intros [= <-].
  unfold n_particles; simpl. rewrite Hflag.
  rewrite (topology_n_particles_insert _ _ m) by assumption.
  unfold molecule_n_atoms; simpl. lia.
Qed.

Lemma length_concat_insert {A B : Type} (f : A -> list B) (l : list A)
    (i : nat) (x x' : A) :
  l !! i = Some x ->
  (length (concat (map f (<[i := x']> l))) + length (f x)
   = length (concat (map f l)) + length (f x'))%nat.
Proof.
  revert i. induction l as [|y l IH]; intros [|i] H; try discriminate;
    simpl in *.
  - injection H as ->. rewrite !length_app. lia.
  - rewrite !length_app. specialize (IH i H). lia.
Qed.

(** Adding an atom to a residue of a molecule adds one particle for each
    instance of the molecule. *)
Lemma tng_residue_atom_add_n_particles (s s' : tng_trajectory)
    (residue : nat * nat * nat) (name type : string)
    (atom : nat * nat * nat * nat) (m : tng_molecule) :
  var_num_atoms_flag s = TNG_CONSTANT_N_ATOMS ->
  molecules s !! residue.1.1 = Some m ->
  tng_residue_atom_add s residue name type = Success atom s' ->
  n_particles s' = n_particles s + molecule_cnt m.
Proof.
  intros Hflag Hm. unfold tng_residue_atom_add. rewrite Hm.
  destruct (molecule_chains m !! residue.1.2) as [c|] eqn:Hc; [|discriminate].
  destruct (chain_residues c !! residue.2) as [r|] eqn:Hr; [|discriminate].
  intros [= _ <-]. unfold n_particles; simpl. rewrite Hflag.
  rewrite (topology_n_particles_insert _ _ m) by assumption.
  unfold molecule_n_atoms; simpl.
  match goal with
  | |- context [<[residue.1.2 := ?c']> (molecule_chains m)] =>
      pose proof (length_concat_insert chain_atoms _ _ c c' Hc) as Hchains
  end.
  match type of Hchains with
  | context [<[residue.2 := ?r']> (chain_residues c)] =>
      pose proof (length_concat_insert residue_atoms _ _ r r' Hr) as Hres
  end.
  unfold chain_atoms in *. cbn [chain_residues residue_atoms] in *.
  rewrite length_app in Hres. cbn [length] in Hres.
  match goal with
  | |- context [Z.of_nat (length ?l + _)] =>
      match l with
      | context [<[residue.1.2 := _]> _] =>
          assert (Hn : length l
                       = S (length (concat
                                      (map (fun c => concat (map residue_atoms
                                                               (chain_residues c)))
                                         (molecule_chains m))))) by lia;
          rewrite Hn
      end
  end.
  nia.
Qed.


End ParticleCount.

Section ParticleCountWitness.

Import Tng Scenario.


End ParticleCountWitness.
